(** * The real-time stream manager of the trading dashboard

    A shallow embedding of [lib/websocket.ts]: the stream-name helpers
    ([createStreamUrl], [getKlineStreamName], [getTradeStreamName]), the
    kline parser ([parseKlineData]) and the [BinanceWebSocket] class with its
    socket callbacks, its reconnection timer and its keepalive timer.

    Conventions of the embedding.
    - JavaScript strings are [string]s of 8-bit characters; [toLowerCase] is
      the ASCII lower-casing (exchange symbols are ASCII).
    - Runtime values are the values [JSON.parse] can produce, plus
      [undefined]; numbers that travel in frames are integers (timestamps and
      identifiers; the exchange sends prices and quantities as text), so a
      number is a [Z].
    - [JSON.parse] and [parseFloat] belong to the platform: the class is
      modelled over an arbitrary parser and an arbitrary text-to-float
      conversion (section variables); a small JSON reader is supplied to run
      the model on concrete frames.
    - The browser side (sockets with their [readyState], pending timeouts,
      running intervals) is an explicit part of the state; every callback the
      class installs is a transition on that state.  The [WebSocket]
      constructor is modelled on the addresses it accepts: it throws on an
      address with a fragment, and what is stated about the socket made
      carries the acceptance as a hypothesis.  Timer ids come from a
      counter of the model; the platform chooses them, and nothing is
      stated about their values.
    - Subscriber callbacks are opaque: a call to one is recorded in the
      trace of the transition and does not act on the manager. *)

From stdpp Require Import gmap strings list fin_maps pretty.
From Stdlib Require Import ZArith Ascii String.

Local Open Scope string_scope.
Local Open Scope list_scope.

(** ** Stream-name helpers *)

Module Codec.

(** [String.prototype.toLowerCase], on ASCII. *)
Definition is_upper (c : ascii) : bool :=
  let n := nat_of_ascii c in (65 <=? n)%nat && (n <=? 90)%nat.

Definition lower_ascii (c : ascii) : ascii :=
  if is_upper c then ascii_of_nat (nat_of_ascii c + 32) else c.

Fixpoint toLowerCase (s : string) : string :=
  match s with
  | EmptyString => EmptyString
  | String c s' => String (lower_ascii c) (toLowerCase s')
  end.

(** [const WS_BASE_URL] *)
Definition WS_BASE_URL : string := "wss://testnet.binance.vision/ws".

(** [Array.prototype.join] on an array of strings. *)
Fixpoint join (sep : string) (l : list string) : string :=
  match l with
  | [] => ""
  | [x] => x
  | x :: l' => x +:+ sep +:+ join sep l'
  end.

(** [createStreamUrl]: a single stream gets the direct path, any other
    number of streams (zero included) the combined one. *)
Definition createStreamUrl (streams : list string) : string :=
  match streams with
  | [s0] => WS_BASE_URL +:+ "/" +:+ s0
  | _ => WS_BASE_URL +:+ "/stream?streams=" +:+ join "/" streams
  end.

(** [ChartInterval] is a union of string literals; at run time an interval
    is its token. *)
Definition ChartInterval := string.

Definition supported_intervals : list ChartInterval :=
  ["1m"; "3m"; "5m"; "15m"; "30m"; "1h"; "2h"; "4h"; "6h"; "8h"; "12h";
   "1d"; "3d"; "1w"; "1M"].

Definition getKlineStreamName (symbol : string) (interval : ChartInterval) : string :=
  toLowerCase symbol +:+ "@kline_" +:+ interval.

Definition getTradeStreamName (symbol : string) : string :=
  toLowerCase symbol +:+ "@trade".

(** The last character of a string. *)
Fixpoint last_char (s : string) : option ascii :=
  match s with
  | EmptyString => None
  | String c s' =>
      match last_char s' with
      | Some c' => Some c'
      | None => Some c
      end
  end.

(** Two characters are the same up to letter case: equal, or one is an
    upper-case letter and the other the lower-case letter 32 places on. *)
Inductive case_variant : ascii -> ascii -> Prop :=
  | cv_same c : case_variant c c
  | cv_up_low c : is_upper c = true ->
      case_variant c (ascii_of_nat (nat_of_ascii c + 32))
  | cv_low_up c : is_upper c = true ->
      case_variant (ascii_of_nat (nat_of_ascii c + 32)) c.

(** Two symbols differ only in letter case: same length, and characters at
    the same place are case variants of each other. *)
Inductive differ_only_in_case : string -> string -> Prop :=
  | doc_nil : differ_only_in_case EmptyString EmptyString
  | doc_cons c1 c2 s1 s2 :
      case_variant c1 c2 -> differ_only_in_case s1 s2 ->
      differ_only_in_case (String c1 s1) (String c2 s2).

End Codec.

(** ** Runtime values and exceptions *)

Module JS.

Inductive exn := SyntaxError | TypeError.

(** A computation that may throw. *)
Inductive result (A : Type) : Type :=
  | Ok (a : A)
  | Throw (e : exn).
Arguments Ok {A} a.
Arguments Throw {A} e.

#[global] Instance result_ret : MRet result := fun A a => Ok a.
#[global] Instance result_bind : MBind result := fun A B f m =>
  match m with
  | Ok a => f a
  | Throw e => Throw e
  end.

(** The values [JSON.parse] produces, and [undefined] (what reading an
    absent property gives). *)
#[warnings="-register-all"]
Inductive value :=
  | VUndefined
  | VNull
  | VBool (b : bool)
  | VNum (n : Z)
  | VStr (s : string)
  | VArr (items : list value)
  | VObj (fields : list (string * value)).

(** Own property of an object literal; the first binding of a name is the
    one in force. *)
Fixpoint assoc (k : string) (fields : list (string * value)) : value :=
  match fields with
  | [] => VUndefined
  | (k', v) :: fields' => if String.eqb k k' then v else assoc k fields'
  end.

Definition has_own (k : string) (fields : list (string * value)) : bool :=
  existsb (fun kv => String.eqb k (fst kv)) fields.

(** [o.k] for the property names the class reads ([data], [e], [s], [k],
    [i], [t], [o], [h], [l], [c], [v]): none of them is a property of a
    string, a number, a boolean or an array, so only objects can answer
    with something else than [undefined]; reading from [null] or
    [undefined] throws. *)
Definition get (o : value) (k : string) : result value :=
  match o with
  | VUndefined | VNull => Throw TypeError
  | VObj fields => Ok (assoc k fields)
  | _ => Ok VUndefined
  end.

(** Truthiness, as used by [||] and [if]. *)
Definition truthy (v : value) : bool :=
  match v with
  | VUndefined | VNull => false
  | VBool b => b
  | VNum n => negb (n =? 0)%Z
  | VStr s => negb (String.eqb s "")
  | VArr _ | VObj _ => true
  end.

(** [v === "lit"] *)
Definition is_str (lit : string) (v : value) : bool :=
  match v with
  | VStr s => String.eqb s lit
  | _ => false
  end.

(** [Number.prototype.toString] on an integer (decimal digits; the
    exponent form that starts at 10^21 is outside the model). *)
Definition Number_toString (n : Z) : string := pretty n.

(** String conversion, as a template literal does it.  An array joins its
    elements with commas, [null] and [undefined] elements giving the empty
    string; a plain object gives ["[object Object]"], unless it shadows
    [toString] with a (necessarily non-callable) own property, in which
    case the conversion throws. *)
Fixpoint ToString (v : value) : result string :=
  match v with
  | VUndefined => Ok "undefined"
  | VNull => Ok "null"
  | VBool true => Ok "true"
  | VBool false => Ok "false"
  | VNum n => Ok (Number_toString n)
  | VStr s => Ok s
  | VArr items =>
      (fix join_items (l : list value) : result string :=
         match l with
         | [] => Ok ""
         | x :: l' =>
             let elem := match x with
                         | VUndefined | VNull => Ok ""
                         | _ => ToString x
                         end in
             match elem with
             | Throw e => Throw e
             | Ok a =>
                 match l' with
                 | [] => Ok a
                 | _ :: _ =>
                     match join_items l' with
                     | Throw e => Throw e
                     | Ok b => Ok (a +:+ "," +:+ b)
                     end
                 end
             end
         end) items
  | VObj fields =>
      if has_own "toString" fields then Throw TypeError
      else Ok "[object Object]"
  end.

(** [v.toLowerCase()]: defined on strings only. *)
Definition toLowerCase_of (v : value) : result string :=
  match v with
  | VStr s => Ok (Codec.toLowerCase s)
  | _ => Throw TypeError
  end.

End JS.

(** ** Arithmetic on numbers *)

(** JavaScript numbers are binary64 floating-point numbers.  The one
    computation the module makes on them is [Math.floor(t / 1000)]: the
    quotient is the binary64 number nearest to the exact one (ties to the
    even mantissa), and only then is it rounded down.  A finite binary64
    number is given here as a pair [(m, e)] standing for [m * 2 ^ e]; the
    operands are integers that are binary64 numbers, the divisor positive,
    and quotients are in the normal range. *)
Module Float64.

(** The integer part of the binary logarithm of [n / d], for positive [n]
    and [d]. *)
Definition log2_quot (n d : Z) : Z :=
  (let L := Z.log2 n - Z.log2 d in
   if (if L <? 0 then d <=? n * 2 ^ (- L) else d * 2 ^ L <=? n) then L else L - 1)%Z.

(** [n / d] for positive operands: a mantissa of 53 bits, rounded to
    nearest, ties to even. *)
Definition div_pos (n d : Z) : Z * Z :=
  (let e := log2_quot n d - 52 in
   let num := if e <? 0 then n * 2 ^ (- e) else n in
   let den := if e <? 0 then d else d * 2 ^ e in
   let q := num / den in
   let r := num mod den in
   let m := if 2 * r <? den then q
            else if den <? 2 * r then q + 1
            else if Z.even q then q else q + 1 in
   (m, e))%Z.

(** [a / b] *)
Definition divide (a b : Z) : Z * Z :=
  (if a =? 0 then (0, 0)
   else if 0 <? a then div_pos a b
   else let '(m, e) := div_pos (- a) b in (- m, e))%Z.

(** [Math.floor] *)
Definition Math_floor (x : Z * Z) : Z :=
  (let '(m, e) := x in
   if e <? 0 then m / 2 ^ (- e) else m * 2 ^ e)%Z.

(** [Number.MAX_SAFE_INTEGER + 1] *)
Definition two53 : Z := (2 ^ 53)%Z.

End Float64.

(** ** Data carried by the streams *)

Module Data.
Import JS.

(** [ConnectionState] *)
Inductive ConnectionState := connecting | connected | disconnected | error.

(** [WebSocket.readyState] *)
Inductive ReadyState := CONNECTING | OPEN | CLOSING | CLOSED.

(** Subscriber callbacks are named, not inspected. *)
Definition KlineHandler := nat.
Definition TradeHandler := nat.
Definition ConnectionHandler := nat.

(** [BinanceKlineWS], with the fields the class reads; [k_t] is the kline
    start time in milliseconds. *)
Record Kline := {
  k_t : Z;
  k_i : string;
  k_o : string;
  k_c : string;
  k_h : string;
  k_l : string;
  k_v : string;
}.

Record BinanceKlineWS := {
  kline_e : string;
  kline_s : string;
  kline_k : Kline;
}.

(** [CandlestickData]; [time] is in whole seconds. *)
Record CandlestickData (float64 : Type) := {
  time : Z;
  open : float64;
  high : float64;
  low : float64;
  close : float64;
  volume : option float64;
}.
Arguments time {float64} _.
Arguments open {float64} _.
Arguments high {float64} _.
Arguments low {float64} _.
Arguments close {float64} _.
Arguments volume {float64} _.

Definition as_str (v : value) : option string :=
  match v with VStr s => Some s | _ => None end.

Definition as_num (v : value) : option Z :=
  match v with VNum n => Some n | _ => None end.

Definition as_obj (v : value) : option (list (string * value)) :=
  match v with VObj fields => Some fields | _ => None end.

(** [data as BinanceKlineWS].  The cast is unchecked in the source; this
    is the reading of a payload whose fields have the declared types, and
    [None] for any other payload. *)
Definition asBinanceKlineWS (data : value) : option BinanceKlineWS :=
  top ← as_obj data;
  e ← as_str (assoc "e" top);
  s ← as_str (assoc "s" top);
  kf ← as_obj (assoc "k" top);
  t ← as_num (assoc "t" kf);
  i ← as_str (assoc "i" kf);
  o ← as_str (assoc "o" kf);
  c ← as_str (assoc "c" kf);
  h ← as_str (assoc "h" kf);
  l ← as_str (assoc "l" kf);
  v ← as_str (assoc "v" kf);
  Some {| kline_e := e; kline_s := s;
          kline_k := {| k_t := t; k_i := i; k_o := o; k_c := c;
                        k_h := h; k_l := l; k_v := v |} |}.

(** What a transition makes visible outside the manager. *)
Inductive Event (float64 : Type) :=
  | ConnectionNotified (h : ConnectionHandler) (state : ConnectionState)
  | KlineDelivered (h : KlineHandler) (candle : option (CandlestickData float64))
  | TradeDelivered (h : TradeHandler) (tick : value)
  | SocketCreated (id : nat) (url : string)
  | SocketCloseCalled (id : nat)
  | SocketSent (id : nat) (payload : string)
  | TimeoutSet (id : nat) (delay : Z)
  | IntervalSet (id : nat) (period : Z)
  | IntervalCleared (id : nat)
  | ConsoleError (msg : string).
Arguments ConnectionNotified {float64} h state.
Arguments KlineDelivered {float64} h candle.
Arguments TradeDelivered {float64} h tick.
Arguments SocketCreated {float64} id url.
Arguments SocketCloseCalled {float64} id.
Arguments SocketSent {float64} id payload.
Arguments TimeoutSet {float64} id delay.
Arguments IntervalSet {float64} id period.
Arguments IntervalCleared {float64} id.
Arguments ConsoleError {float64} msg.

End Data.

(** ** The browser side *)

Module Browser.
Import Data.

Record WebSocket := {
  url : string;
  readyState : ReadyState;
}.

(** Sockets are named by their rank of creation; a timer id is a positive
    number, shared by [setTimeout] and [setInterval].  Every timeout the
    class sets runs the same reconnection closure, every interval the same
    ping closure, so a pending timeout is its id and delay, a running
    interval its id. *)
Record t := {
  sockets : list WebSocket;
  timeouts : gmap nat Z;
  intervals : gset nat;
  next_timer : nat;
}.

Definition initial : t :=
  {| sockets := []; timeouts := ∅; intervals := ∅; next_timer := 1 |}.

Definition with_sockets (f : list WebSocket -> list WebSocket) (b : t) : t :=
  {| sockets := f (sockets b); timeouts := timeouts b;
     intervals := intervals b; next_timer := next_timer b |}.

Definition with_timeouts (f : gmap nat Z -> gmap nat Z) (b : t) : t :=
  {| sockets := sockets b; timeouts := f (timeouts b);
     intervals := intervals b; next_timer := next_timer b |}.

Definition with_intervals (f : gset nat -> gset nat) (b : t) : t :=
  {| sockets := sockets b; timeouts := timeouts b;
     intervals := f (intervals b); next_timer := next_timer b |}.

Definition fresh_timer (b : t) : t :=
  {| sockets := sockets b; timeouts := timeouts b;
     intervals := intervals b; next_timer := S (next_timer b) |}.

Definition set_readyState (r : ReadyState) (w : WebSocket) : WebSocket :=
  {| url := url w; readyState := r |}.

Definition readyState_of (b : t) (id : nat) : option ReadyState :=
  readyState <$> sockets b !! id.

(** The [WebSocket] constructor throws [SyntaxError] on an address that
    has a fragment.  The addresses of the module start with [WS_BASE_URL],
    which parses; what follows cannot make the parsing fail, and the
    fragment starts at the first [#]. *)
Fixpoint has_fragment (u : string) : bool :=
  match u with
  | EmptyString => false
  | String c u' => Ascii.eqb c "#" || has_fragment u'
  end.

Definition accepts (u : string) : bool := negb (has_fragment u).

(** [socket.close()]: starts the closing handshake of a socket that is
    connecting or open, and does nothing on one that is closing or closed;
    the [close] event comes later. *)
Definition close_socket (w : WebSocket) : WebSocket :=
  match readyState w with
  | CONNECTING | OPEN => set_readyState CLOSING w
  | CLOSING | CLOSED => w
  end.

End Browser.

(** ** The [BinanceWebSocket] class *)

Module Manager.
Import Codec JS Data.

Record BinanceWebSocket := {
  ws : option nat;
  reconnectAttempts : nat;
  pingInterval : option nat;
  streams : list string;
  klineHandlers : gmap string KlineHandler;
  tradeHandlers : gmap string TradeHandler;
  connectionHandlers : list ConnectionHandler;
}.

(** The two private fields that are never assigned. *)
Definition maxReconnectAttempts : nat := 5.
Definition reconnectDelay : Z := 1000.

(** [new BinanceWebSocket()] *)
Definition new_BinanceWebSocket : BinanceWebSocket :=
  {| ws := None; reconnectAttempts := 0; pingInterval := None; streams := [];
     klineHandlers := ∅; tradeHandlers := ∅; connectionHandlers := [] |}.

Definition with_ws (x : option nat) (m : BinanceWebSocket) : BinanceWebSocket :=
  {| ws := x; reconnectAttempts := reconnectAttempts m;
     pingInterval := pingInterval m; streams := streams m;
     klineHandlers := klineHandlers m; tradeHandlers := tradeHandlers m;
     connectionHandlers := connectionHandlers m |}.

Definition with_reconnectAttempts (x : nat) (m : BinanceWebSocket) : BinanceWebSocket :=
  {| ws := ws m; reconnectAttempts := x;
     pingInterval := pingInterval m; streams := streams m;
     klineHandlers := klineHandlers m; tradeHandlers := tradeHandlers m;
     connectionHandlers := connectionHandlers m |}.

Definition with_pingInterval (x : option nat) (m : BinanceWebSocket) : BinanceWebSocket :=
  {| ws := ws m; reconnectAttempts := reconnectAttempts m;
     pingInterval := x; streams := streams m;
     klineHandlers := klineHandlers m; tradeHandlers := tradeHandlers m;
     connectionHandlers := connectionHandlers m |}.

Definition with_streams (x : list string) (m : BinanceWebSocket) : BinanceWebSocket :=
  {| ws := ws m; reconnectAttempts := reconnectAttempts m;
     pingInterval := pingInterval m; streams := x;
     klineHandlers := klineHandlers m; tradeHandlers := tradeHandlers m;
     connectionHandlers := connectionHandlers m |}.

Definition with_klineHandlers (f : gmap string KlineHandler -> gmap string KlineHandler)
    (m : BinanceWebSocket) : BinanceWebSocket :=
  {| ws := ws m; reconnectAttempts := reconnectAttempts m;
     pingInterval := pingInterval m; streams := streams m;
     klineHandlers := f (klineHandlers m); tradeHandlers := tradeHandlers m;
     connectionHandlers := connectionHandlers m |}.

Definition with_tradeHandlers (f : gmap string TradeHandler -> gmap string TradeHandler)
    (m : BinanceWebSocket) : BinanceWebSocket :=
  {| ws := ws m; reconnectAttempts := reconnectAttempts m;
     pingInterval := pingInterval m; streams := streams m;
     klineHandlers := klineHandlers m; tradeHandlers := f (tradeHandlers m);
     connectionHandlers := connectionHandlers m |}.

Definition with_connectionHandlers (f : list ConnectionHandler -> list ConnectionHandler)
    (m : BinanceWebSocket) : BinanceWebSocket :=
  {| ws := ws m; reconnectAttempts := reconnectAttempts m;
     pingInterval := pingInterval m; streams := streams m;
     klineHandlers := klineHandlers m; tradeHandlers := tradeHandlers m;
     connectionHandlers := f (connectionHandlers m) |}.

(** [Set.prototype.add] and [Set.prototype.delete], on a set kept in
    insertion order. *)
Definition set_add (h : ConnectionHandler) (l : list ConnectionHandler) : list ConnectionHandler :=
  if bool_decide (h ∈ l) then l else l ++ [h].

Definition set_delete (h : ConnectionHandler) (l : list ConnectionHandler) : list ConnectionHandler :=
  filter (fun h' => h' ≠ h) l.

(** The whole state: the object and the browser it lives in. *)
Record Sys := {
  this : BinanceWebSocket;
  browser : Browser.t;
}.

Definition initial : Sys :=
  {| this := new_BinanceWebSocket; browser := Browser.initial |}.

(** The text of [JSON.stringify({ method: "ping" })]. *)
Definition dquote : string := String (ascii_of_nat 34) EmptyString.
Definition ping_payload : string :=
  "{" +:+ dquote +:+ "method" +:+ dquote +:+ ":" +:+ dquote +:+ "ping" +:+ dquote +:+ "}".

(** What can happen to the manager: a call of a public method by
    application code, an event of one of the sockets it made, or the
    firing of one of its timers. *)
Inductive Input :=
  | Connect (ss : list string)
  | Disconnect
  | SubscribeKline (symbol : string) (interval : ChartInterval) (h : KlineHandler)
  | UnsubscribeKline (symbol : string) (interval : ChartInterval)
  | SubscribeTrade (symbol : string) (h : TradeHandler)
  | UnsubscribeTrade (symbol : string)
  | OnConnectionChange (h : ConnectionHandler)
  | RemoveConnectionHandler (h : ConnectionHandler)
  | SocketOpens (id : nat)
  | SocketMessage (id : nat) (data : string)
  | SocketErrors (id : nat)
  | SocketCloses (id : nat)
  | TimeoutFires (id : nat)
  | IntervalFires (id : nat).

Definition is_Connect (i : Input) : bool :=
  match i with Connect _ => true | _ => false end.

Definition no_Connect (inputs : list Input) : bool :=
  forallb (fun i => negb (is_Connect i)) inputs.

(** The two channels a stream key can belong to. *)
Inductive Channel := KlineChannel | TradeChannel.


Section Class.

Context {float64 : Type}.
Variable parseFloat : string -> float64.
Variable JSON_parse : string -> option value.

(** [parseKlineData], on a frame that has the declared types. *)
Definition parseKlineData (data : BinanceKlineWS) : CandlestickData float64 :=
  {| time := Float64.Math_floor (Float64.divide (k_t (kline_k data)) 1000);
     open := parseFloat (k_o (kline_k data));
     high := parseFloat (k_h (kline_k data));
     low := parseFloat (k_l (kline_k data));
     close := parseFloat (k_c (kline_k data));
     volume := Some (parseFloat (k_v (kline_k data))) |}.

(** A method body: it reads and writes the state and leaves a trace. *)
Definition M (A : Type) : Type := Sys -> A * Sys * list (Event float64).

#[global] Instance M_ret : MRet M := fun A a σ => (a, σ, []).
#[global] Instance M_bind : MBind M := fun A B f m σ =>
  let '(a, σ1, t1) := m σ in
  let '(b, σ2, t2) := f a σ1 in
  (b, σ2, t1 ++ t2).

Definition get_this {A} (f : BinanceWebSocket -> A) : M A :=
  fun σ => (f (this σ), σ, []).

Definition update_this (f : BinanceWebSocket -> BinanceWebSocket) : M unit :=
  fun σ => (tt, {| this := f (this σ); browser := browser σ |}, []).

Definition get_browser {A} (f : Browser.t -> A) : M A :=
  fun σ => (f (browser σ), σ, []).

Definition update_browser (f : Browser.t -> Browser.t) : M unit :=
  fun σ => (tt, {| this := this σ; browser := f (browser σ) |}, []).

Definition emit (evs : list (Event float64)) : M unit :=
  fun σ => (tt, σ, evs).

(** *** Browser calls *)

(** [new WebSocket(u)], for an address the constructor accepts
    ([Browser.accepts]). *)
Definition new_WebSocket (u : string) : M nat :=
  id ← get_browser (fun b => List.length (Browser.sockets b));
  update_browser (Browser.with_sockets
    (fun l => l ++ [{| Browser.url := u; Browser.readyState := CONNECTING |}]));;
  emit [SocketCreated id u];;
  mret id.

Definition socket_close (id : nat) : M unit :=
  update_browser (Browser.with_sockets (alter Browser.close_socket id));;
  emit [SocketCloseCalled id].

Definition socket_send (id : nat) (payload : string) : M unit :=
  emit [SocketSent id payload].

Definition setTimeout (delay : Z) : M nat :=
  id ← get_browser Browser.next_timer;
  update_browser (fun b => Browser.fresh_timer (Browser.with_timeouts (insert id delay) b));;
  emit [TimeoutSet id delay];;
  mret id.

Definition setInterval (period : Z) : M nat :=
  id ← get_browser Browser.next_timer;
  update_browser (fun b => Browser.fresh_timer (Browser.with_intervals (fun s => {[id]} ∪ s) b));;
  emit [IntervalSet id period];;
  mret id.

Definition clearInterval (id : nat) : M unit :=
  update_browser (Browser.with_intervals (fun s => s ∖ {[id]}));;
  emit [IntervalCleared id].

(** *** Private methods *)

Definition notifyConnectionState (state : ConnectionState) : M unit :=
  hs ← get_this connectionHandlers;
  emit (map (fun h => ConnectionNotified h state) hs).

Definition startPing : M unit :=
  id ← setInterval 30000;
  update_this (with_pingInterval (Some id)).

Definition stopPing : M unit :=
  p ← get_this pingInterval;
  match p with
  | Some id => clearInterval id;; update_this (with_pingInterval None)
  | None => mret tt
  end.

Definition createConnection : M unit :=
  w ← get_this ws;
  r ← get_browser (fun b => w ≫= Browser.readyState_of b);
  match w, r with
  | Some id, Some OPEN => socket_close id
  | _, _ => mret tt
  end;;
  ss ← get_this streams;
  let url := createStreamUrl ss in
  notifyConnectionState connecting;;
  id ← new_WebSocket url;
  update_this (with_ws (Some id)).

Definition attemptReconnect : M unit :=
  n ← get_this reconnectAttempts;
  if bool_decide (maxReconnectAttempts ≤ n)%nat then
    emit [ConsoleError "Max reconnection attempts reached"]
  else
    update_this (with_reconnectAttempts (S n));;
    let delay := (reconnectDelay * 2 ^ (Z.of_nat (S n) - 1))%Z in
    setTimeout delay;;
    mret tt.

(** The closure given to [setTimeout]. *)
Definition reconnect_timer : M unit :=
  ss ← get_this streams;
  if bool_decide (0 < List.length ss)%nat then createConnection else mret tt.

(** The closure given to [setInterval]. *)
Definition ping_timer : M unit :=
  w ← get_this ws;
  r ← get_browser (fun b => w ≫= Browser.readyState_of b);
  match w, r with
  | Some id, Some OPEN => socket_send id ping_payload
  | _, _ => mret tt
  end.

(** The stream key of a frame, computed on what the frame holds. *)
Definition kline_key_of (data : value) : result string :=
  s ← get data "s";
  k ← get data "k";
  i ← get k "i";
  symbol ← toLowerCase_of s;
  interval ← ToString i;
  mret (symbol +:+ "@kline_" +:+ interval).

Definition trade_key_of (data : value) : result string :=
  s ← get data "s";
  symbol ← toLowerCase_of s;
  mret (symbol +:+ "@trade").

(** [parseKlineData(klineData)] on what the frame holds, whatever its
    types.  The division converts [k.t] to a number and
    [Number.parseFloat] converts its argument to a string; on the values
    [JSON.parse] produces the first conversion throws exactly when the
    second does, so both are checked with [ToString].  When the six
    conversions go through, the candle is that of the frame read with its
    declared types, and [None] stands for the candle of a frame that has
    other types. *)
Definition parseKlineData_of (data : value)
  : result (option (CandlestickData float64)) :=
  k ← get data "k";
  t ← get k "t"; _ ← ToString t;
  o ← get k "o"; _ ← ToString o;
  h ← get k "h"; _ ← ToString h;
  l ← get k "l"; _ ← ToString l;
  c ← get k "c"; _ ← ToString c;
  v ← get k "v"; _ ← ToString v;
  mret (parseKlineData <$> asBinanceKlineWS data).

(** The body of the [try] block of [handleMessage]. *)
Definition handleMessage_try (m : BinanceWebSocket) (rawData : string)
  : result (list (Event float64)) :=
  parsed ← match JSON_parse rawData with
           | Some v => Ok v
           | None => Throw SyntaxError
           end;
  d ← get parsed "data";
  let data := if truthy d then d else parsed in
  e ← get data "e";
  if is_str "kline" e then
    streamKey ← kline_key_of data;
    match klineHandlers m !! streamKey with
    | Some handler =>
        candle ← parseKlineData_of data;
        mret [KlineDelivered handler candle]
    | None => mret []
    end
  else if is_str "trade" e then
    streamKey ← trade_key_of data;
    match tradeHandlers m !! streamKey with
    | Some handler => mret [TradeDelivered handler data]
    | None => mret []
    end
  else mret [].

(** What the [catch] block leaves in the trace. *)
Definition parse_error_logged : list (Event float64) :=
  [ConsoleError "WebSocket message parse error:"].

Definition handleMessage (rawData : string) : M unit :=
  m ← get_this id;
  match handleMessage_try m rawData with
  | Ok evs => emit evs
  | Throw _ => emit parse_error_logged
  end.

(** *** Reading a frame the way the specification speaks of it *)

(** The payload of a frame: what is under [data] in a combined-stream
    envelope, the frame itself otherwise. *)
Definition payload_of (parsed : value) : result value :=
  d ← get parsed "data";
  mret (if truthy d then d else parsed).

(** The event discriminator of a frame: the [e] of its payload. *)
Definition discriminator (parsed : value) : result value :=
  data ← payload_of parsed;
  get data "e".

(** The channel and stream key a frame is for, when it has them. *)
Definition frame_key (rawData : string) : option (Channel * string) :=
  match JSON_parse rawData with
  | None => None
  | Some parsed =>
      match payload_of parsed with
      | Throw _ => None
      | Ok data =>
          match get data "e" with
          | Throw _ => None
          | Ok e =>
              if is_str "kline" e then
                match kline_key_of data with
                | Ok key => Some (KlineChannel, key)
                | Throw _ => None
                end
              else if is_str "trade" e then
                match trade_key_of data with
                | Ok key => Some (TradeChannel, key)
                | Throw _ => None
                end
              else None
          end
      end
  end.

(** A malformed frame: text that does not parse, or a parsed value whose
    discriminator is neither ["kline"] nor ["trade"]. *)
Definition malformed (rawData : string) : Prop :=
  match JSON_parse rawData with
  | None => True
  | Some parsed =>
      ∀ e, discriminator parsed = Ok e -> is_str "kline" e = false ∧ is_str "trade" e = false
  end.

(** *** The callbacks [createConnection] installs on a socket *)

Definition onopen : M unit :=
  update_this (with_reconnectAttempts 0);;
  notifyConnectionState connected;;
  startPing.

Definition onmessage (data : string) : M unit := handleMessage data.

Definition onerror : M unit := notifyConnectionState error.

Definition onclose : M unit :=
  notifyConnectionState disconnected;;
  stopPing;;
  attemptReconnect.

(** *** Public methods *)

Definition connect (ss : list string) : M unit :=
  update_this (with_streams ss);;
  createConnection.

Definition subscribeKline (symbol : string) (interval : ChartInterval)
    (handler : KlineHandler) : M unit :=
  let streamKey := getKlineStreamName symbol interval in
  update_this (with_klineHandlers (insert streamKey handler)).

Definition unsubscribeKline (symbol : string) (interval : ChartInterval) : M unit :=
  let streamKey := getKlineStreamName symbol interval in
  update_this (with_klineHandlers (delete streamKey)).

Definition subscribeTrade (symbol : string) (handler : TradeHandler) : M unit :=
  let streamKey := getTradeStreamName symbol in
  update_this (with_tradeHandlers (insert streamKey handler)).

Definition unsubscribeTrade (symbol : string) : M unit :=
  let streamKey := getTradeStreamName symbol in
  update_this (with_tradeHandlers (delete streamKey)).

Definition onConnectionChange (handler : ConnectionHandler) : M unit :=
  update_this (with_connectionHandlers (set_add handler)).

(** The function [onConnectionChange] returns. *)
Definition removeConnectionHandler (handler : ConnectionHandler) : M unit :=
  update_this (with_connectionHandlers (set_delete handler)).

Definition getState (σ : Sys) : ConnectionState :=
  match ws (this σ) with
  | None => disconnected
  | Some id =>
      match Browser.readyState_of (browser σ) id with
      | Some CONNECTING => connecting
      | Some OPEN => connected
      | _ => disconnected
      end
  end.

Definition disconnect : M unit :=
  stopPing;;
  update_this (with_klineHandlers (fun _ => ∅));;
  update_this (with_tradeHandlers (fun _ => ∅));;
  update_this (with_connectionHandlers (fun _ => []));;
  update_this (with_streams []);;
  w ← get_this ws;
  match w with
  | Some id => socket_close id;; update_this (with_ws None)
  | None => mret tt
  end.

(** *** Transitions *)

Definition exec (m : M unit) (σ : Sys) : Sys * list (Event float64) :=
  let '(_, σ', evs) := m σ in (σ', evs).

Definition socket_becomes (id : nat) (r : ReadyState) : M unit :=
  update_browser (Browser.with_sockets (alter (Browser.set_readyState r) id)).

(** One input; [None] when the browser cannot produce it in this state: a
    socket opens once, from [CONNECTING]; it delivers messages while
    [OPEN]; it errs or closes while not yet [CLOSED]; a timeout fires once,
    while pending; an interval fires while running. *)
Definition step (i : Input) (σ : Sys) : option (Sys * list (Event float64)) :=
  match i with
  | Connect ss => Some (exec (connect ss) σ)
  | Disconnect => Some (exec disconnect σ)
  | SubscribeKline symbol interval h => Some (exec (subscribeKline symbol interval h) σ)
  | UnsubscribeKline symbol interval => Some (exec (unsubscribeKline symbol interval) σ)
  | SubscribeTrade symbol h => Some (exec (subscribeTrade symbol h) σ)
  | UnsubscribeTrade symbol => Some (exec (unsubscribeTrade symbol) σ)
  | OnConnectionChange h => Some (exec (onConnectionChange h) σ)
  | RemoveConnectionHandler h => Some (exec (removeConnectionHandler h) σ)
  | SocketOpens id =>
      match Browser.readyState_of (browser σ) id with
      | Some CONNECTING => Some (exec (socket_becomes id OPEN;; onopen) σ)
      | _ => None
      end
  | SocketMessage id data =>
      match Browser.readyState_of (browser σ) id with
      | Some OPEN => Some (exec (onmessage data) σ)
      | _ => None
      end
  | SocketErrors id =>
      match Browser.readyState_of (browser σ) id with
      | Some CONNECTING | Some OPEN | Some CLOSING => Some (exec onerror σ)
      | _ => None
      end
  | SocketCloses id =>
      match Browser.readyState_of (browser σ) id with
      | Some CONNECTING | Some OPEN | Some CLOSING =>
          Some (exec (socket_becomes id CLOSED;; onclose) σ)
      | _ => None
      end
  | TimeoutFires id =>
      match Browser.timeouts (browser σ) !! id with
      | Some _ =>
          Some (exec (update_browser (Browser.with_timeouts (delete id));;
                      reconnect_timer) σ)
      | None => None
      end
  | IntervalFires id =>
      if bool_decide (id ∈ Browser.intervals (browser σ))
      then Some (exec ping_timer σ)
      else None
  end.

(** A sequence of inputs, with the concatenated trace. *)
Fixpoint run (inputs : list Input) (σ : Sys) : option (Sys * list (Event float64)) :=
  match inputs with
  | [] => Some (σ, [])
  | i :: inputs' =>
      match step i σ with
      | None => None
      | Some (σ1, t1) =>
          match run inputs' σ1 with
          | None => None
          | Some (σ2, t2) => Some (σ2, t1 ++ t2)
          end
      end
  end.

(** *** Reading a trace *)

Definition sockets_created (t : list (Event float64)) : list (nat * string) :=
  omap (fun ev => match ev with SocketCreated id u => Some (id, u) | _ => None end) t.

Definition timeouts_set (t : list (Event float64)) : list (nat * Z) :=
  omap (fun ev => match ev with TimeoutSet id d => Some (id, d) | _ => None end) t.

Definition kline_calls (t : list (Event float64))
  : list (KlineHandler * option (CandlestickData float64)) :=
  omap (fun ev => match ev with KlineDelivered h c => Some (h, c) | _ => None end) t.

Definition trade_calls (t : list (Event float64)) : list (TradeHandler * value) :=
  omap (fun ev => match ev with TradeDelivered h d => Some (h, d) | _ => None end) t.

Definition notifications (t : list (Event float64))
  : list (ConnectionHandler * ConnectionState) :=
  omap (fun ev => match ev with ConnectionNotified h s => Some (h, s) | _ => None end) t.

(** The state a sequence of inputs leads to from a new manager, and the
    trace of one more input. *)
Definition after (inputs : list Input) : option Sys :=
  fst <$> run inputs initial.

Definition effects (i : Input) (σ : Sys) : option (list (Event float64)) :=
  snd <$> step i σ.

End Class.

End Manager.

(** ** A reader for frames

    A stand-in for [JSON.parse] on which the model can be run: objects,
    arrays, strings with the single-character escapes, integers, [true],
    [false] and [null].  It refuses what it does not read (fractions,
    exponents, [\u] escapes). *)

Module Reader.
Import JS.

Definition quote : ascii := ascii_of_nat 34.
Definition backslash : ascii := ascii_of_nat 92.

Definition is_space (c : ascii) : bool :=
  match nat_of_ascii c with
  | 32 | 9 | 10 | 13 => true
  | _ => false
  end.

Fixpoint skip_space (s : string) : string :=
  match s with
  | String c s' => if is_space c then skip_space s' else s
  | EmptyString => s
  end.

Definition digit_of (c : ascii) : option Z :=
  let n := nat_of_ascii c in
  if (48 <=? n)%nat && (n <=? 57)%nat then Some (Z.of_nat (n - 48)) else None.

Fixpoint read_digits (acc : Z) (s : string) : Z * string :=
  match s with
  | String c s' =>
      match digit_of c with
      | Some d => read_digits (10 * acc + d) s'
      | None => (acc, s)
      end
  | EmptyString => (acc, s)
  end.

Definition starts_fraction (s : string) : bool :=
  match s with
  | String c _ => Ascii.eqb c "."%char || Ascii.eqb c "e"%char || Ascii.eqb c "E"%char
  | EmptyString => false
  end.

Definition starts_digit (s : string) : bool :=
  match s with
  | String c _ => bool_decide (is_Some (digit_of c))
  | EmptyString => false
  end.

(** An integer: an optional minus, then [0] or a digit string without a
    leading zero. *)
Definition read_number (s : string) : option (Z * string) :=
  let '(neg, s1) := match s with
                    | String c s' => if Ascii.eqb c "-"%char then (true, s') else (false, s)
                    | EmptyString => (false, s)
                    end in
  match s1 with
  | String c s2 =>
      match digit_of c with
      | None => None
      | Some d =>
          let '(n, rest) := if (d =? 0)%Z then (0%Z, s2) else read_digits d s2 in
          if starts_digit rest || starts_fraction rest then None
          else Some (if neg then (- n)%Z else n, rest)
      end
  | EmptyString => None
  end.

Definition unescape (c : ascii) : option ascii :=
  if Ascii.eqb c quote then Some quote
  else if Ascii.eqb c backslash then Some backslash
  else if Ascii.eqb c "/"%char then Some "/"%char
  else if Ascii.eqb c "b"%char then Some (ascii_of_nat 8)
  else if Ascii.eqb c "f"%char then Some (ascii_of_nat 12)
  else if Ascii.eqb c "n"%char then Some (ascii_of_nat 10)
  else if Ascii.eqb c "r"%char then Some (ascii_of_nat 13)
  else if Ascii.eqb c "t"%char then Some (ascii_of_nat 9)
  else None.

(** The rest of a string literal, after its opening quote. *)
Fixpoint read_string (s : string) : option (string * string) :=
  match s with
  | EmptyString => None
  | String c s' =>
      if Ascii.eqb c quote then Some (EmptyString, s')
      else if Ascii.eqb c backslash then
        match s' with
        | String e s'' =>
            match unescape e, read_string s'' with
            | Some ch, Some (str, rest) => Some (String ch str, rest)
            | _, _ => None
            end
        | EmptyString => None
        end
      else if (nat_of_ascii c <? 32)%nat then None
      else
        match read_string s' with
        | Some (str, rest) => Some (String c str, rest)
        | None => None
        end
  end.

Fixpoint strip_prefix (p s : string) : option string :=
  match p, s with
  | EmptyString, _ => Some s
  | String a p', String b s' => if Ascii.eqb a b then strip_prefix p' s' else None
  | String _ _, EmptyString => None
  end.

(** A later member of an object literal replaces an earlier one of the
    same name, in its place. *)
Fixpoint put (k : string) (v : value) (fields : list (string * value))
  : list (string * value) :=
  match fields with
  | [] => [(k, v)]
  | (k', v') :: fields' =>
      if String.eqb k k' then (k, v) :: fields' else (k', v') :: put k v fields'
  end.

Fixpoint read_value (fuel : nat) (s : string) : option (value * string) :=
  match fuel with
  | O => None
  | S fuel' =>
      match skip_space s with
      | EmptyString => None
      | String c rest as s0 =>
          if Ascii.eqb c "{"%char then
            match skip_space rest with
            | String c' rest' =>
                if Ascii.eqb c' "}"%char then Some (VObj [], rest')
                else
                  match read_members fuel' [] (String c' rest') with
                  | Some (fields, rest'') => Some (VObj fields, rest'')
                  | None => None
                  end
            | EmptyString => None
            end
          else if Ascii.eqb c "["%char then
            match skip_space rest with
            | String c' rest' =>
                if Ascii.eqb c' "]"%char then Some (VArr [], rest')
                else
                  match read_elements fuel' (String c' rest') with
                  | Some (items, rest'') => Some (VArr items, rest'')
                  | None => None
                  end
            | EmptyString => None
            end
          else if Ascii.eqb c quote then
            match read_string rest with
            | Some (str, rest') => Some (VStr str, rest')
            | None => None
            end
          else
            match strip_prefix "true" s0, strip_prefix "false" s0, strip_prefix "null" s0 with
            | Some rest', _, _ => Some (VBool true, rest')
            | _, Some rest', _ => Some (VBool false, rest')
            | _, _, Some rest' => Some (VNull, rest')
            | None, None, None =>
                match read_number s0 with
                | Some (n, rest') => Some (VNum n, rest')
                | None => None
                end
            end
      end
  end
with read_elements (fuel : nat) (s : string) : option (list value * string) :=
  match fuel with
  | O => None
  | S fuel' =>
      match read_value fuel' s with
      | None => None
      | Some (v, rest) =>
          match skip_space rest with
          | String c rest' =>
              if Ascii.eqb c "]"%char then Some ([v], rest')
              else if Ascii.eqb c ","%char then
                match read_elements fuel' rest' with
                | Some (vs, rest'') => Some (v :: vs, rest'')
                | None => None
                end
              else None
          | EmptyString => None
          end
      end
  end
with read_members (fuel : nat) (acc : list (string * value)) (s : string)
  : option (list (string * value) * string) :=
  match fuel with
  | O => None
  | S fuel' =>
      match skip_space s with
      | String q s1 =>
          if Ascii.eqb q quote then
            match read_string s1 with
            | None => None
            | Some (k, s2) =>
                match skip_space s2 with
                | String colon s3 =>
                    if Ascii.eqb colon ":"%char then
                      match read_value fuel' s3 with
                      | None => None
                      | Some (v, s4) =>
                          let acc' := put k v acc in
                          match skip_space s4 with
                          | String c s5 =>
                              if Ascii.eqb c "}"%char then Some (acc', s5)
                              else if Ascii.eqb c ","%char then read_members fuel' acc' s5
                              else None
                          | EmptyString => None
                          end
                      end
                    else None
                | EmptyString => None
                end
            end
          else None
      | EmptyString => None
      end
  end.

(** The whole text must be one value, spaces around it allowed. *)
Definition read_json (s : string) : option value :=
  match read_value (S (String.length s)) s with
  | Some (v, rest) =>
      match skip_space rest with
      | EmptyString => Some v
      | String _ _ => None
      end
  | None => None
  end.

(** Writing a frame down: [q s] is [s] between double quotes. *)
Definition q (s : string) : string := String quote s +:+ String quote EmptyString.

End Reader.

(** ** Concrete frames and a concrete platform *)

Module Sample.
Import JS Data Reader Manager.

(** An exact decimal reading of a numeric text, standing in for
    [parseFloat] where the model is run: an optional minus, digits, an
    optional fraction; [None] plays [NaN]. *)
Fixpoint read_fraction (num den : Z) (s : string) : option (Z * Z) :=
  match s with
  | EmptyString => Some (num, den)
  | String c s' =>
      match digit_of c with
      | Some d => read_fraction (10 * num + d) (10 * den) s'
      | None => None
      end
  end.

Definition number : Type := option (Z * Z).

Definition decimal (s : string) : number :=
  let '(neg, s1) := match s with
                    | String c s' => if Ascii.eqb c "-"%char then (true, s') else (false, s)
                    | EmptyString => (false, s)
                    end in
  if starts_digit s1 then
    let '(n, rest) := read_digits 0 s1 in
    match rest with
    | EmptyString => Some (if neg then (- n)%Z else n, 1%Z)
    | String c rest' =>
        if Ascii.eqb c "."%char then
          match read_fraction n 1 rest' with
          | Some (num, den) => Some (if neg then (- num)%Z else num, den)
          | None => None
          end
        else None
    end
  else None.

(** The combined-stream trade frame of the specification, as text and as
    the value it denotes. *)
Definition trade_payload : value :=
  VObj [("e", VStr "trade"); ("s", VStr "BTCUSDT"); ("p", VStr "50000.1");
        ("q", VStr "0.01"); ("T", VNum 1700000000000); ("m", VBool false)].

Definition trade_envelope : value :=
  VObj [("stream", VStr "btcusdt@trade"); ("data", trade_payload)].

Definition trade_envelope_text : string :=
  "{" +:+ q "stream" +:+ ":" +:+ q "btcusdt@trade" +:+ "," +:+ q "data" +:+ ":{"
  +:+ q "e" +:+ ":" +:+ q "trade" +:+ "," +:+ q "s" +:+ ":" +:+ q "BTCUSDT" +:+ ","
  +:+ q "p" +:+ ":" +:+ q "50000.1" +:+ "," +:+ q "q" +:+ ":" +:+ q "0.01" +:+ ","
  +:+ q "T" +:+ ":1700000000000," +:+ q "m" +:+ ":false}}".

(** A direct-stream kline frame. *)
Definition kline_text : string :=
  "{" +:+ q "e" +:+ ":" +:+ q "kline" +:+ "," +:+ q "E" +:+ ":1700000000123,"
  +:+ q "s" +:+ ":" +:+ q "BTCUSDT" +:+ "," +:+ q "k" +:+ ":{"
  +:+ q "t" +:+ ":1700000000000," +:+ q "T" +:+ ":1700000059999,"
  +:+ q "s" +:+ ":" +:+ q "BTCUSDT" +:+ "," +:+ q "i" +:+ ":" +:+ q "1m" +:+ ","
  +:+ q "o" +:+ ":" +:+ q "50000.1" +:+ "," +:+ q "c" +:+ ":" +:+ q "50010.5" +:+ ","
  +:+ q "h" +:+ ":" +:+ q "50020" +:+ "," +:+ q "l" +:+ ":" +:+ q "49990.25" +:+ ","
  +:+ q "v" +:+ ":" +:+ q "12.5" +:+ "}}".

(** The same kline frame, read with its declared types. *)
Definition kline_frame : BinanceKlineWS :=
  {| kline_e := "kline"; kline_s := "BTCUSDT";
     kline_k := {| k_t := 1700000000000; k_i := "1m"; k_o := "50000.1";
                   k_c := "50010.5"; k_h := "50020"; k_l := "49990.25";
                   k_v := "12.5" |} |}.

(** The same frame with a start time far above the safe integers. *)
Definition late_kline_frame : BinanceKlineWS :=
  {| kline_e := "kline"; kline_s := "BTCUSDT";
     kline_k := {| k_t := 141000000000000992; k_i := "1m"; k_o := "50000.1";
                   k_c := "50010.5"; k_h := "50020"; k_l := "49990.25";
                   k_v := "12.5" |} |}.

(** Frames that are not well formed. *)
Definition broken_text : string := "{" +:+ q "e" +:+ ":".
Definition unknown_event_text : string :=
  "{" +:+ q "e" +:+ ":" +:+ q "depthUpdate" +:+ "," +:+ q "s" +:+ ":" +:+ q "BTCUSDT" +:+ "}".

(** Runs of the manager on this platform. *)
Definition state_after (inputs : list Input) : Sys :=
  default initial (after decimal read_json inputs).

Definition trade_stream : list string := ["btcusdt@trade"].

(** Connected once, and the socket closed: the first reconnection timeout,
    number 1, is pending. *)
Definition pending : Sys :=
  state_after [Connect trade_stream; SocketCloses 0].

(** Six sockets in a row that close without having opened, each made by
    the timeout the close before it had set. *)
Definition six_closes : list Input :=
  [Connect trade_stream; SocketCloses 0;
   TimeoutFires 1; SocketCloses 1;
   TimeoutFires 2; SocketCloses 2;
   TimeoutFires 3; SocketCloses 3;
   TimeoutFires 4; SocketCloses 4;
   TimeoutFires 5; SocketCloses 5].




End Sample.

(** ** More of the module: traces, the singleton and the hook *)

Module Traces.
Import JS Data Manager.

(** Kinds of input. *)
Definition registers (h : ConnectionHandler) (i : Input) : bool :=
  match i with
  | OnConnectionChange h' => bool_decide (h' = h)
  | _ => false
  end.

Definition subscribes (i : Input) : bool :=
  match i with
  | SubscribeKline _ _ _ | SubscribeTrade _ _ | OnConnectionChange _ => true
  | _ => false
  end.

Definition sets_streams (i : Input) : bool :=
  match i with
  | Connect _ | Disconnect => true
  | _ => false
  end.

Section Readers.

Context {float64 : Type}.

Definition intervals_set (t : list (Event float64)) : list (nat * Z) :=
  omap (fun ev => match ev with IntervalSet id p => Some (id, p) | _ => None end) t.

Definition intervals_cleared (t : list (Event float64)) : list nat :=
  omap (fun ev => match ev with IntervalCleared id => Some id | _ => None end) t.

Definition socket_sends (t : list (Event float64)) : list (nat * string) :=
  omap (fun ev => match ev with SocketSent id p => Some (id, p) | _ => None end) t.

Definition close_calls (t : list (Event float64)) : list nat :=
  omap (fun ev => match ev with SocketCloseCalled id => Some id | _ => None end) t.

(** Is the event a call of a subscriber's function: a kline handler, a
    trade handler or a connection observer? *)
Definition is_callback (ev : Event float64) : bool :=
  match ev with
  | ConnectionNotified _ _ | KlineDelivered _ _ | TradeDelivered _ _ => true
  | _ => false
  end.

Definition callbacks (t : list (Event float64)) : list (Event float64) :=
  filter (fun ev => is_callback ev = true) t.

End Readers.

End Traces.

(** The payload of a frame given as text. *)
Module Frames.
Import JS Data Manager.

Section Payload.

Variable JSON_parse : string -> option value.

Definition frame_payload (rawData : string) : option value :=
  match JSON_parse rawData with
  | None => None
  | Some parsed =>
      match payload_of parsed with
      | Ok data => Some data
      | Throw _ => None
      end
  end.

End Payload.

End Frames.

(** The module-level variable [wsInstance] with [getWebSocketInstance] and
    [destroyWebSocketInstance].  The instance is an object: the variable
    holds it, and a method called through the reference changes it in
    place. *)
Module Singleton.
Import JS Data Manager.

Record Globals := {
  wsInstance : option BinanceWebSocket;
  browser : Browser.t;
}.

(** [let wsInstance = null], in a browser that has done nothing yet. *)
Definition at_load : Globals := {| wsInstance := None; browser := Browser.initial |}.

Section Functions.

Context {float64 : Type}.

Definition getWebSocketInstance (a : Globals) : BinanceWebSocket * Globals :=
  match wsInstance a with
  | Some inst => (inst, a)
  | None =>
      (new_BinanceWebSocket,
       {| wsInstance := Some new_BinanceWebSocket; browser := browser a |})
  end.

Definition destroyWebSocketInstance (a : Globals) : Globals * list (Event float64) :=
  match wsInstance a with
  | Some inst =>
      let '(σ, evs) := exec disconnect {| this := inst; Manager.browser := browser a |} in
      ({| wsInstance := None; browser := Manager.browser σ |}, evs)
  | None => (a, [])
  end.

(** [getWebSocketInstance().m(...)]: a method run on the instance the
    variable holds, made first when there is none. *)
Definition on_instance (m : M (float64 := float64) unit) (a : Globals)
  : Globals * list (Event float64) :=
  let '(inst, a1) := getWebSocketInstance a in
  let '(σ, evs) := exec m {| this := inst; Manager.browser := browser a1 |} in
  ({| wsInstance := Some (this σ); browser := Manager.browser σ |}, evs).

End Functions.

End Singleton.

(** The object form of the [useWebSocket] hook: the body of its effect and
    the clean-up the effect returns, as calls on the manager.  The two
    handlers and the observer are the closures the effect makes. *)
Module Hook.
Import Codec JS Data Manager.

Section Effect.

Context {float64 : Type}.

Definition useWebSocket_effect (symbol : string) (interval : ChartInterval)
    (kHandler : KlineHandler) (tHandler : TradeHandler)
    (observer : ConnectionHandler) : M (float64 := float64) unit :=
  if String.eqb symbol "" then mret tt
  else
    subscribeKline symbol interval kHandler;;
    subscribeTrade symbol tHandler;;
    let streams := [toLowerCase symbol +:+ "@kline_" +:+ interval;
                    toLowerCase symbol +:+ "@trade"] in
    connect streams;;
    onConnectionChange observer.

Definition useWebSocket_cleanup (symbol : string) (interval : ChartInterval)
    (observer : ConnectionHandler) : M (float64 := float64) unit :=
  if String.eqb symbol "" then mret tt
  else
    unsubscribeKline symbol interval;;
    unsubscribeTrade symbol;;
    removeConnectionHandler observer.

End Effect.

End Hook.

(** ** The REST helper module *)

(** The hexadecimal text [hmacSha256Hex] makes of the signature bytes:
    [Array.from(bytes).map((b) => b.toString(16).padStart(2, "0")).join("")]. *)
Module Hex.

Definition hex_digit (d : nat) : ascii :=
  if (d <? 10)%nat then ascii_of_nat (48 + d) else ascii_of_nat (87 + d).

(** [Number.prototype.toString(16)] on a natural number: its digits in
    base 16, lower case, without leading zeros. *)
Fixpoint toString16_go (fuel n : nat) (acc : string) : string :=
  match fuel with
  | O => acc
  | S fuel' =>
      if (n <? 16)%nat then String (hex_digit n) acc
      else toString16_go fuel' (n / 16) (String (hex_digit (n mod 16)) acc)
  end.

Definition toString16 (n : nat) : string := toString16_go (S n) n EmptyString.

Fixpoint repeat_string (n : nat) (pad : string) : string :=
  match n with
  | O => EmptyString
  | S n' => pad +:+ repeat_string n' pad
  end.

(** [String.prototype.padStart] with a pad of one character. *)
Definition padStart (target : nat) (pad : string) (s : string) : string :=
  if (String.length s <? target)%nat
  then repeat_string (target - String.length s) pad +:+ s
  else s.

Definition byte_hex (b : Byte.byte) : string :=
  padStart 2 "0" (toString16 (N.to_nat (Byte.to_N b))).

Definition bytes_hex (bytes : list Byte.byte) : string :=
  Codec.join "" (map byte_hex bytes).

(** Reading such a text back, two digits to the byte. *)
Definition digit_value (c : ascii) : option nat :=
  let n := nat_of_ascii c in
  if (48 <=? n)%nat && (n <=? 57)%nat then Some (n - 48)
  else if (97 <=? n)%nat && (n <=? 102)%nat then Some (n - 87)
  else None.

Fixpoint hex_bytes (s : string) : option (list Byte.byte) :=
  match s with
  | EmptyString => Some []
  | String c1 (String c2 s') =>
      match digit_value c1, digit_value c2, hex_bytes s' with
      | Some h, Some l, Some bs =>
          match Byte.of_N (N.of_nat (16 * h + l)) with
          | Some b => Some (b :: bs)
          | None => None
          end
      | _, _, _ => None
      end
  | String _ EmptyString => None
  end.

Definition is_hex_digit (c : ascii) : bool := bool_decide (is_Some (digit_value c)).

End Hex.

(** The credential helpers: [getApiCredentials], [saveApiCredentials] and
    [clearApiCredentials], over the build-time environment and the
    browser's [localStorage]. *)
Module Credentials.
Import JS.

Record ApiCredentials := {
  apiKey : string;
  secretKey : string;
}.

(** Where the helpers run.  [window_defined] tells the browser from the
    server; the two environment variables may be unset; [stored] is the
    item under [CREDENTIALS_KEY]; when [storage_throws] every call of
    [localStorage] throws. *)
Record World := {
  window_defined : bool;
  env_apiKey : option string;
  env_secretKey : option string;
  stored : option string;
  storage_throws : bool;
}.

Definition with_stored (x : option string) (w : World) : World :=
  {| window_defined := window_defined w; env_apiKey := env_apiKey w;
     env_secretKey := env_secretKey w; stored := x;
     storage_throws := storage_throws w |}.

(** The credentials as the object the helpers hand out. *)
Definition object_of (c : ApiCredentials) : value :=
  VObj [("apiKey", VStr (apiKey c)); ("secretKey", VStr (secretKey c))].

(** [apiKey && secretKey ? { apiKey, secretKey } : null] on the two
    environment variables: an unset or empty variable is falsy. *)
Definition env_credentials (w : World) : option ApiCredentials :=
  match env_apiKey w, env_secretKey w with
  | Some a, Some s =>
      if negb (String.eqb a "") && negb (String.eqb s "")
      then Some {| apiKey := a; secretKey := s |}
      else None
  | _, _ => None
  end.

Section Helpers.

Variable JSON_parse : string -> option value.
Variable JSON_stringify : ApiCredentials -> string.

(** [localStorage.getItem(CREDENTIALS_KEY)] *)
Definition getItem (w : World) : result (option string) :=
  if storage_throws w then Throw TypeError else Ok (stored w).

(** [localStorage.setItem(CREDENTIALS_KEY, text)] *)
Definition setItem (text : string) (w : World) : result World :=
  if storage_throws w then Throw TypeError else Ok (with_stored (Some text) w).

(** [localStorage.removeItem(CREDENTIALS_KEY)] *)
Definition removeItem (w : World) : result World :=
  if storage_throws w then Throw TypeError else Ok (with_stored None w).

(** The first [try] block of [getApiCredentials]: [Some v] when it
    returns [v], [None] when control goes on past the block (nothing
    stored, an empty text, or an exception swallowed by the [catch]). *)
Definition read_stored (w : World) : option value :=
  match getItem w with
  | Throw _ => None
  | Ok None => None
  | Ok (Some raw) =>
      if String.eqb raw "" then None
      else JSON_parse raw
  end.

(** [getApiCredentials]; [VNull] is the [null] it returns. *)
Definition getApiCredentials (w : World) : value * World :=
  if negb (window_defined w) then
    (match env_credentials w with Some c => object_of c | None => VNull end, w)
  else
    match read_stored w with
    | Some v => (v, w)
    | None =>
        match env_credentials w with
        | Some c =>
            (object_of c,
             match setItem (JSON_stringify c) w with
             | Ok w' => w'
             | Throw _ => w
             end)
        | None => (VNull, w)
        end
    end.

Definition saveApiCredentials (creds : ApiCredentials) (w : World) : World :=
  if negb (window_defined w) then w
  else
    match setItem (JSON_stringify creds) w with
    | Ok w' => w'
    | Throw _ => w
    end.

Definition clearApiCredentials (w : World) : World :=
  if negb (window_defined w) then w
  else
    match removeItem w with
    | Ok w' => w'
    | Throw _ => w
    end.

End Helpers.

End Credentials.

(** ** Stream keys in an address *)

Module Streams.

Fixpoint contains (c : ascii) (s : string) : bool :=
  match s with
  | EmptyString => false
  | String c' s' => Ascii.eqb c c' || contains c s'
  end.

(** A stream key that holds neither of the two characters the address
    gives a meaning to. *)
Definition plain (key : string) : bool :=
  negb (contains "/" key) && negb (contains "?" key).

Definition slash_free (l : list string) : Prop :=
  Forall (fun key => contains "/" key = false) l.

End Streams.

(** ** More sample inputs *)

Module Cases.
Import JS Data Reader Manager.

(** The trade frame of the sample as a direct-stream frame: the payload
    without the envelope. *)
Definition trade_text : string :=
  "{" +:+ q "e" +:+ ":" +:+ q "trade" +:+ "," +:+ q "s" +:+ ":" +:+ q "BTCUSDT" +:+ ","
  +:+ q "p" +:+ ":" +:+ q "50000.1" +:+ "," +:+ q "q" +:+ ":" +:+ q "0.01" +:+ ","
  +:+ q "T" +:+ ":1700000000000," +:+ q "m" +:+ ":false}".

(** A kline frame without its [k], and a trade frame whose symbol is a
    number. *)
Definition kline_without_k_text : string :=
  "{" +:+ q "e" +:+ ":" +:+ q "kline" +:+ "," +:+ q "s" +:+ ":" +:+ q "BTCUSDT" +:+ "}".

Definition trade_numeric_symbol_text : string :=
  "{" +:+ q "e" +:+ ":" +:+ q "trade" +:+ "," +:+ q "s" +:+ ":5}".

(** A kline frame for the same key whose opening price is an object that
    shadows [toString]. *)
Definition kline_unconvertible_text : string :=
  "{" +:+ q "e" +:+ ":" +:+ q "kline" +:+ "," +:+ q "s" +:+ ":" +:+ q "BTCUSDT" +:+ ","
  +:+ q "k" +:+ ":{" +:+ q "t" +:+ ":1700000000000," +:+ q "i" +:+ ":" +:+ q "1m" +:+ ","
  +:+ q "o" +:+ ":{" +:+ q "toString" +:+ ":1}," +:+ q "c" +:+ ":" +:+ q "50010.5" +:+ ","
  +:+ q "h" +:+ ":" +:+ q "50020" +:+ "," +:+ q "l" +:+ ":" +:+ q "49990.25" +:+ ","
  +:+ q "v" +:+ ":" +:+ q "12.5" +:+ "}}".

Definition kline_unconvertible : value :=
  VObj [("e", VStr "kline"); ("s", VStr "BTCUSDT");
        ("k", VObj [("t", VNum 1700000000000); ("i", VStr "1m");
                    ("o", VObj [("toString", VNum 1)]); ("c", VStr "50010.5");
                    ("h", VStr "50020"); ("l", VStr "49990.25");
                    ("v", VStr "12.5")])].

Definition both_streams : list string := ["btcusdt@kline_1m"; "btcusdt@trade"].

(** A manager with a kline handler, a trade handler and an observer, whose
    socket is open. *)
Definition live_inputs : list Input :=
  [SubscribeKline "BTCUSDT" "1m" 3; SubscribeTrade "BTCUSDT" 7;
   OnConnectionChange 9; Connect both_streams; SocketOpens 0].

Definition live : Sys := Sample.state_after live_inputs.

(** The same manager held by the module-level variable. *)
Definition app : Singleton.Globals :=
  {| Singleton.wsInstance := Some (this live); Singleton.browser := browser live |}.

(** [JSON.stringify] on credentials whose two texts need no escaping. *)
Definition stringify (c : Credentials.ApiCredentials) : string :=
  "{" +:+ q "apiKey" +:+ ":" +:+ q (Credentials.apiKey c) +:+ ","
  +:+ q "secretKey" +:+ ":" +:+ q (Credentials.secretKey c) +:+ "}".

Definition test_credentials : Credentials.ApiCredentials :=
  {| Credentials.apiKey := "key-1"; Credentials.secretKey := "secret-1" |}.

Definition env_test_credentials : Credentials.ApiCredentials :=
  {| Credentials.apiKey := "env-key"; Credentials.secretKey := "env-secret" |}.

(** A browser with working storage, nothing stored, and credentials in
    the environment; the same with a stored text that does not parse; the
    server; and a browser whose storage throws. *)
Definition client : Credentials.World :=
  {| Credentials.window_defined := true;
     Credentials.env_apiKey := Some "env-key";
     Credentials.env_secretKey := Some "env-secret";
     Credentials.stored := None;
     Credentials.storage_throws := false |}.

Definition client_corrupted : Credentials.World :=
  Credentials.with_stored (Some "{oops") client.

Definition server : Credentials.World :=
  {| Credentials.window_defined := false;
     Credentials.env_apiKey := Some "env-key";
     Credentials.env_secretKey := Some "env-secret";
     Credentials.stored := None;
     Credentials.storage_throws := false |}.

Definition client_blocked : Credentials.World :=
  {| Credentials.window_defined := true;
     Credentials.env_apiKey := None;
     Credentials.env_secretKey := None;
     Credentials.stored := Some "kept";
     Credentials.storage_throws := true |}.

(** A run on this platform: the state it ends in and its trace. *)
Definition run_from (inputs : list Input) (σ : Sys) : Sys * list (Event Sample.number) :=
  default (σ, []) (run Sample.decimal read_json inputs σ).

Definition state_from (inputs : list Input) (σ : Sys) : Sys := (run_from inputs σ).1.

Definition trace_from (inputs : list Input) (σ : Sys) : list (Event Sample.number) :=
  (run_from inputs σ).2.

(** The live manager once its observer is removed, and what happens then:
    the socket errs and closes, another observer comes, the timeout
    fires. *)
Definition unobserved : Sys :=
  (exec (float64 := Sample.number) (removeConnectionHandler 9) live).1.

Definition unobserved_inputs : list Input :=
  [SocketErrors 0; SocketCloses 0; OnConnectionChange 8; TimeoutFires 2].

(** The live manager once disconnected, and what happens then: the old
    socket errs and closes, the timeout fires, the application connects
    again and a kline frame arrives. *)
Definition shut : Sys := (exec (float64 := Sample.number) disconnect live).1.

Definition shut_inputs : list Input :=
  [SocketErrors 0; SocketCloses 0; TimeoutFires 2; Connect both_streams;
   SocketOpens 1; SocketMessage 1 Sample.kline_text].

(** Connected twice, each socket opened: the interval of the first
    socket, number 1, is still running beside that of the second. *)
Definition twice_connected : Sys :=
  Sample.state_after [Connect Sample.trade_stream; SocketOpens 0;
                      Connect Sample.trade_stream; SocketOpens 1].

Definition twice_connected_shut : Sys :=
  (exec (float64 := Sample.number) disconnect twice_connected).1.

Definition ticks : list Input := [IntervalFires 1; SocketCloses 0].

(** Two closes in a row; the third socket, number 2, is connecting and
    the attempt counter stands at 2. *)
Definition retrying : Sys :=
  Sample.state_after [Connect Sample.trade_stream; SocketCloses 0; TimeoutFires 1;
                      SocketCloses 1; TimeoutFires 2].

(** Connected for both streams; then the socket closes, the timeout
    brings a second socket, which opens and closes, and a third. *)
Definition connected_both : Sys :=
  (exec (float64 := Sample.number) (connect both_streams) initial).1.

Definition reconnect_inputs : list Input :=
  [SubscribeTrade "BTCUSDT" 7; SocketCloses 0; TimeoutFires 1;
   SocketOpens 1; SocketCloses 1; TimeoutFires 3].

(** Signature bytes for the examples. *)
Definition some_bytes : list Byte.byte := [Byte.x00; Byte.x0f; Byte.xa5; Byte.xff].

End Cases.

(** * Properties *)

(** ** Stream names *)

Module CodecFacts.
Import Codec.

Lemma is_upper_range c :
  is_upper c = true -> (65 <= nat_of_ascii c <= 90)%nat.
Proof.
  unfold is_upper. intros H. apply andb_true_iff in H as [H1 H2].
  apply Nat.leb_le in H1. apply Nat.leb_le in H2. lia.
Qed.

Lemma lower_ascii_of_upper c :
  is_upper c = true ->
  lower_ascii (ascii_of_nat (nat_of_ascii c + 32)) = ascii_of_nat (nat_of_ascii c + 32).
Proof.
  intros H. apply is_upper_range in H. unfold lower_ascii, is_upper.
  rewrite nat_ascii_embedding by lia.
  replace (nat_of_ascii c + 32 <=? 90)%nat with false
    by (symmetry; apply Nat.leb_gt; lia).
  by rewrite andb_false_r.
Qed.

Lemma lower_ascii_case_variant c1 c2 :
  case_variant c1 c2 -> lower_ascii c1 = lower_ascii c2.
Proof.
  intros [c | c H | c H]; [done | |].
  - rewrite lower_ascii_of_upper by done. unfold lower_ascii. by rewrite H.
  - rewrite lower_ascii_of_upper by done. unfold lower_ascii. by rewrite H.
Qed.

Lemma toLowerCase_differ_only_in_case s1 s2 :
  differ_only_in_case s1 s2 -> toLowerCase s1 = toLowerCase s2.
Proof.
  induction 1 as [| c1 c2 s1 s2 Hc _ IH]; [done |].
  cbn. by rewrite (lower_ascii_case_variant _ _ Hc), IH.
Qed.

Lemma last_char_app s1 s2 :
  last_char (s1 +:+ s2)
  = match last_char s2 with Some c => Some c | None => last_char s1 end.
Proof.
  induction s1 as [| c s1 IH].
  - change (EmptyString +:+ s2) with s2. cbn. by destruct (last_char s2).
  - change (String c s1 +:+ s2) with (String c (s1 +:+ s2)). cbn.
    rewrite IH. by destruct (last_char s2), (last_char s1).
Qed.

(** A kline key of a supported interval is never a trade key: the one
    ends with the interval's unit, the other with the [e] of [@trade].  So
    a stream key names its channel. *)
Lemma kline_key_is_not_trade_key symbol interval symbol' :
  interval ∈ supported_intervals ->
  getKlineStreamName symbol interval ≠ getTradeStreamName symbol'.
Proof.
  intros Hin Heq. apply (f_equal last_char) in Heq.
  unfold getKlineStreamName, getTradeStreamName in Heq.
  rewrite !last_char_app in Heq.
  unfold supported_intervals in Hin.
  repeat (apply elem_of_cons in Hin as [-> | Hin];
          [vm_compute in Heq; discriminate Heq |]).
  by apply elem_of_nil in Hin.
Qed.

Lemma btcusdt_differs_only_in_case : differ_only_in_case "btcusdt" "BTCUSDT".
Proof.
  apply (doc_cons _ _ _ _ (cv_low_up "B" eq_refl)).
  apply (doc_cons _ _ _ _ (cv_low_up "T" eq_refl)).
  apply (doc_cons _ _ _ _ (cv_low_up "C" eq_refl)).
  apply (doc_cons _ _ _ _ (cv_low_up "U" eq_refl)).
  apply (doc_cons _ _ _ _ (cv_low_up "S" eq_refl)).
  apply (doc_cons _ _ _ _ (cv_low_up "D" eq_refl)).
  apply (doc_cons _ _ _ _ (cv_low_up "T" eq_refl)).
  apply doc_nil.
Defined.

(** C9. The kline stream key is a function of the symbol and the interval,
    and it does not see the letter case of the symbol: the keys of
    ["btcusdt"] and ["BTCUSDT"] are equal for every interval, and so are
    the keys of any two symbols that differ only in letter case. *)
Theorem kline_key_case_insensitive (interval : ChartInterval) :
  getKlineStreamName "btcusdt" interval = getKlineStreamName "BTCUSDT" interval
  ∧ ∀ s1 s2 : string,
      differ_only_in_case s1 s2 ->
      getKlineStreamName s1 interval = getKlineStreamName s2 interval.
Proof.
  split; [done |].
  intros s1 s2 H. unfold getKlineStreamName.
  by rewrite (toLowerCase_differ_only_in_case _ _ H).
Qed.

Lemma kline_key_case_insensitive_witness :
  differ_only_in_case "btcusdt" "BTCUSDT"
  ∧ getKlineStreamName "btcusdt" "1m" = getKlineStreamName "BTCUSDT" "1m".
Proof.
  split; [exact btcusdt_differs_only_in_case |].
  exact (proj2 (kline_key_case_insensitive "1m") "btcusdt" "BTCUSDT"
           btcusdt_differs_only_in_case).
Defined.

End CodecFacts.

(** ** The kline parser *)

Module ParserFacts.
Import Codec JS Data Manager.

(** *** The quotient by 1000 below [2 ^ 53] *)

Lemma log2_quot_le (n d : Z) : (Float64.log2_quot n d <= Z.log2 n - Z.log2 d)%Z.
Proof.
  unfold Float64.log2_quot. cbv zeta.
  destruct (if (_ <? 0)%Z then _ else _); lia.
Qed.

(** Below [2 ^ 53] the quotient by 1000 keeps at least 9 binary places,
    and the rounding moves it by at most half a unit of the last one. *)
Lemma div_pos_1000 (n : Z) :
  (0 < n < 2 ^ 53)%Z ->
  ∃ m P : Z,
    (512 <= P)%Z
    ∧ Float64.Math_floor (Float64.div_pos n 1000) = (m / P)%Z
    ∧ Float64.Math_floor ((- (Float64.div_pos n 1000).1)%Z, (Float64.div_pos n 1000).2)
      = (- m / P)%Z
    ∧ (1000 * m - 500 <= n * P <= 1000 * m + 500)%Z.
Proof.
  intros [Hpos Hlt].
  assert (He : (Float64.log2_quot n 1000 - 52 <= -9)%Z).
  { pose proof (log2_quot_le n 1000) as H.
    assert (Z.log2 n < 53)%Z by (apply Z.log2_lt_pow2; lia).
    change (Z.log2 1000) with 9%Z in H. lia. }
  unfold Float64.div_pos. cbv zeta.
  set (e := (Float64.log2_quot n 1000 - 52)%Z) in *.
  assert (Hneg : (e <? 0)%Z = true) by (apply Z.ltb_lt; lia).
  rewrite Hneg.
  set (P := (2 ^ (- e))%Z).
  assert (HP : (512 <= P)%Z).
  { change 512%Z with (2 ^ 9)%Z. apply Z.pow_le_mono_r; lia. }
  pose proof (Z.div_mod (n * P) 1000 ltac:(lia)) as Hdm.
  pose proof (Z.mod_pos_bound (n * P) 1000 ltac:(lia)) as Hr.
  set (q := (n * P / 1000)%Z) in *. set (r := ((n * P) mod 1000)%Z) in *.
  eexists _, P. split; [exact HP |].
  split; [cbn [Float64.Math_floor fst snd]; rewrite Hneg; reflexivity |].
  split; [cbn [Float64.Math_floor fst snd]; rewrite Hneg; reflexivity |].
  destruct (2 * r <? 1000)%Z eqn:H1; [apply Z.ltb_lt in H1; lia |].
  apply Z.ltb_ge in H1.
  destruct (1000 <? 2 * r)%Z eqn:H2; [apply Z.ltb_lt in H2; lia |].
  apply Z.ltb_ge in H2.
  destruct (Z.even q); lia.
Qed.

(** On the safe integers, [Math.floor(t / 1000)] is the exact quotient
    rounded towards minus infinity. *)
Lemma floor_divide_1000 (t : Z) :
  (- Float64.two53 < t < Float64.two53)%Z ->
  Float64.Math_floor (Float64.divide t 1000) = (t / 1000)%Z.
Proof.
  unfold Float64.two53. intros Ht. unfold Float64.divide.
  destruct (t =? 0)%Z eqn:H0.
  { apply Z.eqb_eq in H0. by subst. }
  apply Z.eqb_neq in H0.
  pose proof (Z.div_mod t 1000 ltac:(lia)) as Hdm.
  pose proof (Z.mod_pos_bound t 1000 ltac:(lia)) as Hr.
  destruct (0 <? t)%Z eqn:Hs.
  - apply Z.ltb_lt in Hs.
    destruct (div_pos_1000 t ltac:(lia)) as (m & P & HP & -> & _ & Hlo & Hhi).
    symmetry. apply Z.div_unique with (m - (t / 1000) * P)%Z; nia.
  - apply Z.ltb_ge in Hs.
    destruct (div_pos_1000 (- t) ltac:(lia)) as (m & P & HP & _ & Hf & Hlo & Hhi).
    destruct (Float64.div_pos (- t) 1000) as [m' e'] eqn:E. cbn [fst snd] in Hf.
    rewrite Hf.
    symmetry. apply Z.div_unique with (- m - (t / 1000) * P)%Z; nia.
Qed.

Section Parser.

Context {float64 : Type}.
Variable parseFloat : string -> float64.

(** C7, as the code has it.  For a kline frame whose start time [k.t],
    given in milliseconds, is a safe integer (below [2 ^ 53] in absolute
    value), the [time] of the candlestick is [k.t] rounded down to whole
    seconds: it is the one integer [s] with [1000 s <= k.t < 1000 s + 1000];
    [k.t = 1700000000000] gives [1700000000].  Open, high, low, close and
    volume are the results of [parseFloat] on the frame's texts. *)
Theorem parseKlineData_seconds (data : BinanceKlineWS) :
  (- Float64.two53 < k_t (kline_k data) < Float64.two53)%Z ->
  let candle := parseKlineData parseFloat data in
  (1000 * time candle <= k_t (kline_k data) < 1000 * time candle + 1000)%Z
  ∧ (∀ s : Z, (1000 * s <= k_t (kline_k data) < 1000 * s + 1000)%Z -> time candle = s)
  ∧ (k_t (kline_k data) = 1700000000000%Z -> time candle = 1700000000%Z)
  ∧ open candle = parseFloat (k_o (kline_k data))
  ∧ high candle = parseFloat (k_h (kline_k data))
  ∧ low candle = parseFloat (k_l (kline_k data))
  ∧ close candle = parseFloat (k_c (kline_k data))
  ∧ volume candle = Some (parseFloat (k_v (kline_k data))).
Proof.
  intros Hsafe. cbn [parseKlineData time open high low close volume].
  rewrite (floor_divide_1000 _ Hsafe).
  set (t := k_t (kline_k data)).
  split; [| split; [| split]].
  - pose proof (Z.div_mod t 1000 ltac:(lia)) as Hdm.
    pose proof (Z.mod_pos_bound t 1000 ltac:(lia)). lia.
  - intros s Hs.
    pose proof (Z.div_mod t 1000 ltac:(lia)) as Hdm.
    pose proof (Z.mod_pos_bound t 1000 ltac:(lia)). nia.
  - intros ->. reflexivity.
  - repeat split.
Qed.

End Parser.

Lemma parseKlineData_seconds_witness :
  (- Float64.two53 < k_t (kline_k Sample.kline_frame) < Float64.two53)%Z
  ∧ k_t (kline_k Sample.kline_frame) = 1700000000000%Z
  ∧ time (parseKlineData Sample.decimal Sample.kline_frame) = 1700000000%Z.
Proof.
  assert (Hsafe : (- Float64.two53 < k_t (kline_k Sample.kline_frame) < Float64.two53)%Z).
  { vm_compute. split; reflexivity. }
  split; [exact Hsafe |]. split; [reflexivity |].
  apply (parseKlineData_seconds Sample.decimal Sample.kline_frame Hsafe).
  reflexivity.
Defined.

(** C7 as stated fails above the safe integers.  The start time
    [141000000000000992] is a binary64 number (an odd mantissa of 52 bits
    times [2 ^ 5]); its quotient by 1000 lies within half a unit in the
    last place of [141000000000001], so the division gives that number and
    [time], multiplied back, is past the start time. *)
Lemma parseKlineData_rounds_late_time_up :
  k_t (kline_k Sample.late_kline_frame) = (4406250000000031 * 2 ^ 5)%Z
  ∧ (4406250000000031 < Float64.two53)%Z
  ∧ time (parseKlineData Sample.decimal Sample.late_kline_frame) = 141000000000001%Z
  ∧ (k_t (kline_k Sample.late_kline_frame) / 1000 = 141000000000000)%Z
  ∧ ¬ (1000 * time (parseKlineData Sample.decimal Sample.late_kline_frame)
       <= k_t (kline_k Sample.late_kline_frame))%Z.
Proof.
  split; [vm_compute; reflexivity |].
  split; [vm_compute; reflexivity |].
  split; [vm_compute; reflexivity |].
  split; [vm_compute; reflexivity |].
  vm_compute. intros H. apply H. reflexivity.
Qed.

End ParserFacts.

(** ** The manager *)

Module ManagerFacts.
Import Codec JS Data Manager.

Section Facts.

Context {float64 : Type}.
Variable parseFloat : string -> float64.
Variable JSON_parse : string -> option value.

Local Abbreviation step := (Manager.step parseFloat JSON_parse).
Local Abbreviation run := (Manager.run parseFloat JSON_parse).
Local Abbreviation handleMessage := (Manager.handleMessage parseFloat JSON_parse).
Local Abbreviation handleMessage_try := (Manager.handleMessage_try parseFloat JSON_parse).
Local Abbreviation frame_key := (Manager.frame_key JSON_parse).
Local Abbreviation malformed := (Manager.malformed JSON_parse).
Local Abbreviation exec := (Manager.exec (float64 := float64)).

(** *** What each method does to the state *)

Ltac unfold_M :=
  cbv [Manager.exec Manager.M_bind Manager.M_ret mbind mret
       get_this update_this get_browser update_browser emit
       new_WebSocket socket_close socket_send setTimeout setInterval clearInterval
       notifyConnectionState startPing stopPing createConnection attemptReconnect
       reconnect_timer ping_timer onopen onerror onclose onmessage
       connect subscribeKline unsubscribeKline subscribeTrade unsubscribeTrade
       onConnectionChange removeConnectionHandler disconnect socket_becomes].

Lemma exec_disconnect σ :
  exec disconnect σ =
  ({| this := {| ws := None; reconnectAttempts := reconnectAttempts (this σ);
                 pingInterval := None; streams := [];
                 klineHandlers := ∅; tradeHandlers := ∅; connectionHandlers := [] |};
      browser :=
        Browser.with_sockets
          (match ws (this σ) with
           | Some id => alter Browser.close_socket id
           | None => fun l => l
           end)
          (Browser.with_intervals
             (match pingInterval (this σ) with
              | Some p => fun s => s ∖ {[p]}
              | None => fun s => s
              end) (browser σ)) |},
   match pingInterval (this σ) with Some p => [IntervalCleared p] | None => [] end
   ++ match ws (this σ) with Some id => [SocketCloseCalled id] | None => [] end).
Proof.
  destruct σ as [[w n p ss kh th ch] [socks touts ints nt]].
  unfold_M. destruct w, p; reflexivity.
Qed.

Lemma exec_createConnection σ :
  exec createConnection σ =
  let closes := match ws (this σ) with
                | Some id =>
                    match Browser.readyState_of (browser σ) id with
                    | Some OPEN => Some id
                    | _ => None
                    end
                | None => None
                end in
  let socks := match closes with
               | Some id => alter Browser.close_socket id (Browser.sockets (browser σ))
               | None => Browser.sockets (browser σ)
               end in
  let u := createStreamUrl (streams (this σ)) in
  ({| this := with_ws (Some (List.length socks)) (this σ);
      browser := Browser.with_sockets
                   (fun _ => socks ++ [{| Browser.url := u; Browser.readyState := CONNECTING |}])
                   (browser σ) |},
   match closes with Some id => [SocketCloseCalled id] | None => [] end
   ++ map (fun h => ConnectionNotified h connecting) (connectionHandlers (this σ))
   ++ [SocketCreated (List.length socks) u]).
Proof.
  destruct σ as [[w n p ss kh th ch] [socks touts ints nt]].
  unfold_M. cbn.
  destruct w as [id |]; cbn.
  - unfold Browser.readyState_of. cbn.
    destruct (socks !! id) as [[u []] |] eqn:E; cbn; rewrite ?app_nil_r; reflexivity.
  - reflexivity.
Qed.

Lemma exec_onclose σ :
  exec onclose σ =
  let b1 := match pingInterval (this σ) with
            | Some p => Browser.with_intervals (fun s => s ∖ {[p]}) (browser σ)
            | None => browser σ
            end in
  let n := reconnectAttempts (this σ) in
  let notes := map (fun h => ConnectionNotified h disconnected) (connectionHandlers (this σ))
               ++ match pingInterval (this σ) with
                  | Some p => [IntervalCleared p]
                  | None => []
                  end in
  if bool_decide (maxReconnectAttempts ≤ n)%nat then
    ({| this := with_pingInterval None (this σ); browser := b1 |},
     notes ++ [ConsoleError "Max reconnection attempts reached"])
  else
    let delay := (reconnectDelay * 2 ^ (Z.of_nat (S n) - 1))%Z in
    ({| this := with_reconnectAttempts (S n) (with_pingInterval None (this σ));
        browser := Browser.fresh_timer
                     (Browser.with_timeouts (insert (Browser.next_timer b1) delay) b1) |},
     notes ++ [TimeoutSet (Browser.next_timer b1) delay]).
Proof.
  destruct σ as [[w n p ss kh th ch] [socks touts ints nt]].
  unfold_M. cbn.
  destruct p as [p |]; cbn; case_bool_decide; cbn;
    rewrite ?app_nil_r, <- ?app_assoc; reflexivity.
Qed.


Lemma exec_onopen σ :
  exec onopen σ =
  ({| this := with_pingInterval (Some (Browser.next_timer (browser σ)))
                (with_reconnectAttempts 0 (this σ));
      browser := Browser.fresh_timer
                   (Browser.with_intervals
                      (fun s => {[Browser.next_timer (browser σ)]} ∪ s) (browser σ)) |},
   map (fun h => ConnectionNotified h connected) (connectionHandlers (this σ))
   ++ [IntervalSet (Browser.next_timer (browser σ)) 30000]).
Proof.
  destruct σ as [[w n p ss kh th ch] [socks touts ints nt]].
  unfold_M. cbn. reflexivity.
Qed.

Lemma getState_cases σ :
  getState σ = connecting ∨ getState σ = connected ∨ getState σ = disconnected.
Proof.
  unfold getState. destruct (ws (this σ)) as [id |]; [| by auto].
  destruct (Browser.readyState_of (browser σ) id) as [[] |]; auto.
Qed.

Lemma notifications_notify (hs : list ConnectionHandler) (s : ConnectionState) :
  notifications (float64 := float64) (map (fun h => ConnectionNotified h s) hs)
  = map (fun h => (h, s)) hs.
Proof.
  unfold notifications. induction hs as [| h hs IH]; [done |].
  cbn. by f_equal.
Qed.

(** *** The reported state *)

(** C10. [getState] answers ["connecting"], ["connected"] or
    ["disconnected"], in every state; it never answers ["error"], not even
    in the state reached when a socket error has just been announced to
    the observers.  Without a socket, before the first [connect] and after
    [disconnect], the answer is ["disconnected"]. *)
Theorem getState_never_error (σ : Sys) :
  (getState σ = connecting ∨ getState σ = connected ∨ getState σ = disconnected)
  ∧ getState σ ≠ error
  ∧ (ws (this σ) = None -> getState σ = disconnected)
  ∧ getState initial = disconnected
  ∧ getState (exec disconnect σ).1 = disconnected
  ∧ (∀ id σ' evs,
       step (SocketErrors id) σ = Some (σ', evs) ->
       notifications evs = map (fun h => (h, error)) (connectionHandlers (this σ))
       ∧ getState σ' ≠ error).
Proof.
  assert (Hne : ∀ τ, getState τ ≠ error).
  { intros τ. destruct (getState_cases τ) as [-> | [-> | ->]]; done. }
  split; [apply getState_cases |].
  split; [apply Hne |].
  split; [unfold getState; by intros -> |].
  split; [done |].
  split; [by rewrite exec_disconnect |].
  intros id σ' evs Hstep. split; [| apply Hne].
  unfold Manager.step in Hstep.
  assert (Some (exec onerror σ) = Some (σ', evs)) as [= <- <-].
  { destruct (Browser.readyState_of (browser σ) id) as [[] |]; done. }
  unfold_M. cbn. apply notifications_notify.
Qed.

(** *** Disconnecting *)

Lemma exec_createConnection_connect ss σ :
  exec (connect ss) σ
  = exec createConnection {| this := with_streams ss (this σ); browser := browser σ |}.
Proof.
  unfold Manager.exec, connect. cbv [mbind Manager.M_bind update_this].
  by destruct (createConnection _) as [[? ?] ?].
Qed.

Lemma omap_notify_sockets (hs : list ConnectionHandler) (s : ConnectionState) :
  omap (fun ev : Event float64 =>
          match ev with SocketCreated id u => Some (id, u) | _ => None end)
       (map (fun h => ConnectionNotified h s) hs) = [].
Proof. induction hs as [| h hs IH]; [done |]. cbn. exact IH. Qed.

(** C8, evaluated on the code: [connect] with an empty stream list makes a
    socket all the same, to the combined-stream address with nothing after
    [streams=]. *)
Theorem connect_without_streams_opens_socket (σ : Sys) :
  ∃ id,
    sockets_created (exec (connect []) σ).2
    = [(id, "wss://testnet.binance.vision/ws/stream?streams=")]
    ∧ ws (this (exec (connect []) σ).1) = Some id
    ∧ Browser.readyState_of (browser (exec (connect []) σ).1) id = Some CONNECTING.
Proof.
  rewrite exec_createConnection_connect, exec_createConnection. cbn.
  eexists. split; [| split; [reflexivity |]].
  - unfold sockets_created. rewrite !omap_app. cbn.
    rewrite omap_notify_sockets. cbn.
    destruct (ws (this σ)) as [id |]; [| reflexivity].
    destruct (Browser.readyState_of (browser σ) id) as [[] |]; reflexivity.
  - unfold Browser.readyState_of. cbn.
    set (socks := match _ with Some _ => _ | None => _ end).
    by rewrite lookup_app_r, Nat.sub_diag.
Qed.


(** *** Inbound frames *)

Lemma exec_handleMessage σ rawData :
  exec (handleMessage rawData) σ =
  (σ, match handleMessage_try (this σ) rawData with
      | Ok evs => evs
      | Throw _ => parse_error_logged
      end).
Proof.
  unfold Manager.exec, Manager.handleMessage.
  cbv [mbind Manager.M_bind get_this emit].
  by destruct (Manager.handleMessage_try _ _ _ _).
Qed.

Lemma handleMessage_try_malformed m rawData :
  malformed rawData ->
  handleMessage_try m rawData = Ok []
  ∨ ∃ e, handleMessage_try m rawData = Throw e.
Proof.
  unfold Manager.malformed, Manager.handleMessage_try, discriminator, payload_of.
  cbv [mbind mret result_bind result_ret].
  destruct (JSON_parse rawData) as [parsed |]; [| by right; eexists].
  destruct (get parsed "data") as [d | e]; [| by right; eexists].
  destruct (get (if truthy d then d else parsed) "e") as [e | e'];
    [| by right; eexists].
  intros H. destruct (H e eq_refl) as [-> ->]. by left.
Qed.

Lemma handleMessage_try_no_handler m rawData :
  match frame_key rawData with
  | Some (KlineChannel, key) =>
      klineHandlers m !! key = None -> handleMessage_try m rawData = Ok []
  | Some (TradeChannel, key) =>
      tradeHandlers m !! key = None -> handleMessage_try m rawData = Ok []
  | None => True
  end.
Proof.
  unfold Manager.frame_key, Manager.handleMessage_try, payload_of.
  cbv [mbind mret result_bind result_ret].
  destruct (JSON_parse rawData) as [parsed |]; [| done].
  destruct (get parsed "data") as [d | e]; [| done].
  destruct (get (if truthy d then d else parsed) "e") as [e | e']; [| done].
  destruct (is_str "kline" e).
  - destruct (kline_key_of _) as [key | e']; [| done]. by intros ->.
  - destruct (is_str "trade" e); [| done].
    destruct (trade_key_of _) as [key | e']; [| done]. by intros ->.
Qed.

Lemma handleMessage_try_trade m rawData parsed data key h :
  JSON_parse rawData = Some parsed ->
  payload_of parsed = Ok data ->
  frame_key rawData = Some (TradeChannel, key) ->
  tradeHandlers m !! key = Some h ->
  handleMessage_try m rawData = Ok [TradeDelivered h data].
Proof.
  unfold Manager.frame_key, Manager.handleMessage_try, payload_of.
  cbv [mbind mret result_bind result_ret].
  intros -> Hdata.
  destruct (get parsed "data") as [d | e]; [| done].
  injection Hdata as ->.
  destruct (get data "e") as [e | e']; [| done].
  destruct (is_str "kline" e).
  { by destruct (kline_key_of data). }
  destruct (is_str "trade" e); [| done].
  destruct (trade_key_of data) as [key' |]; [| done].
  intros [= ->]. by intros ->.
Qed.

(** A frame with the declared types converts without throwing. *)
Lemma parseKlineData_of_typed data k :
  asBinanceKlineWS data = Some k ->
  parseKlineData_of parseFloat data = Ok (Some (parseKlineData parseFloat k)).
Proof.
  intros Hk. unfold Manager.parseKlineData_of. rewrite Hk.
  unfold asBinanceKlineWS in Hk. cbv [mbind option_bind] in Hk.
  destruct data as [| | | | | | top]; try discriminate Hk. cbn [as_obj] in Hk.
  destruct (assoc "e" top) as [| | | | e | |]; try discriminate Hk. cbn [as_str] in Hk.
  destruct (assoc "s" top) as [| | | | s | |]; try discriminate Hk. cbn [as_str] in Hk.
  cbn [get]. cbv [mbind mret result_bind result_ret].
  destruct (assoc "k" top) as [| | | | | | kf]; try discriminate Hk. cbn [as_obj get] in *.
  destruct (assoc "t" kf) as [| | | t | | |]; try discriminate Hk. cbn [as_num] in Hk.
  destruct (assoc "i" kf) as [| | | | i | |]; try discriminate Hk. cbn [as_str] in Hk.
  destruct (assoc "o" kf) as [| | | | o | |]; try discriminate Hk. cbn [as_str] in Hk.
  destruct (assoc "c" kf) as [| | | | c | |]; try discriminate Hk. cbn [as_str] in Hk.
  destruct (assoc "h" kf) as [| | | | h | |]; try discriminate Hk. cbn [as_str] in Hk.
  destruct (assoc "l" kf) as [| | | | l | |]; try discriminate Hk. cbn [as_str] in Hk.
  destruct (assoc "v" kf) as [| | | | v | |]; try discriminate Hk.
  reflexivity.
Qed.

Lemma handleMessage_try_kline m rawData parsed data key h :
  JSON_parse rawData = Some parsed ->
  payload_of parsed = Ok data ->
  frame_key rawData = Some (KlineChannel, key) ->
  klineHandlers m !! key = Some h ->
  handleMessage_try m rawData
  = match parseKlineData_of parseFloat data with
    | Ok candle => Ok [KlineDelivered h candle]
    | Throw e => Throw e
    end.
Proof.
  unfold Manager.frame_key, Manager.handleMessage_try, payload_of.
  cbv [mbind mret result_bind result_ret].
  intros -> Hdata.
  destruct (get parsed "data") as [d | e]; [| done].
  injection Hdata as ->.
  destruct (get data "e") as [e | e']; [| done].
  destruct (is_str "kline" e).
  { destruct (kline_key_of data) as [key' |]; [| done].
    intros [= ->]. by intros ->. }
  destruct (is_str "trade" e); [| done].
  by destruct (trade_key_of data).
Qed.

(** C4. Subscribing a handler for a stream key and then unsubscribing the
    key leaves no entry under it, on the kline side and on the trade side
    alike; a frame that arrives for that key afterwards is dropped: no
    handler is called, nothing at all is emitted, and the state stays as it
    is. *)
Theorem unsubscribe_stops_delivery (σ : Sys) (symbol : string)
    (interval : ChartInterval) (hk : KlineHandler) (ht : TradeHandler) :
  let σk := (exec (unsubscribeKline symbol interval)
               (exec (subscribeKline symbol interval hk) σ).1).1 in
  let σt := (exec (unsubscribeTrade symbol)
               (exec (subscribeTrade symbol ht) σ).1).1 in
  klineHandlers (this σk) !! getKlineStreamName symbol interval = None
  ∧ tradeHandlers (this σt) !! getTradeStreamName symbol = None
  ∧ (∀ rawData,
       frame_key rawData = Some (KlineChannel, getKlineStreamName symbol interval) ->
       exec (handleMessage rawData) σk = (σk, []))
  ∧ (∀ rawData,
       frame_key rawData = Some (TradeChannel, getTradeStreamName symbol) ->
       exec (handleMessage rawData) σt = (σt, [])).
Proof.
  cbv zeta.
  assert (Hk : klineHandlers (this (exec (unsubscribeKline symbol interval)
                 (exec (subscribeKline symbol interval hk) σ).1).1)
               !! getKlineStreamName symbol interval = None).
  { destruct σ as [m b]. unfold_M. cbn. apply lookup_delete_eq. }
  assert (Ht : tradeHandlers (this (exec (unsubscribeTrade symbol)
                 (exec (subscribeTrade symbol ht) σ).1).1)
               !! getTradeStreamName symbol = None).
  { destruct σ as [m b]. unfold_M. cbn. apply lookup_delete_eq. }
  split; [exact Hk |]. split; [exact Ht |]. split.
  - intros rawData Hkey. rewrite exec_handleMessage.
    pose proof (handleMessage_try_no_handler
                  (this (exec (unsubscribeKline symbol interval)
                     (exec (subscribeKline symbol interval hk) σ).1).1) rawData) as H.
    rewrite Hkey in H. by rewrite (H Hk).
  - intros rawData Hkey. rewrite exec_handleMessage.
    pose proof (handleMessage_try_no_handler
                  (this (exec (unsubscribeTrade symbol)
                     (exec (subscribeTrade symbol ht) σ).1).1) rawData) as H.
    rewrite Hkey in H. by rewrite (H Ht).
Qed.

(** C5. A malformed frame, be it text that does not parse or a value whose
    discriminator is neither ["kline"] nor ["trade"], is dropped: handling
    it completes, calls no kline handler and no trade handler, tells the
    observers nothing, touches no socket and no timer, and leaves the whole
    state, connection and subscriptions, as it was; the only thing it may
    do is log the parse error, which it does when the text does not parse. *)
Theorem malformed_frame_dropped (σ : Sys) (rawData : string) :
  malformed rawData ->
  ∃ evs,
    exec (handleMessage rawData) σ = (σ, evs)
    ∧ (evs = [] ∨ evs = parse_error_logged)
    ∧ (JSON_parse rawData = None -> evs = parse_error_logged)
    ∧ kline_calls evs = [] ∧ trade_calls evs = [] ∧ notifications evs = []
    ∧ (∀ id, Browser.readyState_of (browser σ) id = Some OPEN ->
         step (SocketMessage id rawData) σ = Some (σ, evs)).
Proof.
  intros Hmal. eexists. split; [apply exec_handleMessage |].
  assert (Hstep : ∀ evs id,
            exec (handleMessage rawData) σ = (σ, evs) ->
            Browser.readyState_of (browser σ) id = Some OPEN ->
            step (SocketMessage id rawData) σ = Some (σ, evs)).
  { intros evs id Hexec Hopen. unfold Manager.step. rewrite Hopen.
    unfold onmessage. by rewrite Hexec. }
  destruct (handleMessage_try_malformed (this σ) rawData Hmal) as [HOk | [e HThrow]].
  - rewrite HOk. repeat split; auto.
    + intros Hnone. unfold Manager.handleMessage_try in HOk.
      by rewrite Hnone in HOk.
    + intros id. apply Hstep. by rewrite exec_handleMessage, HOk.
  - rewrite HThrow. repeat split; auto.
    intros id. apply Hstep. by rewrite exec_handleMessage, HThrow.
Qed.

(** C6. The combined-stream trade frame of the specification, with a trade
    handler registered under ["btcusdt@trade"]: the payload under [data] is
    taken out of the envelope, its key is ["btcusdt@trade"], and the
    handler is called once, with that payload, whose price [p] is
    ["50000.1"]; nothing else happens. *)
Theorem trade_envelope_delivered (σ : Sys) (rawData : string) (h : TradeHandler) :
  JSON_parse rawData = Some Sample.trade_envelope ->
  tradeHandlers (this σ) !! "btcusdt@trade" = Some h ->
  exec (handleMessage rawData) σ = (σ, [TradeDelivered h Sample.trade_payload])
  ∧ trade_calls (exec (handleMessage rawData) σ).2 = [(h, Sample.trade_payload)]
  ∧ kline_calls (exec (handleMessage rawData) σ).2 = []
  ∧ payload_of Sample.trade_envelope = Ok Sample.trade_payload
  ∧ get Sample.trade_payload "p" = Ok (VStr "50000.1")
  ∧ frame_key rawData = Some (TradeChannel, "btcusdt@trade")
  ∧ getTradeStreamName "BTCUSDT" = "btcusdt@trade".
Proof.
  intros Hparse Hh.
  assert (Htry : handleMessage_try (this σ) rawData
                 = Ok [TradeDelivered h Sample.trade_payload]).
  { apply (handleMessage_try_trade _ _ Sample.trade_envelope _ "btcusdt@trade");
      [done | reflexivity | | done].
    unfold Manager.frame_key. by rewrite Hparse. }
  rewrite exec_handleMessage, Htry. cbn.
  repeat split. unfold Manager.frame_key. by rewrite Hparse.
Qed.


(** *** Reading traces *)

#[local] Arguments Manager.sockets_created : simpl never.
#[local] Arguments Manager.timeouts_set : simpl never.
#[local] Arguments Manager.notifications : simpl never.

Lemma sockets_created_app (t1 t2 : list (Event float64)) :
  sockets_created (t1 ++ t2) = sockets_created t1 ++ sockets_created t2.
Proof. apply omap_app. Qed.

Lemma timeouts_set_app (t1 t2 : list (Event float64)) :
  timeouts_set (t1 ++ t2) = timeouts_set t1 ++ timeouts_set t2.
Proof. apply omap_app. Qed.

Lemma sockets_created_notify (hs : list ConnectionHandler) (s : ConnectionState) :
  sockets_created (float64 := float64) (map (fun h => ConnectionNotified h s) hs) = [].
Proof. apply omap_notify_sockets. Qed.

Lemma timeouts_set_notify (hs : list ConnectionHandler) (s : ConnectionState) :
  timeouts_set (float64 := float64) (map (fun h => ConnectionNotified h s) hs) = [].
Proof. unfold timeouts_set. induction hs as [| h hs IH]; [done |]. cbn. exact IH. Qed.

Lemma notifications_app (t1 t2 : list (Event float64)) :
  notifications (t1 ++ t2) = notifications t1 ++ notifications t2.
Proof. apply omap_app. Qed.

Ltac quiet_trace :=
  rewrite ?sockets_created_app, ?timeouts_set_app,
    ?sockets_created_notify, ?timeouts_set_notify.

Lemma handleMessage_try_quiet m rawData evs :
  handleMessage_try m rawData = Ok evs ->
  sockets_created evs = [] ∧ timeouts_set evs = [] ∧ notifications evs = [].
Proof.
  unfold Manager.handleMessage_try.
  cbv [mbind mret result_bind result_ret].
  destruct (JSON_parse rawData) as [parsed |]; [| done].
  destruct (get parsed "data") as [d | e]; [| done].
  destruct (get (if truthy d then d else parsed) "e") as [e | e']; [| done].
  destruct (is_str "kline" e).
  - destruct (kline_key_of _) as [key | e']; [| done].
    destruct (klineHandlers m !! key); [| by intros [= <-]].
    destruct (parseKlineData_of _ _) as [candle | e']; [| done].
    by intros [= <-].
  - destruct (is_str "trade" e); [| by intros [= <-]].
    destruct (trade_key_of _) as [key | e']; [| done].
    destruct (tradeHandlers m !! key); by intros [= <-].
Qed.

Lemma handleMessage_quiet σ rawData :
  let evs := (exec (handleMessage rawData) σ).2 in
  sockets_created evs = [] ∧ timeouts_set evs = [].
Proof.
  cbv zeta. rewrite exec_handleMessage. cbn.
  destruct (handleMessage_try (this σ) rawData) as [evs | e] eqn:E; [| done].
  apply handleMessage_try_quiet in E. tauto.
Qed.

(** *** Runs without [connect] *)

Ltac exec_inj H :=
  apply (inj Some) in H;
  let H1 := fresh in
  let H2 := fresh in
  pose proof (f_equal fst H) as H1;
  pose proof (f_equal snd H) as H2;
  cbn [fst snd] in H1, H2; clear H; subst.

Ltac step_cases Hstep :=
  unfold Manager.step in Hstep;
  repeat match type of Hstep with
         | context [Browser.readyState_of ?b ?id] =>
             destruct (Browser.readyState_of b id) as [[] |] eqn:?
         | context [Browser.timeouts ?b !! ?id] =>
             destruct (Browser.timeouts b !! id) eqn:?
         | context [bool_decide ?P] => destruct (bool_decide P) eqn:?
         end;
  try discriminate Hstep.

(** With an empty stored stream list, no input other than [connect] makes
    a socket, and the list stays empty. *)
Lemma step_without_streams i σ σ' evs :
  is_Connect i = false ->
  streams (this σ) = [] ->
  step i σ = Some (σ', evs) ->
  streams (this σ') = [] ∧ sockets_created evs = [].
Proof.
  intros Hi Hs Hstep. destruct i; try discriminate Hi; clear Hi.
  all: try (unfold Manager.step in Hstep; exec_inj Hstep;
            first [ rewrite exec_disconnect; cbn; split; [done |];
                    by destruct (pingInterval (this σ)), (ws (this σ))
                  | destruct σ as [m b]; by unfold_M ]).
  - (* a socket opens *)
    step_cases Hstep. exec_inj Hstep.
    destruct σ as [[w n p ss kh th ch] [socks touts ints nt]].
    unfold_M. cbn. split; [done |]. by quiet_trace.
  - (* a message *)
    step_cases Hstep. exec_inj Hstep. unfold onmessage.
    split; [by rewrite exec_handleMessage | apply handleMessage_quiet].
  - (* an error *)
    step_cases Hstep; exec_inj Hstep;
      destruct σ as [[w n p ss kh th ch] [socks touts ints nt]];
      unfold_M; cbn; (split; [done | by quiet_trace]).
  - (* a socket closes *)
    step_cases Hstep; exec_inj Hstep;
      destruct σ as [[w n p ss kh th ch] [socks touts ints nt]];
      unfold_M; cbn; destruct p; cbn; case_bool_decide; cbn;
      (split; [done | by quiet_trace]).
  - (* a timeout fires *)
    step_cases Hstep. exec_inj Hstep.
    destruct σ as [[w n p ss kh th ch] [socks touts ints nt]].
    cbn in Hs. subst ss. by unfold_M.
  - (* an interval fires *)
    step_cases Hstep. exec_inj Hstep.
    destruct σ as [[w n p ss kh th ch] [socks touts ints nt]].
    unfold_M. cbn. destruct w as [sock |]; cbn; [| done].
    unfold Browser.readyState_of. cbn.
    by destruct (socks !! sock) as [[u []] |].
Qed.

Lemma run_without_streams inputs σ σ' evs :
  no_Connect inputs = true ->
  streams (this σ) = [] ->
  run inputs σ = Some (σ', evs) ->
  streams (this σ') = [] ∧ sockets_created evs = [].
Proof.
  revert σ evs. induction inputs as [| i inputs IH]; intros σ evs Hn Hs Hrun.
  - by injection Hrun as <- <-.
  - cbn in Hn. apply andb_true_iff in Hn as [Hi Hn].
    apply negb_true_iff in Hi. cbn in Hrun.
    destruct (step i σ) as [[σ1 t1] |] eqn:Hstep; [| done].
    destruct (run inputs σ1) as [[σ2 t2] |] eqn:Hrest; [| done].
    injection Hrun as <- <-.
    destruct (step_without_streams _ _ _ _ Hi Hs Hstep) as [Hs1 Ht1].
    destruct (IH _ _ Hn Hs1 Hrest) as [Hs2 Ht2].
    by rewrite sockets_created_app, Ht1, Ht2.
Qed.


(** C2, as the code has it.  [disconnect] does not cancel a pending
    reconnection timeout: the timeout stays pending and still fires.  What
    [disconnect] does is empty the stored stream list, and the timeout's
    closure connects only when that list is not empty: fired in the state
    [disconnect] leaves, it does nothing; and whatever happens after
    [disconnect], short of a new call of [connect], no socket is made, by
    that timeout or otherwise. *)
Theorem disconnect_defuses_reconnect (σ : Sys) (tid : nat) (delay : Z) :
  Browser.timeouts (browser σ) !! tid = Some delay ->
  let σd := (exec disconnect σ).1 in
  Browser.timeouts (browser σd) !! tid = Some delay
  ∧ step (TimeoutFires tid) σd
    = Some ({| this := this σd;
               browser := Browser.with_timeouts (delete tid) (browser σd) |}, [])
  ∧ (∀ inputs σ' evs,
       no_Connect inputs = true ->
       run inputs σd = Some (σ', evs) ->
       sockets_created evs = []).
Proof.
  intros Hpending. cbv zeta.
  assert (Hkept : Browser.timeouts (browser (exec disconnect σ).1) !! tid = Some delay).
  { by rewrite exec_disconnect. }
  split; [exact Hkept |]. split.
  - unfold Manager.step. rewrite Hkept. by rewrite exec_disconnect.
  - intros inputs σ' evs Hn Hrun.
    eapply run_without_streams; [exact Hn | | exact Hrun].
    by rewrite exec_disconnect.
Qed.

(** *** Once nothing is left to act *)







(** *** Reconnecting *)

Lemma exec_socket_closes σ id :
  exec (socket_becomes id CLOSED;; onclose) σ
  = exec onclose
      {| this := this σ;
         browser := Browser.with_sockets
                      (alter (Browser.set_readyState CLOSED) id) (browser σ) |}.
Proof.
  unfold Manager.exec. cbv [mbind Manager.M_bind socket_becomes update_browser].
  by destruct (onclose _) as [[? ?] ?].
Qed.

Lemma exec_timeout_fires σ id :
  exec (update_browser (Browser.with_timeouts (delete id));; reconnect_timer) σ
  = let σ1 := {| this := this σ;
                 browser := Browser.with_timeouts (delete id) (browser σ) |} in
    if bool_decide (0 < List.length (streams (this σ)))%nat
    then exec createConnection σ1
    else (σ1, []).
Proof.
  unfold Manager.exec.
  cbv [mbind mret Manager.M_bind Manager.M_ret update_browser reconnect_timer get_this].
  cbn. case_bool_decide; [| done].
  by destruct (createConnection _) as [[? ?] ?].
Qed.


(** The attempt counter, step by step: the opening of a socket sets it to
    zero, a close below the maximum adds one, nothing else touches it. *)
Lemma step_counter i σ σ' evs :
  step i σ = Some (σ', evs) ->
  reconnectAttempts (this σ')
  = match i with
    | SocketOpens _ => 0
    | SocketCloses _ =>
        if bool_decide (maxReconnectAttempts ≤ reconnectAttempts (this σ))%nat
        then reconnectAttempts (this σ) else S (reconnectAttempts (this σ))
    | _ => reconnectAttempts (this σ)
    end.
Proof.
  intros Hstep. destruct i.
  - unfold Manager.step in Hstep. exec_inj Hstep.
    by rewrite exec_createConnection_connect, exec_createConnection.
  - unfold Manager.step in Hstep. exec_inj Hstep. by rewrite exec_disconnect.
  - unfold Manager.step in Hstep. exec_inj Hstep. by destruct σ as [m b].
  - unfold Manager.step in Hstep. exec_inj Hstep. by destruct σ as [m b].
  - unfold Manager.step in Hstep. exec_inj Hstep. by destruct σ as [m b].
  - unfold Manager.step in Hstep. exec_inj Hstep. by destruct σ as [m b].
  - unfold Manager.step in Hstep. exec_inj Hstep. by destruct σ as [m b].
  - unfold Manager.step in Hstep. exec_inj Hstep. by destruct σ as [m b].
  - step_cases Hstep. exec_inj Hstep.
    by destruct σ as [[w n p ss kh th ch] [socks touts ints nt]].
  - step_cases Hstep. exec_inj Hstep. unfold onmessage.
    by rewrite exec_handleMessage.
  - step_cases Hstep; exec_inj Hstep;
      by destruct σ as [[w n p ss kh th ch] [socks touts ints nt]].
  - step_cases Hstep; exec_inj Hstep;
      rewrite exec_socket_closes, exec_onclose; cbn;
      by case_bool_decide.
  - step_cases Hstep. exec_inj Hstep.
    rewrite exec_timeout_fires. cbn.
    case_bool_decide; [| done]. by rewrite exec_createConnection.
  - step_cases Hstep. exec_inj Hstep.
    destruct σ as [[w n p ss kh th ch] [socks touts ints nt]].
    unfold_M. cbn. destruct w as [sock |]; cbn; [| done].
    unfold Browser.readyState_of. cbn.
    by destruct (socks !! sock) as [[u []] |].
Qed.

(** C3, as the code has it.  After [disconnect], from any state: the
    keepalive interval the manager held is cleared and forgotten; the kline
    handlers, the trade handlers and the connection observers are all
    gone; the stored stream list is empty; [close] has been called on the
    socket the manager held, so an open socket is closing, and the manager
    holds no socket.  The reconnect attempt counter keeps its value; a
    following [connect] does not change it either; it becomes zero when a
    socket opens, and only then: a step that is not the opening of a socket
    leaves a counter at zero only if it found it at zero. *)
Theorem disconnect_cleans_up (σ : Sys) :
  let σ' := (exec disconnect σ).1 in
  let evs := (exec disconnect σ).2 in
  pingInterval (this σ') = None
  ∧ (∀ p, pingInterval (this σ) = Some p ->
       (p ∉ Browser.intervals (browser σ')) ∧ (IntervalCleared p ∈ evs))
  ∧ klineHandlers (this σ') = ∅
  ∧ tradeHandlers (this σ') = ∅
  ∧ connectionHandlers (this σ') = []
  ∧ streams (this σ') = []
  ∧ ws (this σ') = None
  ∧ (∀ id, ws (this σ) = Some id ->
       (SocketCloseCalled id ∈ evs)
       ∧ (Browser.readyState_of (browser σ) id = Some OPEN ->
          Browser.readyState_of (browser σ') id = Some CLOSING))
  ∧ reconnectAttempts (this σ') = reconnectAttempts (this σ)
  ∧ (∀ ss, reconnectAttempts (this (exec (connect ss) σ').1) = reconnectAttempts (this σ))
  ∧ (∀ τ id τ' evs', step (SocketOpens id) τ = Some (τ', evs') ->
       reconnectAttempts (this τ') = 0)
  ∧ (∀ i τ τ' evs', step i τ = Some (τ', evs') ->
       reconnectAttempts (this τ') = 0 ->
       reconnectAttempts (this τ) = 0 ∨ ∃ id, i = SocketOpens id).
Proof.
  cbv zeta. rewrite exec_disconnect. cbn.
  repeat match goal with |- _ ∧ _ => split end; try done.
  - intros p ->. cbn. split.
    + intros [_ Hp]%elem_of_difference. apply Hp. by apply elem_of_singleton.
    + apply list_elem_of_here.
  - intros id ->. split.
    { destruct (pingInterval (this σ)); cbn;
        [apply list_elem_of_further |]; apply list_elem_of_here. }
    unfold Browser.readyState_of. cbn.
    rewrite list_lookup_alter_eq.
    destruct (Browser.sockets (browser σ) !! id) as [[u r] |]; [| done].
    cbn. by intros [= ->].
  - intros τ id τ' evs' Hstep. unfold Manager.step in Hstep.
    destruct (Browser.readyState_of (browser τ) id) as [[] |]; try done.
    injection Hstep as <- _.
    destruct τ as [[w n p ss kh th ch] [socks touts ints nt]].
    reflexivity.
  - intros i τ τ' evs' Hstep Hzero.
    rewrite (step_counter _ _ _ _ Hstep) in Hzero.
    destruct i; try (by left); [by right; eexists |].
    left. by case_bool_decide.
Qed.

(** *** Connecting without streams *)


End Facts.

(** *** The theorems at work on concrete runs *)

Local Abbreviation step := (Manager.step Sample.decimal Reader.read_json).
Local Abbreviation run := (Manager.run Sample.decimal Reader.read_json).
Local Abbreviation effects := (Manager.effects Sample.decimal Reader.read_json).
Local Abbreviation handleMessage := (Manager.handleMessage Sample.decimal Reader.read_json).
Local Abbreviation exec := (Manager.exec (float64 := Sample.number)).

(** Six closes in a row: five timeouts, with delays doubling from one
    second, and none after the sixth close. *)
Example six_closes_delays :
  timeouts_set <$> (snd <$> run Sample.six_closes initial)
  = Some [(1, 1000%Z); (2, 2000%Z); (3, 4000%Z); (4, 8000%Z); (5, 16000%Z)].
Proof. vm_compute. reflexivity. Qed.






Lemma pending_timeout : Browser.timeouts (browser Sample.pending) !! 1 = Some 1000%Z.
Proof. vm_compute. reflexivity. Defined.

Lemma disconnect_defuses_reconnect_witness :
  Browser.timeouts (browser Sample.pending) !! 1 = Some 1000%Z
  ∧ effects (TimeoutFires 1) (exec disconnect Sample.pending).1 = Some []
  ∧ sockets_created
      <$> (snd <$> run [SubscribeTrade "BTCUSDT" 7; TimeoutFires 1]
                     (exec disconnect Sample.pending).1)
      = Some [].
Proof.
  pose proof (disconnect_defuses_reconnect Sample.decimal Reader.read_json
                Sample.pending 1 1000%Z pending_timeout) as H.
  cbv zeta in H. destruct H as (_ & Hfire & Hrun).
  split; [exact pending_timeout |]. split.
  - unfold Manager.effects. by rewrite Hfire.
  - vm_compute. reflexivity.
Defined.

(** C2 as stated fails: the timeout is still pending after [disconnect],
    and when [connect] is called again before it fires, it fires on a
    stream list that is not empty any more and opens a socket of its own,
    next to the one [connect] has just opened. *)
Lemma disconnect_then_connect_revives_timeout :
  Browser.timeouts (browser Sample.pending) !! 1 = Some 1000%Z
  ∧ sockets_created
      <$> effects (TimeoutFires 1)
            (Sample.state_after
               [Connect Sample.trade_stream; SocketCloses 0;
                Disconnect; Connect Sample.trade_stream])
    = Some [(2, "wss://testnet.binance.vision/ws/btcusdt@trade")].
Proof. split; vm_compute; reflexivity. Qed.

Lemma disconnect_cleans_up_witness :
  pingInterval (this (Sample.state_after [Connect Sample.trade_stream; SocketOpens 0])) = Some 1
  ∧ ws (this (Sample.state_after [Connect Sample.trade_stream; SocketOpens 0])) = Some 0
  ∧ Browser.readyState_of
      (browser (exec disconnect
                  (Sample.state_after [Connect Sample.trade_stream; SocketOpens 0])).1) 0
    = Some CLOSING
  ∧ 1 ∉ Browser.intervals
          (browser (exec disconnect
                      (Sample.state_after [Connect Sample.trade_stream; SocketOpens 0])).1).
Proof.
  pose proof (disconnect_cleans_up Sample.decimal Reader.read_json
                (Sample.state_after [Connect Sample.trade_stream; SocketOpens 0])) as H.
  cbv zeta in H. destruct H as (_ & Hping & _ & _ & _ & _ & _ & Hsock & _).
  assert (Hp : pingInterval (this (Sample.state_after
                 [Connect Sample.trade_stream; SocketOpens 0])) = Some 1).
  { vm_compute. reflexivity. }
  assert (Hw : ws (this (Sample.state_after
                 [Connect Sample.trade_stream; SocketOpens 0])) = Some 0).
  { vm_compute. reflexivity. }
  split; [exact Hp |]. split; [exact Hw |]. split.
  - apply (Hsock 0 Hw). vm_compute. reflexivity.
  - exact (proj1 (Hping 1 Hp)).
Defined.

(** What [disconnect] clears is what the manager holds.  Two calls of
    [connect] in a row, both sockets opening: the first socket and the
    interval started for it are no longer held, and [disconnect] leaves
    them as they are, the socket open and the interval running. *)
Example disconnect_leaves_what_is_not_held :
  (let σ := Sample.state_after
              [Connect ["btcusdt@trade"]; Connect ["ethusdt@trade"];
               SocketOpens 0; SocketOpens 1; Disconnect] in
   (Browser.readyState_of (browser σ) 0, Browser.readyState_of (browser σ) 1,
    bool_decide (1 ∈ Browser.intervals (browser σ)),
    bool_decide (2 ∈ Browser.intervals (browser σ))))
  = (Some OPEN, Some CLOSING, true, false).
Proof. vm_compute. reflexivity. Qed.

(** C3 as stated fails on the counter: after one failed connection the
    counter is 1, and [disconnect] leaves it at 1. *)
Lemma disconnect_keeps_attempt_counter :
  reconnectAttempts (this Sample.pending) = 1
  ∧ reconnectAttempts (this (exec disconnect Sample.pending).1) = 1
  ∧ reconnectAttempts (this (exec disconnect Sample.pending).1) ≠ 0.
Proof.
  split; [vm_compute; reflexivity |].
  split; [vm_compute; reflexivity |].
  vm_compute. discriminate.
Qed.

Lemma unsubscribe_stops_delivery_witness :
  Manager.frame_key Reader.read_json Sample.kline_text
  = Some (KlineChannel, getKlineStreamName "BTCUSDT" "1m")
  ∧ (let σk := (exec (unsubscribeKline "BTCUSDT" "1m")
                  (exec (subscribeKline "BTCUSDT" "1m" 3) initial).1).1 in
     exec (handleMessage Sample.kline_text) σk = (σk, []))
  ∧ Manager.frame_key Reader.read_json Sample.trade_envelope_text
    = Some (TradeChannel, getTradeStreamName "btcusdt")
  ∧ (let σt := (exec (unsubscribeTrade "btcusdt")
                  (exec (subscribeTrade "btcusdt" 7) initial).1).1 in
     exec (handleMessage Sample.trade_envelope_text) σt = (σt, [])).
Proof.
  pose proof (unsubscribe_stops_delivery Sample.decimal Reader.read_json
                initial "BTCUSDT" "1m" 3 7) as Hk.
  pose proof (unsubscribe_stops_delivery Sample.decimal Reader.read_json
                initial "btcusdt" "1m" 3 7) as Ht.
  cbv zeta in Hk, Ht.
  destruct Hk as (_ & _ & Hk & _). destruct Ht as (_ & _ & _ & Ht).
  assert (Hkk : Manager.frame_key Reader.read_json Sample.kline_text
                = Some (KlineChannel, getKlineStreamName "BTCUSDT" "1m")).
  { vm_compute. reflexivity. }
  assert (Hkt : Manager.frame_key Reader.read_json Sample.trade_envelope_text
                = Some (TradeChannel, getTradeStreamName "btcusdt")).
  { vm_compute. reflexivity. }
  split; [exact Hkk |]. split; [exact (Hk _ Hkk) |].
  split; [exact Hkt |]. exact (Ht _ Hkt).
Defined.

Lemma broken_text_malformed : Manager.malformed Reader.read_json Sample.broken_text.
Proof. vm_compute. exact I. Defined.

Lemma unknown_event_malformed :
  Manager.malformed Reader.read_json Sample.unknown_event_text.
Proof.
  unfold Manager.malformed.
  assert (Reader.read_json Sample.unknown_event_text
          = Some (VObj [("e", VStr "depthUpdate"); ("s", VStr "BTCUSDT")])) as ->.
  { vm_compute. reflexivity. }
  intros e [= <-]. split; reflexivity.
Defined.

Lemma malformed_frame_dropped_witness :
  Manager.malformed Reader.read_json Sample.broken_text
  ∧ Manager.malformed Reader.read_json Sample.unknown_event_text
  ∧ (∀ σ, ∃ evs, exec (handleMessage Sample.broken_text) σ = (σ, evs)
                  ∧ trade_calls evs = [] ∧ kline_calls evs = [])
  ∧ (∀ σ, ∃ evs, exec (handleMessage Sample.unknown_event_text) σ = (σ, evs)
                  ∧ trade_calls evs = [] ∧ kline_calls evs = []).
Proof.
  split; [exact broken_text_malformed |].
  split; [exact unknown_event_malformed |].
  split; intros σ.
  - destruct (malformed_frame_dropped Sample.decimal Reader.read_json σ
                Sample.broken_text broken_text_malformed)
      as (evs & Hexec & _ & _ & Hk & Ht & _).
    exists evs. auto.
  - destruct (malformed_frame_dropped Sample.decimal Reader.read_json σ
                Sample.unknown_event_text unknown_event_malformed)
      as (evs & Hexec & _ & _ & Hk & Ht & _).
    exists evs. auto.
Defined.

Lemma trade_envelope_delivered_witness :
  Reader.read_json Sample.trade_envelope_text = Some Sample.trade_envelope
  ∧ tradeHandlers (this (exec (subscribeTrade "BTCUSDT" 7) initial).1)
      !! "btcusdt@trade" = Some 7
  ∧ (let σ := (exec (subscribeTrade "BTCUSDT" 7) initial).1 in
     exec (handleMessage Sample.trade_envelope_text) σ
     = (σ, [TradeDelivered 7 Sample.trade_payload])).
Proof.
  assert (Hparse : Reader.read_json Sample.trade_envelope_text
                   = Some Sample.trade_envelope).
  { vm_compute. reflexivity. }
  assert (Hh : tradeHandlers (this (exec (subscribeTrade "BTCUSDT" 7) initial).1)
                 !! "btcusdt@trade" = Some 7).
  { vm_compute. reflexivity. }
  split; [exact Hparse |]. split; [exact Hh |].
  exact (proj1 (trade_envelope_delivered Sample.decimal Reader.read_json
                  _ _ _ Hparse Hh)).
Defined.

(** The kline frame of the sample, end to end: read, routed to the handler
    subscribed for [BTCUSDT] at one minute, and delivered as a candle whose
    time is in seconds. *)
Example kline_frame_delivered :
  kline_calls
    <$> effects (SocketMessage 0 Sample.kline_text)
          (Sample.state_after
             [SubscribeKline "BTCUSDT" "1m" 3; Connect ["btcusdt@kline_1m"]; SocketOpens 0])
  = Some [(3, Some {| time := 1700000000; open := Some (500001, 10)%Z;
                      high := Some (50020, 1)%Z; low := Some (4999025, 100)%Z;
                      close := Some (500105, 10)%Z;
                      volume := Some (Some (125, 10)%Z) |})].
Proof. vm_compute. reflexivity. Qed.

(** C8 at its failing input, on a new manager. *)
Example connect_without_streams_example :
  sockets_created <$> effects (Connect []) initial
  = Some [(0, "wss://testnet.binance.vision/ws/stream?streams=")].
Proof. vm_compute. reflexivity. Qed.

Lemma getState_never_error_witness :
  step (SocketErrors 0)
    (Sample.state_after [OnConnectionChange 9; Connect Sample.trade_stream])
  = Some (Sample.state_after [OnConnectionChange 9; Connect Sample.trade_stream],
          [ConnectionNotified 9 error])
  ∧ getState (Sample.state_after [OnConnectionChange 9; Connect Sample.trade_stream])
    = connecting
  ∧ getState (Sample.state_after [OnConnectionChange 9; Connect Sample.trade_stream])
    ≠ error.
Proof.
  assert (Hstep : step (SocketErrors 0)
            (Sample.state_after [OnConnectionChange 9; Connect Sample.trade_stream])
          = Some (Sample.state_after [OnConnectionChange 9; Connect Sample.trade_stream],
                  [ConnectionNotified 9 error])).
  { vm_compute. reflexivity. }
  split; [exact Hstep |]. split; [vm_compute; reflexivity |].
  pose proof (getState_never_error Sample.decimal Reader.read_json
                (Sample.state_after [OnConnectionChange 9; Connect Sample.trade_stream]))
    as (_ & _ & _ & _ & _ & Herr).
  exact (proj2 (Herr _ _ _ Hstep)).
Defined.

End ManagerFacts.

(** ** Dispatch of inbound frames *)

Module DispatchFacts.
Import Codec JS Data Manager Traces Frames.

Section Facts.

Context {float64 : Type}.
Variable parseFloat : string -> float64.
Variable JSON_parse : string -> option value.

Local Abbreviation handleMessage := (Manager.handleMessage parseFloat JSON_parse).
Local Abbreviation handleMessage_try := (Manager.handleMessage_try parseFloat JSON_parse).
Local Abbreviation frame_key := (Manager.frame_key JSON_parse).
Local Abbreviation frame_payload := (Frames.frame_payload JSON_parse).
Local Abbreviation exec := (Manager.exec (float64 := float64)).

Ltac unfold_result := cbv [mbind mret result_bind result_ret].

(** What [handleMessage] does, frame by frame: the key decides the map,
    the map decides the handler. *)
Lemma handleMessage_try_by_key m rawData :
  handleMessage_try m rawData =
  match JSON_parse rawData with
  | None => Throw SyntaxError
  | Some parsed =>
      data ← payload_of parsed;
      e ← get data "e";
      if is_str "kline" e then
        key ← kline_key_of data;
        match klineHandlers m !! key with
        | Some h =>
            candle ← parseKlineData_of parseFloat data;
            Ok [KlineDelivered h candle]
        | None => Ok []
        end
      else if is_str "trade" e then
        key ← trade_key_of data;
        Ok match tradeHandlers m !! key with
           | Some h => [TradeDelivered h data]
           | None => []
           end
      else Ok []
  end.
Proof.
  unfold Manager.handleMessage_try, payload_of. unfold_result.
  destruct (JSON_parse rawData) as [parsed |]; [| done].
  destruct (get parsed "data") as [d | e]; [| done].
  destruct (get (if truthy d then d else parsed) "e") as [e | e']; [| done].
  destruct (is_str "kline" e).
  - destruct (kline_key_of _) as [key |]; [| done].
    by destruct (klineHandlers m !! key).
  - destruct (is_str "trade" e); [| done].
    destruct (trade_key_of _) as [key |]; [| done].
    by destruct (tradeHandlers m !! key).
Qed.

Lemma exec_handleMessage' σ rawData :
  exec (handleMessage rawData) σ =
  (σ, match handleMessage_try (this σ) rawData with
      | Ok evs => evs
      | Throw _ => parse_error_logged
      end).
Proof.
  unfold Manager.exec, Manager.handleMessage.
  cbv [mbind Manager.M_bind get_this emit].
  by destruct (Manager.handleMessage_try _ _ _ _).
Qed.

Lemma frame_key_kline rawData key :
  frame_key rawData = Some (KlineChannel, key) ->
  ∃ parsed data e,
    JSON_parse rawData = Some parsed ∧ payload_of parsed = Ok data
    ∧ get data "e" = Ok e ∧ is_str "kline" e = true
    ∧ kline_key_of data = Ok key.
Proof.
  unfold Manager.frame_key.
  destruct (JSON_parse rawData) as [parsed |] eqn:Hp; [| done].
  destruct (payload_of parsed) as [data |] eqn:Hd; [| done].
  destruct (get data "e") as [e |] eqn:He; [| done].
  destruct (is_str "kline" e) eqn:Hk.
  - destruct (kline_key_of data) as [k |] eqn:Hkey; [| done].
    intros [= ->]. by exists parsed, data, e.
  - destruct (is_str "trade" e); [| done].
    by destruct (trade_key_of data).
Qed.

Lemma frame_key_trade rawData key :
  frame_key rawData = Some (TradeChannel, key) ->
  ∃ parsed data e,
    JSON_parse rawData = Some parsed ∧ payload_of parsed = Ok data
    ∧ get data "e" = Ok e ∧ is_str "kline" e = false ∧ is_str "trade" e = true
    ∧ trade_key_of data = Ok key.
Proof.
  unfold Manager.frame_key.
  destruct (JSON_parse rawData) as [parsed |] eqn:Hp; [| done].
  destruct (payload_of parsed) as [data |] eqn:Hd; [| done].
  destruct (get data "e") as [e |] eqn:He; [| done].
  destruct (is_str "kline" e) eqn:Hk.
  - by destruct (kline_key_of data).
  - destruct (is_str "trade" e) eqn:Ht; [| done].
    destruct (trade_key_of data) as [k |] eqn:Hkey; [| done].
    intros [= ->]. by exists parsed, data, e.
Qed.

(** A kline frame whose key has a handler: the conversion of its fields
    decides between the delivery and the logged error. *)
Lemma handled_kline σ rawData key h data :
  frame_key rawData = Some (KlineChannel, key) ->
  klineHandlers (this σ) !! key = Some h ->
  frame_payload rawData = Some data ->
  exec (handleMessage rawData) σ
  = (σ, match parseKlineData_of parseFloat data with
        | Ok candle => [KlineDelivered h candle]
        | Throw _ => parse_error_logged
        end).
Proof.
  intros Hkey Hh. unfold Frames.frame_payload.
  destruct (frame_key_kline _ _ Hkey) as (parsed & data' & e & Hp & Hd & He & Hk & Hkk).
  rewrite Hp, Hd. intros [= <-].
  rewrite exec_handleMessage', handleMessage_try_by_key, Hp, Hd. unfold_result.
  rewrite He, Hk, Hkk, Hh.
  by destruct (parseKlineData_of parseFloat data').
Qed.

Lemma delivered_kline σ rawData key h k :
  frame_key rawData = Some (KlineChannel, key) ->
  klineHandlers (this σ) !! key = Some h ->
  frame_payload rawData ≫= asBinanceKlineWS = Some k ->
  exec (handleMessage rawData) σ
  = (σ, [KlineDelivered h (Some (parseKlineData parseFloat k))]).
Proof.
  intros Hkey Hh Hk.
  destruct (frame_payload rawData) as [data |] eqn:Hdata; [| done].
  cbn in Hk.
  rewrite (handled_kline _ _ _ _ _ Hkey Hh Hdata).
  by rewrite (ManagerFacts.parseKlineData_of_typed parseFloat _ _ Hk).
Qed.

Lemma delivered_trade σ rawData key h :
  frame_key rawData = Some (TradeChannel, key) ->
  tradeHandlers (this σ) !! key = Some h ->
  ∃ data, frame_payload rawData = Some data
    ∧ exec (handleMessage rawData) σ = (σ, [TradeDelivered h data]).
Proof.
  intros Hkey Hh.
  destruct (frame_key_trade _ _ Hkey) as (parsed & data & e & Hp & Hd & He & Hk & Ht & Hkk).
  exists data. split; [unfold Frames.frame_payload; by rewrite Hp, Hd |].
  rewrite exec_handleMessage', handleMessage_try_by_key, Hp, Hd. unfold_result.
  by rewrite He, Hk, Ht, Hkk, Hh.
Qed.

(** X1. A frame that carries a stream key under which a handler is
    registered goes to that handler and to nobody else, and the state is
    left as it is.  A kline frame that has the declared types is
    delivered, once, as the candle [parseKlineData] makes of it.  A kline
    frame one of whose six fields cannot be converted (an object that
    shadows [toString], where a number or a text is expected) is not
    delivered: [parseKlineData] throws before the handler is called, and
    the error is logged.  A trade frame is delivered, once, as the payload
    itself. *)
Theorem frame_delivered_once (σ : Sys) (rawData : string) (key : string) :
  (∀ h k, frame_key rawData = Some (KlineChannel, key) ->
        klineHandlers (this σ) !! key = Some h ->
        frame_payload rawData ≫= asBinanceKlineWS = Some k ->
        exec (handleMessage rawData) σ
        = (σ, [KlineDelivered h (Some (parseKlineData parseFloat k))]))
  ∧ (∀ h data e, frame_key rawData = Some (KlineChannel, key) ->
        klineHandlers (this σ) !! key = Some h ->
        frame_payload rawData = Some data ->
        parseKlineData_of parseFloat data = Throw e ->
        exec (handleMessage rawData) σ = (σ, parse_error_logged))
  ∧ (∀ h, frame_key rawData = Some (TradeChannel, key) ->
        tradeHandlers (this σ) !! key = Some h ->
        ∃ data, frame_payload rawData = Some data
          ∧ exec (handleMessage rawData) σ = (σ, [TradeDelivered h data])).
Proof.
  split; [| split].
  - intros h k Hkey Hh Hk. by apply (delivered_kline _ _ key).
  - intros h data e Hkey Hh Hdata Hthrow.
    by rewrite (handled_kline _ _ _ _ _ Hkey Hh Hdata), Hthrow.
  - intros h Hkey Hh. by apply (delivered_trade _ _ key).
Qed.

(** X2. Subscribing again under the same key replaces the handler: of two
    handlers subscribed one after the other, for symbols that differ at
    most in letter case, a frame for the key (a kline frame that has the
    declared types, or a trade frame) reaches the second one, once, and
    the first one not at all. *)
Theorem resubscribe_replaces (σ : Sys) (symbol symbol' : string)
    (interval : ChartInterval) (rawData : string) :
  differ_only_in_case symbol symbol' ->
  (∀ (h1 h2 : KlineHandler) k,
     frame_key rawData = Some (KlineChannel, getKlineStreamName symbol interval) ->
     frame_payload rawData ≫= asBinanceKlineWS = Some k ->
     let σ2 := (exec (subscribeKline symbol' interval h2)
                  (exec (subscribeKline symbol interval h1) σ).1).1 in
     exec (handleMessage rawData) σ2
     = (σ2, [KlineDelivered h2 (Some (parseKlineData parseFloat k))]))
  ∧ (∀ h1 h2 : TradeHandler,
     frame_key rawData = Some (TradeChannel, getTradeStreamName symbol) ->
     let σ2 := (exec (subscribeTrade symbol' h2)
                  (exec (subscribeTrade symbol h1) σ).1).1 in
     ∃ data, frame_payload rawData = Some data
       ∧ exec (handleMessage rawData) σ2 = (σ2, [TradeDelivered h2 data])).
Proof.
  intros Hcase.
  pose proof (CodecFacts.toLowerCase_differ_only_in_case _ _ Hcase) as Hlow.
  split; [intros h1 h2 k Hkey Hk | intros h1 h2 Hkey]; cbv zeta.
  - apply (delivered_kline _ _ _ _ _ Hkey); [| exact Hk].
    destruct σ as [m b]. cbn.
    unfold getKlineStreamName. rewrite Hlow. apply lookup_insert_eq.
  - apply (delivered_trade _ _ _ _ Hkey).
    destruct σ as [m b]. cbn.
    unfold getTradeStreamName. rewrite Hlow. apply lookup_insert_eq.
Qed.

(** X3. Subscribing or unsubscribing one key changes nothing for the
    frames of any other key or of the other channel: such a frame is
    handled with the very same effect before and after. *)
Theorem other_keys_unaffected (σ : Sys) (symbol : string)
    (interval : ChartInterval) (rawData : string) :
  (frame_key rawData ≠ Some (KlineChannel, getKlineStreamName symbol interval) ->
   (∀ h, (exec (handleMessage rawData) (exec (subscribeKline symbol interval h) σ).1).2
         = (exec (handleMessage rawData) σ).2)
   ∧ (exec (handleMessage rawData) (exec (unsubscribeKline symbol interval) σ).1).2
     = (exec (handleMessage rawData) σ).2)
  ∧ (frame_key rawData ≠ Some (TradeChannel, getTradeStreamName symbol) ->
   (∀ h, (exec (handleMessage rawData) (exec (subscribeTrade symbol h) σ).1).2
         = (exec (handleMessage rawData) σ).2)
   ∧ (exec (handleMessage rawData) (exec (unsubscribeTrade symbol) σ).1).2
     = (exec (handleMessage rawData) σ).2).
Proof.
  assert (Hgen : ∀ m m',
    (∀ key, frame_key rawData = Some (KlineChannel, key) ->
            klineHandlers m' !! key = klineHandlers m !! key) ->
    (∀ key, frame_key rawData = Some (TradeChannel, key) ->
            tradeHandlers m' !! key = tradeHandlers m !! key) ->
    handleMessage_try m' rawData = handleMessage_try m rawData).
  { intros m m' Hk Ht. rewrite !handleMessage_try_by_key.
    revert Hk Ht. unfold Manager.frame_key.
    destruct (JSON_parse rawData) as [parsed |]; [| done].
    destruct (payload_of parsed) as [data |]; [| done]. unfold_result.
    destruct (get data "e") as [e |]; [| done].
    destruct (is_str "kline" e).
    - destruct (kline_key_of data) as [key |]; [| done].
      intros Hk _. by rewrite (Hk key eq_refl).
    - destruct (is_str "trade" e); [| done].
      destruct (trade_key_of data) as [key |]; [| done].
      intros _ Ht. by rewrite (Ht key eq_refl). }
  assert (Hexec : ∀ σ1 σ2 : Sys,
    handleMessage_try (this σ1) rawData = handleMessage_try (this σ2) rawData ->
    (exec (handleMessage rawData) σ1).2 = (exec (handleMessage rawData) σ2).2).
  { intros σ1 σ2 H. rewrite !exec_handleMessage'. cbn. by rewrite H. }
  destruct σ as [m b].
  split; intros Hne; (split; [intros h |]); apply Hexec, Hgen; cbn;
    intros key Hkey; try done.
  - apply lookup_insert_ne. congruence.
  - apply lookup_delete_ne. congruence.
  - apply lookup_insert_ne. congruence.
  - apply lookup_delete_ne. congruence.
Qed.

(** X4. Handling a frame reads the manager and changes nothing: the state
    after is the state before, and the trace is empty, or the one logged
    error, or one call of one kline handler, or one call of one trade
    handler. *)
Theorem handleMessage_reads_only (σ : Sys) (rawData : string) :
  (exec (handleMessage rawData) σ).1 = σ
  ∧ ((exec (handleMessage rawData) σ).2 = []
     ∨ (exec (handleMessage rawData) σ).2 = parse_error_logged
     ∨ (∃ key h, klineHandlers (this σ) !! key = Some h
          ∧ frame_key rawData = Some (KlineChannel, key)
          ∧ ∃ c, (exec (handleMessage rawData) σ).2 = [KlineDelivered h c])
     ∨ (∃ key h, tradeHandlers (this σ) !! key = Some h
          ∧ frame_key rawData = Some (TradeChannel, key)
          ∧ ∃ d, (exec (handleMessage rawData) σ).2 = [TradeDelivered h d])).
Proof.
  rewrite exec_handleMessage'. split; [done |]. cbn.
  rewrite handleMessage_try_by_key. unfold Manager.frame_key.
  destruct (JSON_parse rawData) as [parsed |]; [| by right; left].
  destruct (payload_of parsed) as [data |]; [| by right; left]. unfold_result.
  destruct (get data "e") as [e |]; [| by right; left].
  destruct (is_str "kline" e).
  - destruct (kline_key_of data) as [key |]; [| by right; left].
    destruct (klineHandlers (this σ) !! key) as [h |] eqn:Hh; [| by left].
    destruct (parseKlineData_of parseFloat data) as [candle |]; [| by right; left].
    right; right; left. exists key, h. eauto.
  - destruct (is_str "trade" e); [| by left].
    destruct (trade_key_of data) as [key |]; [| by right; left].
    destruct (tradeHandlers (this σ) !! key) as [h |] eqn:Hh; [| by left].
    right; right; right. exists key, h. eauto.
Qed.

(** X5. A combined-stream envelope is transparent: a payload that is
    truthy and has no truthy [data] property of its own is handled in the
    same way whether it comes as the frame itself or under the [data]
    property of an envelope. *)
Theorem envelope_transparent (m : BinanceWebSocket) (direct wrapped : string)
    (data envelope : value) :
  JSON_parse direct = Some data ->
  JSON_parse wrapped = Some envelope ->
  get envelope "data" = Ok data ->
  truthy data = true ->
  payload_of data = Ok data ->
  handleMessage_try m wrapped = handleMessage_try m direct.
Proof.
  intros Hd Hw Hget Htruthy Hself.
  rewrite !handleMessage_try_by_key, Hd, Hw, Hself.
  unfold payload_of. unfold_result. by rewrite Hget, Htruthy.
Qed.

(** X6. A frame that announces itself as a kline or a trade but cannot be
    keyed is dropped with the logged error, whatever handlers are
    registered: a kline frame whose symbol is not a string or whose [k] is
    missing or [null], a trade frame whose symbol is not a string. *)
Theorem unkeyable_frame_logged (σ : Sys) (rawData : string) (data s : value) :
  frame_payload rawData = Some data ->
  get data "s" = Ok s ->
  (get data "e" = Ok (VStr "kline") ->
   as_str s = None ∨ get data "k" = Ok VUndefined ∨ get data "k" = Ok VNull ->
   exec (handleMessage rawData) σ = (σ, parse_error_logged))
  ∧ (get data "e" = Ok (VStr "trade") ->
     as_str s = None ->
     exec (handleMessage rawData) σ = (σ, parse_error_logged)).
Proof.
  unfold Frames.frame_payload. intros Hpay Hs.
  destruct (JSON_parse rawData) as [parsed |] eqn:Hp; [| done].
  destruct (payload_of parsed) as [d |] eqn:Hd; [| done].
  injection Hpay as ->.
  split; intros He Hbad; rewrite exec_handleMessage', handleMessage_try_by_key,
    Hp, Hd; unfold_result; rewrite He; cbn.
  - unfold kline_key_of. unfold_result. rewrite Hs.
    destruct Hbad as [Hbad | [-> | ->]]; [| done | done].
    destruct (get data "k") as [k |]; [| done].
    destruct (get k "i") as [i |]; [| done].
    by destruct s.
  - unfold trade_key_of. unfold_result. rewrite Hs. by destruct s.
Qed.

End Facts.

(** *** The theorems on the sample frames *)

Local Abbreviation handleMessage := (Manager.handleMessage Sample.decimal Reader.read_json).
Local Abbreviation handleMessage_try := (Manager.handleMessage_try Sample.decimal Reader.read_json).
Local Abbreviation frame_key := (Manager.frame_key Reader.read_json).
Local Abbreviation frame_payload := (Frames.frame_payload Reader.read_json).
Local Abbreviation exec := (Manager.exec (float64 := Sample.number)).

Lemma kline_text_key :
  frame_key Sample.kline_text = Some (KlineChannel, "btcusdt@kline_1m").
Proof. vm_compute. reflexivity. Defined.

Lemma trade_envelope_text_key :
  frame_key Sample.trade_envelope_text = Some (TradeChannel, "btcusdt@trade").
Proof. vm_compute. reflexivity. Defined.

Lemma kline_text_typed :
  frame_payload Sample.kline_text ≫= asBinanceKlineWS = Some Sample.kline_frame.
Proof. vm_compute. reflexivity. Defined.

Lemma frame_delivered_once_witness :
  frame_key Sample.kline_text = Some (KlineChannel, "btcusdt@kline_1m")
  ∧ klineHandlers (this Cases.live) !! "btcusdt@kline_1m" = Some 3
  ∧ frame_payload Sample.kline_text ≫= asBinanceKlineWS = Some Sample.kline_frame
  ∧ exec (handleMessage Sample.kline_text) Cases.live
    = (Cases.live,
       [KlineDelivered 3 (Some (parseKlineData Sample.decimal Sample.kline_frame))])
  ∧ frame_key Cases.kline_unconvertible_text = Some (KlineChannel, "btcusdt@kline_1m")
  ∧ frame_payload Cases.kline_unconvertible_text = Some Cases.kline_unconvertible
  ∧ parseKlineData_of Sample.decimal Cases.kline_unconvertible = Throw TypeError
  ∧ exec (handleMessage Cases.kline_unconvertible_text) Cases.live
    = (Cases.live, parse_error_logged)
  ∧ frame_key Sample.trade_envelope_text = Some (TradeChannel, "btcusdt@trade")
  ∧ tradeHandlers (this Cases.live) !! "btcusdt@trade" = Some 7
  ∧ (∃ data, frame_payload Sample.trade_envelope_text = Some data
       ∧ exec (handleMessage Sample.trade_envelope_text) Cases.live
         = (Cases.live, [TradeDelivered 7 data])).
Proof.
  assert (Hk : klineHandlers (this Cases.live) !! "btcusdt@kline_1m" = Some 3).
  { vm_compute. reflexivity. }
  assert (Ht : tradeHandlers (this Cases.live) !! "btcusdt@trade" = Some 7).
  { vm_compute. reflexivity. }
  assert (Hbadkey : frame_key Cases.kline_unconvertible_text
                    = Some (KlineChannel, "btcusdt@kline_1m")).
  { vm_compute. reflexivity. }
  assert (Hbad : frame_payload Cases.kline_unconvertible_text
                 = Some Cases.kline_unconvertible).
  { vm_compute. reflexivity. }
  assert (Hthrow : parseKlineData_of Sample.decimal Cases.kline_unconvertible
                   = Throw TypeError).
  { vm_compute. reflexivity. }
  split; [exact kline_text_key |]. split; [exact Hk |].
  split; [exact kline_text_typed |].
  split.
  { exact (proj1 (frame_delivered_once Sample.decimal Reader.read_json
                    Cases.live Sample.kline_text "btcusdt@kline_1m")
             3 _ kline_text_key Hk kline_text_typed). }
  split; [exact Hbadkey |]. split; [exact Hbad |]. split; [exact Hthrow |].
  split.
  { exact (proj1 (proj2 (frame_delivered_once Sample.decimal Reader.read_json
                           Cases.live Cases.kline_unconvertible_text
                           "btcusdt@kline_1m"))
             3 _ _ Hbadkey Hk Hbad Hthrow). }
  split; [exact trade_envelope_text_key |]. split; [exact Ht |].
  exact (proj2 (proj2 (frame_delivered_once Sample.decimal Reader.read_json
                         Cases.live Sample.trade_envelope_text "btcusdt@trade"))
           7 trade_envelope_text_key Ht).
Defined.

Lemma resubscribe_replaces_witness :
  differ_only_in_case "btcusdt" "BTCUSDT"
  ∧ frame_key Sample.kline_text
    = Some (KlineChannel, getKlineStreamName "btcusdt" "1m")
  ∧ frame_payload Sample.kline_text ≫= asBinanceKlineWS = Some Sample.kline_frame
  ∧ (let σ2 := (exec (subscribeKline "BTCUSDT" "1m" 4)
                  (exec (subscribeKline "btcusdt" "1m" 3) initial).1).1 in
     exec (handleMessage Sample.kline_text) σ2
     = (σ2, [KlineDelivered 4
               (Some (parseKlineData Sample.decimal Sample.kline_frame))])).
Proof.
  split; [exact CodecFacts.btcusdt_differs_only_in_case |].
  split; [exact kline_text_key |].
  split; [exact kline_text_typed |].
  exact (proj1 (resubscribe_replaces Sample.decimal Reader.read_json
                  initial "btcusdt" "BTCUSDT" "1m" Sample.kline_text
                  CodecFacts.btcusdt_differs_only_in_case)
           3 4 _ kline_text_key kline_text_typed).
Defined.

Lemma kline_text_not_eth :
  frame_key Sample.kline_text
  ≠ Some (KlineChannel, getKlineStreamName "ETHUSDT" "1m").
Proof. vm_compute. intros H. discriminate H. Defined.

Lemma other_keys_unaffected_witness :
  frame_key Sample.kline_text
  ≠ Some (KlineChannel, getKlineStreamName "ETHUSDT" "1m")
  ∧ (exec (handleMessage Sample.kline_text)
       (exec (subscribeKline "ETHUSDT" "1m" 5) Cases.live).1).2
    = (exec (handleMessage Sample.kline_text) Cases.live).2
  ∧ (exec (handleMessage Sample.kline_text)
       (exec (unsubscribeKline "ETHUSDT" "1m") Cases.live).1).2
    = (exec (handleMessage Sample.kline_text) Cases.live).2.
Proof.
  split; [exact kline_text_not_eth |].
  pose proof (proj1 (other_keys_unaffected Sample.decimal Reader.read_json
                       Cases.live "ETHUSDT" "1m" Sample.kline_text)
                kline_text_not_eth) as [Hsub Hunsub].
  split; [exact (Hsub 5) | exact Hunsub].
Defined.

Lemma envelope_transparent_witness :
  Reader.read_json Cases.trade_text = Some Sample.trade_payload
  ∧ Reader.read_json Sample.trade_envelope_text = Some Sample.trade_envelope
  ∧ get Sample.trade_envelope "data" = Ok Sample.trade_payload
  ∧ truthy Sample.trade_payload = true
  ∧ payload_of Sample.trade_payload = Ok Sample.trade_payload
  ∧ handleMessage_try (this Cases.live) Sample.trade_envelope_text
    = handleMessage_try (this Cases.live) Cases.trade_text.
Proof.
  assert (H1 : Reader.read_json Cases.trade_text = Some Sample.trade_payload).
  { vm_compute. reflexivity. }
  assert (H2 : Reader.read_json Sample.trade_envelope_text = Some Sample.trade_envelope).
  { vm_compute. reflexivity. }
  assert (H3 : get Sample.trade_envelope "data" = Ok Sample.trade_payload).
  { vm_compute. reflexivity. }
  assert (H4 : truthy Sample.trade_payload = true).
  { vm_compute. reflexivity. }
  assert (H5 : payload_of Sample.trade_payload = Ok Sample.trade_payload).
  { vm_compute. reflexivity. }
  split; [exact H1 |]. split; [exact H2 |]. split; [exact H3 |].
  split; [exact H4 |]. split; [exact H5 |].
  exact (envelope_transparent Sample.decimal Reader.read_json (this Cases.live)
           Cases.trade_text Sample.trade_envelope_text
           Sample.trade_payload Sample.trade_envelope H1 H2 H3 H4 H5).
Defined.

Lemma unkeyable_frame_logged_witness :
  frame_payload Cases.kline_without_k_text
  = Some (VObj [("e", VStr "kline"); ("s", VStr "BTCUSDT")])
  ∧ get (VObj [("e", VStr "kline"); ("s", VStr "BTCUSDT")]) "k" = Ok VUndefined
  ∧ exec (handleMessage Cases.kline_without_k_text) Cases.live
    = (Cases.live, parse_error_logged)
  ∧ frame_payload Cases.trade_numeric_symbol_text
    = Some (VObj [("e", VStr "trade"); ("s", VNum 5)])
  ∧ as_str (VNum 5) = None
  ∧ exec (handleMessage Cases.trade_numeric_symbol_text) Cases.live
    = (Cases.live, parse_error_logged).
Proof.
  assert (Hk : frame_payload Cases.kline_without_k_text
               = Some (VObj [("e", VStr "kline"); ("s", VStr "BTCUSDT")])).
  { vm_compute. reflexivity. }
  assert (Hnok : get (VObj [("e", VStr "kline"); ("s", VStr "BTCUSDT")]) "k"
                 = Ok VUndefined).
  { vm_compute. reflexivity. }
  assert (Ht : frame_payload Cases.trade_numeric_symbol_text
               = Some (VObj [("e", VStr "trade"); ("s", VNum 5)])).
  { vm_compute. reflexivity. }
  split; [exact Hk |]. split; [exact Hnok |].
  split.
  { refine (proj1 (unkeyable_frame_logged Sample.decimal Reader.read_json
                     Cases.live Cases.kline_without_k_text _ (VStr "BTCUSDT") Hk _)
              _ (or_intror (or_introl Hnok))); vm_compute; reflexivity. }
  split; [exact Ht |]. split; [reflexivity |].
  refine (proj2 (unkeyable_frame_logged Sample.decimal Reader.read_json
                   Cases.live Cases.trade_numeric_symbol_text _ (VNum 5) Ht _)
            _ eq_refl); vm_compute; reflexivity.
Defined.

End DispatchFacts.

(** ** Runs of the manager: what every step keeps *)

Module RunFacts.
Import Codec JS Data Manager Traces.

Ltac unfold_M :=
  cbv [Manager.exec Manager.M_bind Manager.M_ret mbind mret
       get_this update_this get_browser update_browser emit
       new_WebSocket socket_close socket_send setTimeout setInterval clearInterval
       notifyConnectionState startPing stopPing createConnection attemptReconnect
       reconnect_timer ping_timer onopen onerror onclose onmessage
       connect subscribeKline unsubscribeKline subscribeTrade unsubscribeTrade
       onConnectionChange removeConnectionHandler disconnect socket_becomes].

Ltac exec_inj H :=
  apply (inj Some) in H;
  let H1 := fresh in
  let H2 := fresh in
  pose proof (f_equal fst H) as H1;
  pose proof (f_equal snd H) as H2;
  cbn [fst snd] in H1, H2; clear H; subst.

Ltac step_cases Hstep :=
  unfold Manager.step in Hstep;
  repeat match type of Hstep with
         | context [Browser.readyState_of ?b ?id] =>
             destruct (Browser.readyState_of b id) as [[] |] eqn:?
         | context [Browser.timeouts ?b !! ?id] =>
             destruct (Browser.timeouts b !! id) eqn:?
         | context [bool_decide ?P] => destruct (bool_decide P) eqn:?
         end;
  try discriminate Hstep.

Section Facts.

Context {float64 : Type}.
Variable parseFloat : string -> float64.
Variable JSON_parse : string -> option value.

Local Abbreviation step := (Manager.step parseFloat JSON_parse).
Local Abbreviation run := (Manager.run parseFloat JSON_parse).
Local Abbreviation handleMessage := (Manager.handleMessage parseFloat JSON_parse).
Local Abbreviation exec := (Manager.exec (float64 := float64)).

#[local] Arguments Manager.notifications : simpl never.

(** One step, field by field. *)
Lemma step_this i σ σ' evs :
  step i σ = Some (σ', evs) ->
  let m := this σ in
  connectionHandlers (this σ')
  = match i with
    | OnConnectionChange h => set_add h (connectionHandlers m)
    | RemoveConnectionHandler h => set_delete h (connectionHandlers m)
    | Disconnect => []
    | _ => connectionHandlers m
    end
  ∧ klineHandlers (this σ')
    = match i with
      | SubscribeKline s iv h => <[getKlineStreamName s iv := h]> (klineHandlers m)
      | UnsubscribeKline s iv => delete (getKlineStreamName s iv) (klineHandlers m)
      | Disconnect => ∅
      | _ => klineHandlers m
      end
  ∧ tradeHandlers (this σ')
    = match i with
      | SubscribeTrade s h => <[getTradeStreamName s := h]> (tradeHandlers m)
      | UnsubscribeTrade s => delete (getTradeStreamName s) (tradeHandlers m)
      | Disconnect => ∅
      | _ => tradeHandlers m
      end
  ∧ streams (this σ')
    = match i with
      | Connect ss => ss
      | Disconnect => []
      | _ => streams m
      end
  ∧ reconnectAttempts (this σ')
    = match i with
      | SocketOpens _ => 0
      | SocketCloses _ =>
          if bool_decide (maxReconnectAttempts ≤ reconnectAttempts m)%nat
          then reconnectAttempts m else S (reconnectAttempts m)
      | _ => reconnectAttempts m
      end.
Proof.
  intros Hstep. cbv zeta. destruct i.
  - unfold Manager.step in Hstep. exec_inj Hstep.
    rewrite ManagerFacts.exec_createConnection_connect,
      ManagerFacts.exec_createConnection. done.
  - unfold Manager.step in Hstep. exec_inj Hstep.
    by rewrite ManagerFacts.exec_disconnect.
  - unfold Manager.step in Hstep. exec_inj Hstep. by destruct σ as [m b].
  - unfold Manager.step in Hstep. exec_inj Hstep. by destruct σ as [m b].
  - unfold Manager.step in Hstep. exec_inj Hstep. by destruct σ as [m b].
  - unfold Manager.step in Hstep. exec_inj Hstep. by destruct σ as [m b].
  - unfold Manager.step in Hstep. exec_inj Hstep. by destruct σ as [m b].
  - unfold Manager.step in Hstep. exec_inj Hstep. by destruct σ as [m b].
  - step_cases Hstep. exec_inj Hstep.
    by destruct σ as [[w n p ss kh th ch] [socks touts ints nt]].
  - step_cases Hstep. exec_inj Hstep. unfold onmessage.
    by rewrite ManagerFacts.exec_handleMessage.
  - step_cases Hstep; exec_inj Hstep;
      by destruct σ as [[w n p ss kh th ch] [socks touts ints nt]].
  - step_cases Hstep; exec_inj Hstep;
      rewrite ManagerFacts.exec_socket_closes, ManagerFacts.exec_onclose; cbn;
      by case_bool_decide.
  - step_cases Hstep. exec_inj Hstep.
    rewrite ManagerFacts.exec_timeout_fires. cbn.
    case_bool_decide; [| done]. by rewrite ManagerFacts.exec_createConnection.
  - step_cases Hstep. exec_inj Hstep.
    destruct σ as [[w n p ss kh th ch] [socks touts ints nt]].
    unfold_M. cbn. destruct w as [sock |]; cbn; [| done].
    unfold Browser.readyState_of. cbn.
    by destruct (socks !! sock) as [[u []] |].
Qed.


Lemma omap_notify {B} (f : Event float64 -> option B) hs s :
  (∀ h, f (ConnectionNotified h s) = None) ->
  omap f (map (fun h => ConnectionNotified h s) hs) = [].
Proof.
  intros Hf. induction hs as [| h hs IH]; [done |]. cbn. by rewrite Hf.
Qed.

Ltac fin :=
  unfold notifications, sockets_created, timeouts_set, socket_sends,
    close_calls, kline_calls, trade_calls;
  rewrite ?omap_app, ?omap_notify by done; cbn;
  rewrite ?app_nil_r; try done; try lia.

Ltac read_trace :=
  unfold sockets_created, timeouts_set, socket_sends, close_calls,
    kline_calls, trade_calls;
  rewrite ?omap_app, ?omap_notify by done; cbn [omap list_omap app].

(** One step, reader by reader: what was announced, which sockets were
    made, which timers were set. *)
Lemma step_trace i σ σ' evs :
  step i σ = Some (σ', evs) ->
  let m := this σ in
  let hs := connectionHandlers m in
  let nt := Browser.next_timer (browser σ) in
  notifications evs
  = match i with
    | Connect _ => map (fun h => (h, connecting)) hs
    | SocketOpens _ => map (fun h => (h, connected)) hs
    | SocketErrors _ => map (fun h => (h, error)) hs
    | SocketCloses _ => map (fun h => (h, disconnected)) hs
    | TimeoutFires _ =>
        if bool_decide (0 < List.length (streams m))%nat
        then map (fun h => (h, connecting)) hs else []
    | _ => []
    end
  ∧ (sockets_created evs).*2
    = match i with
      | Connect ss => [createStreamUrl ss]
      | TimeoutFires _ =>
          if bool_decide (0 < List.length (streams m))%nat
          then [createStreamUrl (streams m)] else []
      | _ => []
      end
  ∧ timeouts_set evs
    = match i with
      | SocketCloses _ =>
          if bool_decide (maxReconnectAttempts ≤ reconnectAttempts m)%nat then []
          else [(nt, (1000 * 2 ^ Z.of_nat (reconnectAttempts m))%Z)]
      | _ => []
      end
  ∧ (match i with SocketMessage _ _ => True
     | _ => kline_calls evs = [] ∧ trade_calls evs = [] end)
  ∧ (match i with IntervalFires _ => True | _ => socket_sends evs = [] end).
Proof.
  intros Hstep. cbv zeta. destruct i.
  - (* connect *)
    unfold Manager.step in Hstep. exec_inj Hstep.
    rewrite ManagerFacts.exec_createConnection_connect,
      ManagerFacts.exec_createConnection. cbn.
    rewrite !ManagerFacts.notifications_app,
      ManagerFacts.notifications_notify.
    destruct (ws (this σ)) as [w |];
      [destruct (Browser.readyState_of _ w) as [[] |] |];
      repeat split; fin.
  - (* disconnect *)
    unfold Manager.step in Hstep. exec_inj Hstep.
    rewrite ManagerFacts.exec_disconnect. cbn.
    repeat split; try done;
      by destruct (pingInterval (this σ)), (ws (this σ)).
  - unfold Manager.step in Hstep. exec_inj Hstep. destruct σ as [m b].
    by unfold_M.
  - unfold Manager.step in Hstep. exec_inj Hstep. destruct σ as [m b].
    by unfold_M.
  - unfold Manager.step in Hstep. exec_inj Hstep. destruct σ as [m b].
    by unfold_M.
  - unfold Manager.step in Hstep. exec_inj Hstep. destruct σ as [m b].
    by unfold_M.
  - unfold Manager.step in Hstep. exec_inj Hstep. destruct σ as [m b].
    by unfold_M.
  - unfold Manager.step in Hstep. exec_inj Hstep. destruct σ as [m b].
    by unfold_M.
  - (* a socket opens *)
    step_cases Hstep. exec_inj Hstep.
    destruct σ as [[w n p ss kh th ch] [socks touts ints nt]].
    unfold_M. cbn.
    rewrite ManagerFacts.notifications_app, ManagerFacts.notifications_notify.
    repeat split; fin.
  - (* a message *)
    step_cases Hstep. exec_inj Hstep. unfold onmessage.
    rewrite ManagerFacts.exec_handleMessage. cbn.
    destruct (Manager.handleMessage_try _ _ _ _) as [evs | e] eqn:E; [| done].
    destruct (ManagerFacts.handleMessage_try_quiet _ _ _ _ _ E) as (Hc & Ht & Hn).
    assert (Hshape : evs = [] ∨ (∃ h c, evs = [KlineDelivered h c])
                     ∨ (∃ h d, evs = [TradeDelivered h d])).
    { revert E. unfold Manager.handleMessage_try.
      cbv [mbind mret result_bind result_ret].
      destruct (JSON_parse data) as [parsed |]; [| done].
      destruct (get parsed "data") as [d | e]; [| done].
      destruct (get (if truthy d then d else parsed) "e") as [e | e']; [| done].
      destruct (is_str "kline" e).
      - destruct (kline_key_of _) as [key | e']; [| done].
        destruct (klineHandlers _ !! key); [| intros [= <-]; eauto].
        destruct (parseKlineData_of _ _) as [candle | e']; [| done].
        intros [= <-]; eauto.
      - destruct (is_str "trade" e); [| intros [= <-]; eauto].
        destruct (trade_key_of _) as [key | e']; [| done].
        destruct (tradeHandlers _ !! key); intros [= <-]; eauto. }
    clear Hc Ht Hn.
    destruct Hshape as [-> | [(h & c & ->) | (h & d & ->)]]; repeat split; fin.
  - (* an error *)
    step_cases Hstep; exec_inj Hstep;
      destruct σ as [[w n p ss kh th ch] [socks touts ints nt]];
      unfold_M; cbn; rewrite ManagerFacts.notifications_notify;
      repeat split; read_trace; done.
  - (* a socket closes *)
    step_cases Hstep; exec_inj Hstep;
      rewrite ManagerFacts.exec_socket_closes, ManagerFacts.exec_onclose; cbn;
      replace (Z.of_nat (S (reconnectAttempts (this σ))) - 1)%Z
        with (Z.of_nat (reconnectAttempts (this σ))) by lia;
      case_bool_decide; cbn;
      rewrite !ManagerFacts.notifications_app, ManagerFacts.notifications_notify;
      destruct (pingInterval (this σ)); cbn;
      repeat split; fin.
  - (* a timeout fires *)
    step_cases Hstep. exec_inj Hstep.
    rewrite ManagerFacts.exec_timeout_fires. cbn.
    case_bool_decide; [| done].
    rewrite ManagerFacts.exec_createConnection. cbn.
    rewrite !ManagerFacts.notifications_app,
      ManagerFacts.notifications_notify.
    destruct (ws (this σ)) as [w |];
      [destruct (Browser.readyState_of _ w) as [[] |] |];
      repeat split; fin.
  - (* an interval fires *)
    step_cases Hstep. exec_inj Hstep.
    destruct σ as [[w n p ss kh th ch] [socks touts ints nt]].
    unfold_M. cbn.
    destruct w as [sock |]; cbn; [| done].
    unfold Browser.readyState_of. cbn.
    by destruct (socks !! sock) as [[u []] |].
Qed.


(** One step, on what the manager holds and on the browser's timers. *)
Lemma step_held i σ σ' evs :
  step i σ = Some (σ', evs) ->
  let m := this σ in
  let nt := Browser.next_timer (browser σ) in
  ws (this σ')
  = match i with
    | Connect _ => Some (List.length (Browser.sockets (browser σ)))
    | Disconnect => None
    | TimeoutFires _ =>
        if bool_decide (0 < List.length (streams m))%nat
        then Some (List.length (Browser.sockets (browser σ))) else ws m
    | _ => ws m
    end
  ∧ pingInterval (this σ')
    = match i with
      | SocketOpens _ => Some nt
      | SocketCloses _ | Disconnect => None
      | _ => pingInterval m
      end
  ∧ Browser.timeouts (browser σ')
    = match i with
      | SocketCloses _ =>
          if bool_decide (maxReconnectAttempts ≤ reconnectAttempts m)%nat
          then Browser.timeouts (browser σ)
          else <[nt := (1000 * 2 ^ Z.of_nat (reconnectAttempts m))%Z]>
                 (Browser.timeouts (browser σ))
      | TimeoutFires id => delete id (Browser.timeouts (browser σ))
      | _ => Browser.timeouts (browser σ)
      end
  ∧ Browser.intervals (browser σ')
    = match i with
      | SocketOpens _ => {[nt]} ∪ Browser.intervals (browser σ)
      | SocketCloses _ | Disconnect =>
          match pingInterval m with
          | Some p => Browser.intervals (browser σ) ∖ {[p]}
          | None => Browser.intervals (browser σ)
          end
      | _ => Browser.intervals (browser σ)
      end
  ∧ List.length (Browser.sockets (browser σ'))
    = List.length (Browser.sockets (browser σ)) + List.length (sockets_created evs).
Proof.
  intros Hstep. cbv zeta. destruct i.
  - unfold Manager.step in Hstep. exec_inj Hstep.
    rewrite ManagerFacts.exec_createConnection_connect,
      ManagerFacts.exec_createConnection. cbn.
    destruct (ws (this σ)) as [w |];
      [destruct (Browser.readyState_of _ w) as [[] |] |];
      repeat split; fin; rewrite ?length_app, ?length_alter; cbn; done.
  - unfold Manager.step in Hstep. exec_inj Hstep.
    rewrite ManagerFacts.exec_disconnect. cbn.
    destruct (pingInterval (this σ)), (ws (this σ));
      repeat split; fin; rewrite ?length_alter; lia.
  - unfold Manager.step in Hstep. exec_inj Hstep. destruct σ as [m b].
    unfold_M. cbn. repeat split; lia.
  - unfold Manager.step in Hstep. exec_inj Hstep. destruct σ as [m b].
    unfold_M. cbn. repeat split; lia.
  - unfold Manager.step in Hstep. exec_inj Hstep. destruct σ as [m b].
    unfold_M. cbn. repeat split; lia.
  - unfold Manager.step in Hstep. exec_inj Hstep. destruct σ as [m b].
    unfold_M. cbn. repeat split; lia.
  - unfold Manager.step in Hstep. exec_inj Hstep. destruct σ as [m b].
    unfold_M. cbn. repeat split; lia.
  - unfold Manager.step in Hstep. exec_inj Hstep. destruct σ as [m b].
    unfold_M. cbn. repeat split; lia.
  - step_cases Hstep. exec_inj Hstep.
    destruct σ as [[w n p ss kh th ch] [socks touts ints nt]].
    unfold_M. cbn. repeat split; fin. rewrite length_alter. lia.
  - step_cases Hstep. exec_inj Hstep. unfold onmessage.
    rewrite ManagerFacts.exec_handleMessage. cbn.
    destruct (ManagerFacts.handleMessage_quiet parseFloat JSON_parse σ data) as [Hc _].
    rewrite ManagerFacts.exec_handleMessage in Hc. cbn in Hc.
    repeat split. unfold sockets_created. rewrite Hc. cbn. lia.
  - step_cases Hstep; exec_inj Hstep;
      destruct σ as [[w n p ss kh th ch] [socks touts ints nt]];
      unfold_M; cbn; repeat split; fin.
  - step_cases Hstep; exec_inj Hstep;
      rewrite ManagerFacts.exec_socket_closes, ManagerFacts.exec_onclose; cbn;
      replace (Z.of_nat (S (reconnectAttempts (this σ))) - 1)%Z
        with (Z.of_nat (reconnectAttempts (this σ))) by lia;
      case_bool_decide; cbn; destruct (pingInterval (this σ)); cbn;
      repeat split; fin; rewrite ?length_alter; lia.
  - step_cases Hstep. exec_inj Hstep.
    rewrite ManagerFacts.exec_timeout_fires. cbn.
    case_bool_decide; [| cbn; repeat split; lia].
    rewrite ManagerFacts.exec_createConnection. cbn.
    destruct (ws (this σ)) as [w |];
      [destruct (Browser.readyState_of _ w) as [[] |] |];
      repeat split; fin; rewrite ?length_app, ?length_alter; cbn; done.
  - step_cases Hstep. exec_inj Hstep.
    destruct σ as [[w n p ss kh th ch] [socks touts ints nt]].
    unfold_M. cbn.
    destruct w as [sock |]; cbn; [| repeat split; lia].
    unfold Browser.readyState_of. cbn.
    destruct (socks !! sock) as [[u []] |]; cbn; repeat split; lia.
Qed.

(** What holds of every step holds of every run. *)
Lemma run_ind (allowed : Input -> bool) (P : Sys -> Prop)
    (Q : list (Event float64) -> Prop) :
  Q [] ->
  (∀ t1 t2, Q t1 -> Q t2 -> Q (t1 ++ t2)) ->
  (∀ i σ σ' evs, allowed i = true -> P σ -> step i σ = Some (σ', evs) -> P σ' ∧ Q evs) ->
  ∀ inputs σ σ' evs,
    forallb allowed inputs = true -> P σ -> run inputs σ = Some (σ', evs) ->
    P σ' ∧ Q evs.
Proof.
  intros Hnil Happ Hstep inputs.
  induction inputs as [| i inputs IH]; intros σ σ' evs Hall HP Hrun.
  - by injection Hrun as <- <-.
  - cbn in Hall. apply andb_true_iff in Hall as [Hi Hall]. cbn in Hrun.
    destruct (step i σ) as [[σ1 t1] |] eqn:E1; [| done].
    destruct (run inputs σ1) as [[σ2 t2] |] eqn:E2; [| done].
    injection Hrun as <- <-.
    destruct (Hstep _ _ _ _ Hi HP E1) as [HP1 HQ1].
    destruct (IH _ _ _ Hall HP1 E2) as [HP2 HQ2]. auto.
Qed.


(** *** Connection observers *)

Lemma NoDup_set_add h (l : list ConnectionHandler) : NoDup l -> NoDup (set_add h l).
Proof.
  intros Hl. unfold set_add. case_bool_decide; [done |].
  apply NoDup_app. split; [done |]. split; [| apply NoDup_singleton].
  intros x Hx Hx'. apply list_elem_of_singleton in Hx'. by subst.
Qed.

Lemma NoDup_set_delete h (l : list ConnectionHandler) : NoDup l -> NoDup (set_delete h l).
Proof. intros Hl. unfold set_delete. by apply NoDup_filter. Qed.

Lemma step_NoDup i σ σ' evs :
  NoDup (connectionHandlers (this σ)) ->
  step i σ = Some (σ', evs) ->
  NoDup (connectionHandlers (this σ')).
Proof.
  intros Hnd Hstep. destruct (step_this _ _ _ _ Hstep) as (-> & _).
  destruct i; auto using NoDup_set_add, NoDup_set_delete, NoDup_nil_2.
Qed.

Lemma fst_notified (hs : list ConnectionHandler) (s : ConnectionState) :
  (map (fun h => (h, s)) hs).*1 = hs.
Proof. induction hs as [| h hs IH]; [done |]. cbn. by f_equal. Qed.

(** X7. In every state the manager can reach, the observers it holds are
    pairwise distinct, so registering an observer a second time changes
    nothing; and every announcement reaches each observer exactly once, in
    the order of registration: ["connecting"] on [connect], ["connected"]
    when a socket opens, ["error"] on a socket error, ["disconnected"]
    when a socket closes. *)
Theorem observers_notified_once (inputs : list Input) (σ : Sys)
    (evs : list (Event float64)) :
  run inputs initial = Some (σ, evs) ->
  let hs := connectionHandlers (this σ) in
  NoDup hs
  ∧ (∀ h, h ∈ hs -> exec (onConnectionChange h) σ = (σ, []))
  ∧ (∀ h, h ∉ hs ->
       connectionHandlers (this (exec (onConnectionChange h) σ).1) = hs ++ [h])
  ∧ (∀ ss σ' t, step (Connect ss) σ = Some (σ', t) ->
       notifications t = map (fun h => (h, connecting)) hs)
  ∧ (∀ id σ' t, step (SocketOpens id) σ = Some (σ', t) ->
       notifications t = map (fun h => (h, connected)) hs)
  ∧ (∀ id σ' t, step (SocketErrors id) σ = Some (σ', t) ->
       notifications t = map (fun h => (h, error)) hs)
  ∧ (∀ id σ' t, step (SocketCloses id) σ = Some (σ', t) ->
       notifications t = map (fun h => (h, disconnected)) hs).
Proof.
  intros Hrun. cbv zeta.
  assert (Hnd : NoDup (connectionHandlers (this σ))).
  { refine (proj1 (run_ind (fun _ => true) (fun τ => NoDup (connectionHandlers (this τ)))
                     (fun _ => True) I (fun _ _ _ _ => I) _
                     inputs initial σ evs _ _ Hrun)).
    - intros i τ τ' t _ Hτ Hstep. split; [| done]. by eapply step_NoDup.
    - by apply forallb_forall.
    - apply NoDup_nil_2. }
  split; [exact Hnd |].
  split; [| split].
  - intros h Hh. destruct σ as [[w n p ss kh th ch] b]. cbn in Hh. unfold_M.
    unfold with_connectionHandlers. cbn [connectionHandlers].
    unfold set_add. by rewrite bool_decide_eq_true_2.
  - intros h Hh. destruct σ as [[w n p ss kh th ch] b]. cbn in Hh. unfold_M.
    unfold with_connectionHandlers. cbn [this fst connectionHandlers].
    unfold set_add. by rewrite bool_decide_eq_false_2.
  - repeat split; intros ? σ' t Hstep;
      by destruct (step_trace _ _ _ _ Hstep) as (-> & _).
Qed.

(** X8. An observer that has been removed is not called again, whatever
    happens, until it is registered anew; removing it once more changes
    nothing. *)
Theorem removed_observer_silent (σ σ' : Sys) (h : ConnectionHandler)
    (inputs : list Input) (evs : list (Event float64)) :
  forallb (fun i => negb (registers h i)) inputs = true ->
  run inputs (exec (removeConnectionHandler h) σ).1 = Some (σ', evs) ->
  (h ∉ (notifications evs).*1)
  ∧ (h ∉ connectionHandlers (this σ'))
  ∧ exec (removeConnectionHandler h) (exec (removeConnectionHandler h) σ).1
    = ((exec (removeConnectionHandler h) σ).1, []).
Proof.
  intros Hall Hrun.
  assert (Hout : h ∉ connectionHandlers (this (exec (removeConnectionHandler h) σ).1)).
  { destruct σ as [m b]. unfold_M. cbn. unfold set_delete.
    intros [Hne _]%list_elem_of_filter. done. }
  pose proof (run_ind (fun i => negb (registers h i))
                (fun τ => h ∉ connectionHandlers (this τ))
                (fun t => h ∉ (notifications t).*1)) as Hind.
  destruct (Hind (not_elem_of_nil h)) with (3 := Hall) (4 := Hout) (5 := Hrun)
    as [HP HQ].
  - intros t1 t2 H1 H2. rewrite ManagerFacts.notifications_app, fmap_app.
    rewrite elem_of_app. tauto.
  - intros i τ τ' t Hi Hτ Hstep.
    destruct (step_this _ _ _ _ Hstep) as (Hhs & _).
    destruct (step_trace _ _ _ _ Hstep) as (Hn & _).
    cbv zeta in Hhs, Hn. rewrite Hhs, Hn.
    assert (Hmap : ∀ s : ConnectionState,
              h ∉ (map (fun h0 => (h0, s)) (connectionHandlers (this τ))).*1).
    { intros s. by rewrite fst_notified. }
    destruct i; cbn in Hi;
      (split; [| first [ apply Hmap | apply not_elem_of_nil
                       | case_bool_decide; [apply Hmap | apply not_elem_of_nil] ]]);
      try done; try apply not_elem_of_nil.
    + apply negb_true_iff, bool_decide_eq_false in Hi.
      unfold set_add. destruct (bool_decide _); [done |].
      intros [Hin | Hin%list_elem_of_singleton]%elem_of_app; [done |].
      by subst.
    + unfold set_delete. by intros [_ ?]%list_elem_of_filter.
  - split; [exact HQ |]. split; [exact HP |].
    destruct σ as [m b]. unfold_M. cbn. f_equal. f_equal.
    destruct m as [w n p ss kh th ch]. cbn. unfold with_connectionHandlers. cbn.
    f_equal. unfold set_delete. rewrite list_filter_filter.
    apply list_filter_iff. tauto.
Qed.


(** *** After [disconnect] *)

Lemma callbacks_nil (t : list (Event float64)) :
  notifications t = [] -> kline_calls t = [] -> trade_calls t = [] ->
  callbacks t = [].
Proof.
  unfold notifications, kline_calls, trade_calls, callbacks.
  induction t as [| ev t IH]; [done |].
  destruct ev; cbn; try done; intros; rewrite filter_cons; cbn; auto.
Qed.

Lemma callbacks_app (t1 t2 : list (Event float64)) :
  callbacks (t1 ++ t2) = callbacks t1 ++ callbacks t2.
Proof. apply filter_app. Qed.

Lemma socket_sends_app (t1 t2 : list (Event float64)) :
  socket_sends (t1 ++ t2) = socket_sends t1 ++ socket_sends t2.
Proof. apply omap_app. Qed.

(** X9. [disconnect] stops every delivery: from the state it leaves, and
    for as long as nothing is subscribed or registered anew, no kline
    handler, no trade handler and no connection observer is called,
    whatever frames arrive and whatever the sockets and timers do. *)
Theorem disconnect_silences_callbacks (σ σ' : Sys) (inputs : list Input)
    (evs : list (Event float64)) :
  forallb (fun i => negb (subscribes i)) inputs = true ->
  run inputs (exec disconnect σ).1 = Some (σ', evs) ->
  callbacks evs = []
  ∧ klineHandlers (this σ') = ∅
  ∧ tradeHandlers (this σ') = ∅
  ∧ connectionHandlers (this σ') = [].
Proof.
  intros Hall Hrun.
  pose proof (run_ind (fun i => negb (subscribes i))
                (fun τ => klineHandlers (this τ) = ∅ ∧ tradeHandlers (this τ) = ∅
                          ∧ connectionHandlers (this τ) = [])
                (fun t => callbacks t = [])) as Hind.
  destruct Hind with (4 := Hall) (6 := Hrun) as [HP HQ]; [done | | | | tauto].
  - intros t1 t2 H1 H2. by rewrite callbacks_app, H1, H2.
  - intros i τ τ' t Hi (Hk & Ht & Hc) Hstep.
    destruct (step_this _ _ _ _ Hstep) as (Hhs & Hkh & Hth & _).
    destruct (step_trace _ _ _ _ Hstep) as (Hn & _ & _ & Hcalls & _).
    cbv zeta in *. rewrite Hhs, Hkh, Hth, Hk, Ht, Hc. rewrite Hc in Hn.
    split.
    + destruct i; cbn in Hi; try done; repeat split; try done;
        by rewrite ?delete_empty.
    + destruct i; try discriminate Hi;
        try (destruct Hcalls; apply callbacks_nil;
             [rewrite Hn; by try case_bool_decide | done | done]).
      unfold Manager.step in Hstep.
      destruct (Browser.readyState_of (browser τ) id) as [[] |]; try done.
      apply (inj Some) in Hstep. unfold onmessage in Hstep.
      rewrite ManagerFacts.exec_handleMessage in Hstep.
      injection Hstep as _ <-.
      rewrite DispatchFacts.handleMessage_try_by_key, Hk, Ht.
      destruct (JSON_parse data) as [parsed |]; [| done].
      destruct (payload_of parsed) as [d |]; [| done].
      cbv [mbind mret result_bind result_ret].
      destruct (get d "e") as [e |]; [| done].
      destruct (is_str "kline" e).
      * by destruct (kline_key_of d).
      * destruct (is_str "trade" e); [| done]. by destruct (trade_key_of d).
  - by rewrite ManagerFacts.exec_disconnect.
Qed.

(** X10. The keepalive message goes to the socket the manager holds, and
    only while that socket is open: a tick of an interval changes nothing
    and sends either nothing or the one ping on the held, open socket;
    nothing else ever sends; and from [disconnect] until the next
    [connect] nothing is sent at all, even by an interval that is still
    running. *)
Theorem ping_only_on_held_open_socket (σ : Sys) :
  (∀ id σ' evs, step (IntervalFires id) σ = Some (σ', evs) ->
     σ' = σ
     ∧ (evs = []
        ∨ ∃ sock, ws (this σ) = Some sock
            ∧ Browser.readyState_of (browser σ) sock = Some OPEN
            ∧ evs = [SocketSent sock ping_payload]))
  ∧ (∀ i σ' evs, step i σ = Some (σ', evs) ->
       socket_sends evs ≠ [] -> ∃ id, i = IntervalFires id)
  ∧ (∀ inputs σ' evs,
       no_Connect inputs = true ->
       run inputs (exec disconnect σ).1 = Some (σ', evs) ->
       socket_sends evs = []).
Proof.
  split; [| split].
  - intros id σ' evs Hstep. step_cases Hstep. exec_inj Hstep.
    destruct σ as [[w n p ss kh th ch] [socks touts ints nt]].
    unfold_M. cbn. destruct w as [sock |]; cbn; [| by split; [| left]].
    unfold Browser.readyState_of. cbn.
    destruct (socks !! sock) as [[u []] |] eqn:E; cbn; (split; [done |]);
      first [by left | right; exists sock; by rewrite E].
  - intros i σ' evs Hstep Hne.
    destruct (step_trace _ _ _ _ Hstep) as (_ & _ & _ & _ & Hs).
    destruct i; try done. eauto.
  - intros inputs σ' evs Hall Hrun.
    pose proof (run_ind (fun i => negb (is_Connect i))
                  (fun τ => ws (this τ) = None ∧ streams (this τ) = [])
                  (fun t => socket_sends t = [])) as Hind.
    destruct Hind with (4 := Hall) (6 := Hrun) as [HP HQ]; [done | | | | done].
    + intros t1 t2 H1 H2. by rewrite socket_sends_app, H1, H2.
    + intros i τ τ' t Hi (Hw & Hss) Hstep.
      destruct (step_this _ _ _ _ Hstep) as (_ & _ & _ & Hst & _).
      destruct (step_held _ _ _ _ Hstep) as (Hws & _).
      destruct (step_trace _ _ _ _ Hstep) as (_ & _ & _ & _ & Hs).
      cbv zeta in *. rewrite Hst, Hws, Hw, Hss. cbn.
      destruct i; try discriminate Hi; try done.
      split; [done |]. step_cases Hstep. exec_inj Hstep.
      destruct τ as [[w n p ss kh th ch] [socks touts ints nt]].
      cbn in Hw. subst w. by unfold_M.
    + by rewrite ManagerFacts.exec_disconnect.
Qed.

(** *** Backoff and timers *)

(** X11. In every state the manager can reach the attempt counter is at
    most 5, and every reconnection timeout ever set has a delay of 1000 ms
    times a power of two with exponent at most 4: between one second and
    sixteen. *)
Theorem backoff_bounded (inputs : list Input) (σ : Sys) (evs : list (Event float64)) :
  run inputs initial = Some (σ, evs) ->
  (reconnectAttempts (this σ) ≤ maxReconnectAttempts)%nat
  ∧ Forall (fun d : Z => (∃ k : nat, (k < 5)%nat ∧ d = 1000 * 2 ^ Z.of_nat k)%Z
                         ∧ (1000 <= d <= 16000)%Z)
      (timeouts_set evs).*2.
Proof.
  intros Hrun.
  pose proof (run_ind (fun _ => true)
                (fun τ => (reconnectAttempts (this τ) ≤ maxReconnectAttempts)%nat)
                (fun t => Forall (fun d : Z =>
                            (∃ k : nat, (k < 5)%nat ∧ d = 1000 * 2 ^ Z.of_nat k)%Z
                            ∧ (1000 <= d <= 16000)%Z) (timeouts_set t).*2)) as Hind.
  apply Hind with (4 := proj2 (forallb_forall _ inputs) (fun _ _ => eq_refl))
                  (6 := Hrun).
  - constructor.
  - intros t1 t2 H1 H2. unfold timeouts_set. rewrite omap_app, fmap_app.
    by apply Forall_app.
  - intros i τ τ' t _ Hle Hstep.
    destruct (step_this _ _ _ _ Hstep) as (_ & _ & _ & _ & Hn).
    destruct (step_trace _ _ _ _ Hstep) as (_ & _ & Ht & _).
    cbv zeta in *. rewrite Hn, Ht. unfold maxReconnectAttempts in *.
    destruct i; try (split; [first [done | lia] | constructor]).
    case_bool_decide; (split; [lia |]); [constructor |].
    cbn. constructor; [| constructor].
    assert (Hk : (reconnectAttempts (this τ) < 5)%nat) by lia.
    split; [eexists; split; [exact Hk | reflexivity] |].
    destruct (reconnectAttempts (this τ)) as [| [| [| [| [| k]]]]]; cbn; lia.
  - unfold initial, maxReconnectAttempts. cbn. lia.
Qed.

(** The keepalive intervals a step starts and clears. *)
Lemma step_intervals i σ σ' evs :
  step i σ = Some (σ', evs) ->
  intervals_cleared evs
  = match i with
    | Disconnect | SocketCloses _ =>
        match pingInterval (this σ) with Some p => [p] | None => [] end
    | _ => []
    end
  ∧ intervals_set evs
    = match i with
      | SocketOpens _ => [(Browser.next_timer (browser σ), 30000%Z)]
      | _ => []
      end.
Proof.
  intros Hstep. destruct i.
  - unfold Manager.step in Hstep. exec_inj Hstep.
    rewrite ManagerFacts.exec_createConnection_connect,
      ManagerFacts.exec_createConnection. cbn.
    unfold intervals_cleared, intervals_set.
    rewrite !omap_app, !omap_notify by done.
    by destruct (ws (this σ)) as [w |];
      [destruct (Browser.readyState_of _ w) as [[] |] |].
  - unfold Manager.step in Hstep. exec_inj Hstep.
    rewrite ManagerFacts.exec_disconnect. cbn.
    by destruct (pingInterval (this σ)), (ws (this σ)).
  - unfold Manager.step in Hstep. exec_inj Hstep. by destruct σ as [m b].
  - unfold Manager.step in Hstep. exec_inj Hstep. by destruct σ as [m b].
  - unfold Manager.step in Hstep. exec_inj Hstep. by destruct σ as [m b].
  - unfold Manager.step in Hstep. exec_inj Hstep. by destruct σ as [m b].
  - unfold Manager.step in Hstep. exec_inj Hstep. by destruct σ as [m b].
  - unfold Manager.step in Hstep. exec_inj Hstep. by destruct σ as [m b].
  - step_cases Hstep. exec_inj Hstep.
    destruct σ as [[w n p ss kh th ch] [socks touts ints nt]].
    unfold_M. cbn. unfold intervals_cleared, intervals_set.
    by rewrite !omap_app, !omap_notify.
  - step_cases Hstep. exec_inj Hstep. unfold onmessage.
    rewrite ManagerFacts.exec_handleMessage. cbn.
    destruct (Manager.handleMessage_try _ _ _ _) as [evs | e] eqn:E; [| done].
    revert E. rewrite DispatchFacts.handleMessage_try_by_key.
    cbv [mbind mret result_bind result_ret].
    destruct (JSON_parse data) as [parsed |]; [| done].
    destruct (payload_of parsed) as [pl |]; [| done].
    destruct (get pl "e") as [e |]; [| done].
    destruct (is_str "kline" e).
    + destruct (kline_key_of _) as [key |]; [| done].
      destruct (klineHandlers _ !! key); [| by intros [= <-]].
      destruct (parseKlineData_of _ _) as [candle |]; [| done].
      by intros [= <-].
    + destruct (is_str "trade" e); [| by intros [= <-]].
      destruct (trade_key_of _) as [key |]; [| done].
      destruct (tradeHandlers _ !! key); by intros [= <-].
  - step_cases Hstep; exec_inj Hstep;
      destruct σ as [[w n p ss kh th ch] [socks touts ints nt]];
      unfold_M; cbn; unfold intervals_cleared, intervals_set;
      by rewrite !omap_notify.
  - step_cases Hstep; exec_inj Hstep;
      rewrite ManagerFacts.exec_socket_closes, ManagerFacts.exec_onclose; cbn;
      unfold intervals_cleared, intervals_set;
      case_bool_decide; destruct (pingInterval (this σ)); cbn;
      by rewrite ?omap_app, ?omap_notify.
  - step_cases Hstep. exec_inj Hstep.
    rewrite ManagerFacts.exec_timeout_fires. cbn.
    case_bool_decide; [| done].
    rewrite ManagerFacts.exec_createConnection. cbn.
    unfold intervals_cleared, intervals_set.
    rewrite !omap_app, !omap_notify by done.
    by destruct (ws (this σ)) as [w |];
      [destruct (Browser.readyState_of _ w) as [[] |] |].
  - step_cases Hstep. exec_inj Hstep.
    destruct σ as [[w n p ss kh th ch] [socks touts ints nt]].
    unfold_M. cbn. destruct w as [sock |]; cbn; [| done].
    unfold Browser.readyState_of. cbn.
    by destruct (socks !! sock) as [[u []] |].
Qed.

(** X12. The keepalive interval is the manager's own business.  In every
    state the manager can reach, the interval it holds in [pingInterval]
    is a running one.  The only interval a step ever clears is the one the
    manager holds, which it forgets at the same time: this happens on
    [disconnect] and when a socket closes.  An interval is started only
    when a socket opens, with a period of 30 seconds, and it is the one
    the manager holds from then on. *)
Theorem keepalive_interval_held (inputs : list Input) (σ : Sys)
    (evs : list (Event float64)) :
  run inputs initial = Some (σ, evs) ->
  (∀ p, pingInterval (this σ) = Some p -> p ∈ Browser.intervals (browser σ))
  ∧ (∀ i σ' t id, step i σ = Some (σ', t) -> id ∈ intervals_cleared t ->
       pingInterval (this σ) = Some id
       ∧ pingInterval (this σ') = None
       ∧ (id ∉ Browser.intervals (browser σ')))
  ∧ (∀ i σ' t id period, step i σ = Some (σ', t) -> (id, period) ∈ intervals_set t ->
       period = 30000%Z
       ∧ (∃ sock, i = SocketOpens sock)
       ∧ pingInterval (this σ') = Some id
       ∧ id ∈ Browser.intervals (browser σ')).
Proof.
  intros Hrun.
  split.
  { refine (proj1 (run_ind (fun _ => true)
                     (fun τ => ∀ p, pingInterval (this τ) = Some p ->
                                    p ∈ Browser.intervals (browser τ))
                     (fun _ => True) I (fun _ _ _ _ => I) _
                     inputs initial σ evs _ _ Hrun)).
    - intros i τ τ' t _ Hp Hstep. split; [| done].
      destruct (step_held _ _ _ _ Hstep) as (_ & Hping & _ & Hints & _).
      cbv zeta in *. rewrite Hping, Hints.
      destruct i; try exact Hp; try done.
      intros p [= <-]. apply elem_of_union. left. by apply elem_of_singleton.
    - by apply forallb_forall.
    - done. }
  split.
  - intros i σ' t id Hstep Hid.
    destruct (step_intervals _ _ _ _ Hstep) as [Hcl _].
    destruct (step_held _ _ _ _ Hstep) as (_ & Hping & _ & Hints & _).
    cbv zeta in *. rewrite Hcl in Hid. rewrite Hping, Hints.
    destruct i; try (by apply elem_of_nil in Hid);
      (destruct (pingInterval (this σ)) as [p |]; [| by apply elem_of_nil in Hid];
       apply list_elem_of_singleton in Hid as ->;
       split; [done |]; split; [done |];
       apply not_elem_of_difference; right; by apply elem_of_singleton).
  - intros i σ' t id period Hstep Hid.
    destruct (step_intervals _ _ _ _ Hstep) as [_ Hset].
    destruct (step_held _ _ _ _ Hstep) as (_ & Hping & _ & Hints & _).
    cbv zeta in *. rewrite Hset in Hid. rewrite Hping, Hints.
    destruct i; try (by apply elem_of_nil in Hid).
    apply list_elem_of_singleton in Hid. injection Hid as -> ->.
    split; [done |]. split; [by eexists |]. split; [done |].
    apply elem_of_union. left. by apply elem_of_singleton.
Qed.

(** X13. A socket that opens gives the backoff its full budget back:
    whatever the counter was, the close that follows sets the shortest
    timeout, one second, and the counter stands at 1. *)
Theorem open_resets_backoff (σ σ1 σ2 : Sys) (a b : nat)
    (t1 t2 : list (Event float64)) :
  step (SocketOpens a) σ = Some (σ1, t1) ->
  step (SocketCloses b) σ1 = Some (σ2, t2) ->
  reconnectAttempts (this σ1) = 0
  ∧ (timeouts_set t2).*2 = [1000%Z]
  ∧ reconnectAttempts (this σ2) = 1.
Proof.
  intros H1 H2.
  destruct (step_this _ _ _ _ H1) as (_ & _ & _ & _ & Hn1).
  destruct (step_this _ _ _ _ H2) as (_ & _ & _ & _ & Hn2).
  destruct (step_trace _ _ _ _ H2) as (_ & _ & Ht & _).
  cbv zeta in *. rewrite Hn2, Ht, Hn1. done.
Qed.

(** X14. [connect] replaces an open socket and abandons one that is still
    connecting: when the socket the manager holds is open, [close] is
    called on it, once, before the new socket is made, and it is closing
    afterwards; when the held socket is not open, connecting included,
    [close] is not called and the socket is left exactly as it was.
    Either way the streams given are stored, and when their address is
    one the [WebSocket] constructor accepts, a new socket is made,
    connecting to that address, and it is the one the manager holds from
    then on. *)
Theorem connect_replaces_open_socket (σ : Sys) (ss : list string) (old : nat) :
  ws (this σ) = Some old ->
  is_Some (Browser.readyState_of (browser σ) old) ->
  let σ' := (exec (connect ss) σ).1 in
  let evs := (exec (connect ss) σ).2 in
  let new := List.length (Browser.sockets (browser σ)) in
  (Browser.accepts (createStreamUrl ss) = true ->
   ws (this σ') = Some new
   ∧ Browser.sockets (browser σ') !! new
     = Some {| Browser.url := createStreamUrl ss; Browser.readyState := CONNECTING |}
   ∧ sockets_created evs = [(new, createStreamUrl ss)])
  ∧ streams (this σ') = ss
  ∧ (Browser.readyState_of (browser σ) old = Some OPEN ->
     close_calls evs = [old]
     ∧ (∃ rest, evs = SocketCloseCalled old :: rest)
     ∧ Browser.readyState_of (browser σ') old = Some CLOSING)
  ∧ (Browser.readyState_of (browser σ) old ≠ Some OPEN ->
     close_calls evs = []
     ∧ Browser.sockets (browser σ') !! old = Browser.sockets (browser σ) !! old).
Proof.
  intros Hw Hexists. cbv zeta.
  rewrite ManagerFacts.exec_createConnection_connect,
    ManagerFacts.exec_createConnection. cbn. rewrite Hw.
  assert (Hold : ∀ r, Browser.readyState_of (browser σ) old = Some r ->
                      (old < List.length (Browser.sockets (browser σ)))%nat).
  { intros r. unfold Browser.readyState_of.
    destruct (Browser.sockets (browser σ) !! old) eqn:E; [| done].
    intros _. by eapply lookup_lt_Some. }
  destruct (Browser.readyState_of (browser σ) old) as [r |] eqn:Er.
  - specialize (Hold r eq_refl).
    destruct r; cbn; rewrite ?length_alter; repeat split; try intros _; fin;
      first [ by rewrite lookup_app_l by lia
            | by rewrite lookup_app_r, ?length_alter, Nat.sub_diag
                by (rewrite ?length_alter; lia)
            | by eexists
            | idtac ].
    unfold Browser.readyState_of in *. cbn.
    rewrite lookup_app_l by (rewrite length_alter; lia).
    rewrite list_lookup_alter_eq.
    destruct (Browser.sockets (browser σ) !! old) as [[u r] |]; [| done].
    cbn in *. by injection Er as ->.
  - by destruct Hexists.
Qed.

(** X15. Reconnection reuses the streams last asked for: after
    [connect], and for as long as neither [connect] nor [disconnect] is
    called again, every socket the manager makes goes to the address of
    those streams. *)
Theorem reconnect_reuses_streams (σ σ' : Sys) (ss : list string)
    (inputs : list Input) (evs : list (Event float64)) :
  forallb (fun i => negb (sets_streams i)) inputs = true ->
  run inputs (exec (connect ss) σ).1 = Some (σ', evs) ->
  streams (this σ') = ss
  ∧ Forall (fun u => u = createStreamUrl ss) (sockets_created evs).*2.
Proof.
  intros Hall Hrun.
  pose proof (run_ind (fun i => negb (sets_streams i))
                (fun τ => streams (this τ) = ss)
                (fun t => Forall (fun u => u = createStreamUrl ss)
                            (sockets_created t).*2)) as Hind.
  apply Hind with (4 := Hall) (6 := Hrun).
  - constructor.
  - intros t1 t2 H1 H2. unfold sockets_created. rewrite omap_app, fmap_app.
    by apply Forall_app.
  - intros i τ τ' t Hi Hss Hstep.
    destruct (step_this _ _ _ _ Hstep) as (_ & _ & _ & Hst & _).
    destruct (step_trace _ _ _ _ Hstep) as (_ & Hc & _).
    cbv zeta in *. rewrite Hst, Hc, Hss.
    destruct i; try discriminate Hi; (split; [done |]); try constructor.
    clear Hc. destruct (bool_decide _); repeat constructor.
  - rewrite ManagerFacts.exec_createConnection_connect,
      ManagerFacts.exec_createConnection. done.
Qed.

End Facts.

(** *** The theorems on sample runs *)

Local Abbreviation step := (Manager.step Sample.decimal Reader.read_json).
Local Abbreviation run := (Manager.run Sample.decimal Reader.read_json).
Local Abbreviation exec := (Manager.exec (float64 := Sample.number)).

Lemma live_run :
  run Cases.live_inputs initial
  = Some (Cases.live, Cases.trace_from Cases.live_inputs initial).
Proof. vm_compute. reflexivity. Defined.

Lemma observers_notified_once_witness :
  run Cases.live_inputs initial
  = Some (Cases.live, Cases.trace_from Cases.live_inputs initial)
  ∧ NoDup (connectionHandlers (this Cases.live))
  ∧ exec (onConnectionChange 9) Cases.live = (Cases.live, [])
  ∧ step (SocketErrors 0) Cases.live = Some (Cases.live, [ConnectionNotified 9 error])
  ∧ notifications [ConnectionNotified (float64 := Sample.number) 9 error]
    = map (fun h => (h, error)) (connectionHandlers (this Cases.live)).
Proof.
  assert (Hstep : step (SocketErrors 0) Cases.live
                  = Some (Cases.live, [ConnectionNotified 9 error])).
  { vm_compute. reflexivity. }
  pose proof (observers_notified_once Sample.decimal Reader.read_json
                Cases.live_inputs Cases.live _ live_run) as H.
  cbv zeta in H.
  destruct H as (Hnd & Hsame & _ & _ & _ & Herr & _).
  split; [exact live_run |]. split; [exact Hnd |].
  split.
  { apply Hsame. vm_compute. apply list_elem_of_here. }
  split; [exact Hstep |].
  exact (Herr 0 _ _ Hstep).
Defined.

Lemma unobserved_run :
  run Cases.unobserved_inputs (exec (removeConnectionHandler 9) Cases.live).1
  = Some (Cases.state_from Cases.unobserved_inputs Cases.unobserved,
          Cases.trace_from Cases.unobserved_inputs Cases.unobserved).
Proof. vm_compute. reflexivity. Defined.

Lemma removed_observer_silent_witness :
  forallb (fun i => negb (registers 9 i)) Cases.unobserved_inputs = true
  ∧ run Cases.unobserved_inputs (exec (removeConnectionHandler 9) Cases.live).1
    = Some (Cases.state_from Cases.unobserved_inputs Cases.unobserved,
            Cases.trace_from Cases.unobserved_inputs Cases.unobserved)
  ∧ (9 ∉ (notifications (Cases.trace_from Cases.unobserved_inputs Cases.unobserved)).*1)
  ∧ (9 ∉ connectionHandlers
           (this (Cases.state_from Cases.unobserved_inputs Cases.unobserved)))
  ∧ exec (removeConnectionHandler 9) (exec (removeConnectionHandler 9) Cases.live).1
    = ((exec (removeConnectionHandler 9) Cases.live).1, []).
Proof.
  assert (Hin : forallb (fun i => negb (registers 9 i)) Cases.unobserved_inputs = true).
  { vm_compute. reflexivity. }
  split; [exact Hin |]. split; [exact unobserved_run |].
  exact (removed_observer_silent Sample.decimal Reader.read_json
           Cases.live _ 9 _ _ Hin unobserved_run).
Defined.

Lemma shut_run :
  run Cases.shut_inputs (exec disconnect Cases.live).1
  = Some (Cases.state_from Cases.shut_inputs Cases.shut,
          Cases.trace_from Cases.shut_inputs Cases.shut).
Proof. vm_compute. reflexivity. Defined.

Lemma disconnect_silences_callbacks_witness :
  forallb (fun i => negb (subscribes i)) Cases.shut_inputs = true
  ∧ run Cases.shut_inputs (exec disconnect Cases.live).1
    = Some (Cases.state_from Cases.shut_inputs Cases.shut,
            Cases.trace_from Cases.shut_inputs Cases.shut)
  ∧ callbacks (Cases.trace_from Cases.shut_inputs Cases.shut) = []
  ∧ klineHandlers (this (Cases.state_from Cases.shut_inputs Cases.shut)) = ∅
  ∧ tradeHandlers (this (Cases.state_from Cases.shut_inputs Cases.shut)) = ∅
  ∧ connectionHandlers (this (Cases.state_from Cases.shut_inputs Cases.shut)) = [].
Proof.
  assert (Hin : forallb (fun i => negb (subscribes i)) Cases.shut_inputs = true).
  { vm_compute. reflexivity. }
  split; [exact Hin |]. split; [exact shut_run |].
  exact (disconnect_silences_callbacks Sample.decimal Reader.read_json
           Cases.live _ _ _ Hin shut_run).
Defined.

Lemma ticks_run :
  run Cases.ticks (exec disconnect Cases.twice_connected).1
  = Some (Cases.state_from Cases.ticks Cases.twice_connected_shut,
          Cases.trace_from Cases.ticks Cases.twice_connected_shut).
Proof. vm_compute. reflexivity. Defined.

Lemma ping_only_on_held_open_socket_witness :
  step (IntervalFires 1) Cases.live = Some (Cases.live, [SocketSent 0 ping_payload])
  ∧ ws (this Cases.live) = Some 0
  ∧ Browser.readyState_of (browser Cases.live) 0 = Some OPEN
  ∧ no_Connect Cases.ticks = true
  ∧ run Cases.ticks (exec disconnect Cases.twice_connected).1
    = Some (Cases.state_from Cases.ticks Cases.twice_connected_shut,
            Cases.trace_from Cases.ticks Cases.twice_connected_shut)
  ∧ socket_sends (Cases.trace_from Cases.ticks Cases.twice_connected_shut) = [].
Proof.
  assert (Hstep : step (IntervalFires 1) Cases.live
                  = Some (Cases.live, [SocketSent 0 ping_payload])).
  { vm_compute. reflexivity. }
  pose proof (ping_only_on_held_open_socket Sample.decimal Reader.read_json Cases.live)
    as (Htick & _ & _).
  destruct (Htick 1 _ _ Hstep) as [_ [Hnil | (sock & Hws & Hopen & Hsent)]];
    [discriminate Hnil |].
  injection Hsent as <-.
  split; [exact Hstep |]. split; [exact Hws |]. split; [exact Hopen |].
  assert (Hin : no_Connect Cases.ticks = true).
  { vm_compute. reflexivity. }
  split; [exact Hin |]. split; [exact ticks_run |].
  exact (proj2 (proj2 (ping_only_on_held_open_socket Sample.decimal Reader.read_json
                         Cases.twice_connected))
           _ _ _ Hin ticks_run).
Defined.

Lemma six_closes_run :
  run Sample.six_closes initial
  = Some (Cases.state_from Sample.six_closes initial,
          Cases.trace_from Sample.six_closes initial).
Proof. vm_compute. reflexivity. Defined.

Lemma backoff_bounded_witness :
  run Sample.six_closes initial
  = Some (Cases.state_from Sample.six_closes initial,
          Cases.trace_from Sample.six_closes initial)
  ∧ (timeouts_set (Cases.trace_from Sample.six_closes initial)).*2
    = [1000; 2000; 4000; 8000; 16000]%Z
  ∧ (reconnectAttempts (this (Cases.state_from Sample.six_closes initial))
     ≤ maxReconnectAttempts)%nat
  ∧ Forall (fun d : Z => (∃ k : nat, (k < 5)%nat ∧ d = 1000 * 2 ^ Z.of_nat k)%Z
                         ∧ (1000 <= d <= 16000)%Z)
      (timeouts_set (Cases.trace_from Sample.six_closes initial)).*2.
Proof.
  split; [exact six_closes_run |].
  split; [vm_compute; reflexivity |].
  exact (backoff_bounded Sample.decimal Reader.read_json _ _ _ six_closes_run).
Defined.

Lemma keepalive_interval_held_witness :
  run Cases.live_inputs initial
  = Some (Cases.live, Cases.trace_from Cases.live_inputs initial)
  ∧ pingInterval (this Cases.live) = Some 1
  ∧ 1 ∈ Browser.intervals (browser Cases.live)
  ∧ step (SocketCloses 0) Cases.live
    = Some (Cases.state_from [SocketCloses 0] Cases.live,
            Cases.trace_from [SocketCloses 0] Cases.live)
  ∧ intervals_cleared (Cases.trace_from [SocketCloses 0] Cases.live) = [1]
  ∧ pingInterval (this (Cases.state_from [SocketCloses 0] Cases.live)) = None
  ∧ (1 ∉ Browser.intervals (browser (Cases.state_from [SocketCloses 0] Cases.live))).
Proof.
  assert (Hp : pingInterval (this Cases.live) = Some 1).
  { vm_compute. reflexivity. }
  assert (Hstep : step (SocketCloses 0) Cases.live
                  = Some (Cases.state_from [SocketCloses 0] Cases.live,
                          Cases.trace_from [SocketCloses 0] Cases.live)).
  { vm_compute. reflexivity. }
  assert (Hcl : intervals_cleared (Cases.trace_from [SocketCloses 0] Cases.live) = [1]).
  { vm_compute. reflexivity. }
  pose proof (keepalive_interval_held Sample.decimal Reader.read_json _ _ _ live_run)
    as (Hheld & Hclear & _).
  assert (Hin : 1 ∈ intervals_cleared (Cases.trace_from [SocketCloses 0] Cases.live)).
  { rewrite Hcl. apply list_elem_of_here. }
  destruct (Hclear _ _ _ 1 Hstep Hin) as (_ & Hnone & Hgone).
  split; [exact live_run |]. split; [exact Hp |].
  split; [exact (Hheld 1 Hp) |]. split; [exact Hstep |].
  split; [exact Hcl |]. split; [exact Hnone | exact Hgone].
Defined.

Lemma open_resets_backoff_witness :
  reconnectAttempts (this Cases.retrying) = 2
  ∧ step (SocketOpens 2) Cases.retrying
    = Some (Cases.state_from [SocketOpens 2] Cases.retrying,
            Cases.trace_from [SocketOpens 2] Cases.retrying)
  ∧ step (SocketCloses 2) (Cases.state_from [SocketOpens 2] Cases.retrying)
    = Some (Cases.state_from [SocketOpens 2; SocketCloses 2] Cases.retrying,
            Cases.trace_from [SocketCloses 2]
              (Cases.state_from [SocketOpens 2] Cases.retrying))
  ∧ reconnectAttempts (this (Cases.state_from [SocketOpens 2] Cases.retrying)) = 0
  ∧ (timeouts_set
       (Cases.trace_from [SocketCloses 2]
          (Cases.state_from [SocketOpens 2] Cases.retrying))).*2
    = [1000%Z]
  ∧ reconnectAttempts
      (this (Cases.state_from [SocketOpens 2; SocketCloses 2] Cases.retrying)) = 1.
Proof.
  assert (H1 : step (SocketOpens 2) Cases.retrying
               = Some (Cases.state_from [SocketOpens 2] Cases.retrying,
                       Cases.trace_from [SocketOpens 2] Cases.retrying)).
  { vm_compute. reflexivity. }
  assert (H2 : step (SocketCloses 2) (Cases.state_from [SocketOpens 2] Cases.retrying)
               = Some (Cases.state_from [SocketOpens 2; SocketCloses 2] Cases.retrying,
                       Cases.trace_from [SocketCloses 2]
                         (Cases.state_from [SocketOpens 2] Cases.retrying))).
  { vm_compute. reflexivity. }
  split; [vm_compute; reflexivity |].
  split; [exact H1 |]. split; [exact H2 |].
  exact (open_resets_backoff Sample.decimal Reader.read_json _ _ _ _ _ _ _ H1 H2).
Defined.

Lemma connect_replaces_open_socket_witness :
  ws (this Cases.live) = Some 0
  ∧ Browser.readyState_of (browser Cases.live) 0 = Some OPEN
  ∧ Browser.accepts (createStreamUrl Sample.trade_stream) = true
  ∧ (let σ' := (exec (connect Sample.trade_stream) Cases.live).1 in
     let evs := (exec (connect Sample.trade_stream) Cases.live).2 in
     ws (this σ') = Some 1
     ∧ sockets_created evs = [(1, createStreamUrl Sample.trade_stream)]
     ∧ close_calls evs = [0]
     ∧ Browser.readyState_of (browser σ') 0 = Some CLOSING).
Proof.
  assert (Hws : ws (this Cases.live) = Some 0).
  { vm_compute. reflexivity. }
  assert (Hopen : Browser.readyState_of (browser Cases.live) 0 = Some OPEN).
  { vm_compute. reflexivity. }
  assert (Hlen : List.length (Browser.sockets (browser Cases.live)) = 1).
  { vm_compute. reflexivity. }
  assert (Hacc : Browser.accepts (createStreamUrl Sample.trade_stream) = true).
  { vm_compute. reflexivity. }
  split; [exact Hws |]. split; [exact Hopen |]. split; [exact Hacc |].
  pose proof (connect_replaces_open_socket (float64 := Sample.number)
                Cases.live Sample.trade_stream 0 Hws (mk_is_Some _ _ Hopen)) as H.
  cbv zeta in H. rewrite Hlen in H.
  destruct H as (Hsock & _ & Hclose & _).
  destruct (Hsock Hacc) as (Hnew & _ & Hmade).
  destruct (Hclose Hopen) as (Hcalls & _ & Hclosing).
  cbv zeta. split; [exact Hnew |]. split; [exact Hmade |].
  split; [exact Hcalls | exact Hclosing].
Defined.

Lemma reconnect_run :
  run Cases.reconnect_inputs (exec (connect Cases.both_streams) initial).1
  = Some (Cases.state_from Cases.reconnect_inputs Cases.connected_both,
          Cases.trace_from Cases.reconnect_inputs Cases.connected_both).
Proof. vm_compute. reflexivity. Defined.

Lemma reconnect_reuses_streams_witness :
  forallb (fun i => negb (sets_streams i)) Cases.reconnect_inputs = true
  ∧ run Cases.reconnect_inputs (exec (connect Cases.both_streams) initial).1
    = Some (Cases.state_from Cases.reconnect_inputs Cases.connected_both,
            Cases.trace_from Cases.reconnect_inputs Cases.connected_both)
  ∧ List.length
      (sockets_created (Cases.trace_from Cases.reconnect_inputs Cases.connected_both))
    = 2
  ∧ streams (this (Cases.state_from Cases.reconnect_inputs Cases.connected_both))
    = Cases.both_streams
  ∧ Forall (fun u => u = createStreamUrl Cases.both_streams)
      (sockets_created
         (Cases.trace_from Cases.reconnect_inputs Cases.connected_both)).*2.
Proof.
  assert (Hin : forallb (fun i => negb (sets_streams i)) Cases.reconnect_inputs = true).
  { vm_compute. reflexivity. }
  split; [exact Hin |]. split; [exact reconnect_run |].
  split; [vm_compute; reflexivity |].
  exact (reconnect_reuses_streams Sample.decimal Reader.read_json
           initial _ Cases.both_streams _ _ Hin reconnect_run).
Defined.

End RunFacts.

(** ** The hook and the singleton *)

Module HookFacts.
Import Codec JS Data Manager Traces Frames Hook.

Section Facts.

Context {float64 : Type}.
Variable parseFloat : string -> float64.
Variable JSON_parse : string -> option value.

Local Abbreviation step := (Manager.step parseFloat JSON_parse).
Local Abbreviation handleMessage := (Manager.handleMessage parseFloat JSON_parse).
Local Abbreviation frame_key := (Manager.frame_key JSON_parse).
Local Abbreviation frame_payload := (Frames.frame_payload JSON_parse).
Local Abbreviation exec := (Manager.exec (float64 := float64)).
Local Abbreviation useWebSocket_effect := (Hook.useWebSocket_effect (float64 := float64)).
Local Abbreviation useWebSocket_cleanup := (Hook.useWebSocket_cleanup (float64 := float64)).

#[local] Arguments Manager.notifications : simpl never.
#[local] Arguments Manager.sockets_created : simpl never.

Lemma eqb_empty (symbol : string) : symbol ≠ "" -> String.eqb symbol "" = false.
Proof. intros H. by apply String.eqb_neq. Qed.

(** The effect, as one change of the object around [createConnection]. *)
Lemma exec_effect σ symbol interval kH tH obs :
  symbol ≠ "" ->
  exec (useWebSocket_effect symbol interval kH tH obs) σ
  = let kkey := getKlineStreamName symbol interval in
    let tkey := getTradeStreamName symbol in
    let r := exec createConnection
               {| this := with_streams [kkey; tkey]
                            (with_tradeHandlers (insert tkey tH)
                               (with_klineHandlers (insert kkey kH) (this σ)));
                  browser := browser σ |} in
    ({| this := with_connectionHandlers (set_add obs) (this r.1);
        browser := browser r.1 |}, r.2).
Proof.
  intros Hs. unfold Hook.useWebSocket_effect. rewrite (eqb_empty _ Hs).
  unfold Manager.exec, connect, subscribeKline, subscribeTrade, onConnectionChange.
  cbv [mbind Manager.M_bind update_this]. cbn [this browser].
  unfold getKlineStreamName, getTradeStreamName.
  destruct (createConnection _) as [[[] σ2] evs]. cbn [fst snd].
  by rewrite app_nil_r.
Qed.

Lemma exec_cleanup σ symbol interval obs :
  symbol ≠ "" ->
  exec (useWebSocket_cleanup symbol interval obs) σ
  = ({| this := with_connectionHandlers (set_delete obs)
                  (with_tradeHandlers (delete (getTradeStreamName symbol))
                     (with_klineHandlers (delete (getKlineStreamName symbol interval))
                        (this σ)));
        browser := browser σ |}, []).
Proof.
  intros Hs. unfold Hook.useWebSocket_cleanup. rewrite (eqb_empty _ Hs).
  reflexivity.
Qed.

Lemma set_add_elem h l : h ∈ set_add h l.
Proof.
  unfold set_add. case_bool_decide; [done |].
  apply elem_of_app. right. by apply list_elem_of_singleton.
Qed.

Lemma set_delete_add h l : h ∉ l -> set_delete h (set_add h l) = l.
Proof.
  intros Hh. unfold set_add, set_delete. rewrite bool_decide_eq_false_2 by done.
  rewrite filter_app, filter_cons_False, filter_nil, app_nil_r by (intros H; by apply H).
  induction l as [| x l IH]; [done |].
  rewrite filter_cons_True.
  - f_equal. apply IH. intros ?. apply Hh. by apply list_elem_of_further.
  - intros ->. apply Hh. apply list_elem_of_here.
Qed.

Lemma set_delete_other h h' l : h' ≠ h -> h' ∈ l -> h' ∈ set_delete h l.
Proof. intros Hne Hin. unfold set_delete. by apply list_elem_of_filter. Qed.

Lemma dropped σ rawData :
  match frame_key rawData with
  | Some (KlineChannel, key) =>
      klineHandlers (this σ) !! key = None -> exec (handleMessage rawData) σ = (σ, [])
  | Some (TradeChannel, key) =>
      tradeHandlers (this σ) !! key = None -> exec (handleMessage rawData) σ = (σ, [])
  | None => True
  end.
Proof.
  pose proof (ManagerFacts.handleMessage_try_no_handler parseFloat JSON_parse
                (this σ) rawData) as H.
  destruct (frame_key rawData) as [[[] key] |]; [| | done];
    intros Hnone; rewrite DispatchFacts.exec_handleMessage'; by rewrite (H Hnone).
Qed.

(** The state the effect leaves and the trace it makes. *)
Lemma effect_state σ symbol interval kH tH obs :
  symbol ≠ "" ->
  let σ' := (exec (useWebSocket_effect symbol interval kH tH obs) σ).1 in
  let evs := (exec (useWebSocket_effect symbol interval kH tH obs) σ).2 in
  let kkey := getKlineStreamName symbol interval in
  let tkey := getTradeStreamName symbol in
  ∃ id,
    ws (this σ') = Some id
    ∧ Browser.readyState_of (browser σ') id = Some CONNECTING
    ∧ sockets_created evs = [(id, createStreamUrl [kkey; tkey])]
    ∧ notifications evs = map (fun h => (h, connecting)) (connectionHandlers (this σ))
    ∧ streams (this σ') = [kkey; tkey]
    ∧ klineHandlers (this σ') = <[kkey:=kH]> (klineHandlers (this σ))
    ∧ tradeHandlers (this σ') = <[tkey:=tH]> (tradeHandlers (this σ))
    ∧ connectionHandlers (this σ') = set_add obs (connectionHandlers (this σ)).
Proof.
  intros Hs. cbv zeta. rewrite (exec_effect _ _ _ _ _ _ Hs). cbv zeta.
  rewrite ManagerFacts.exec_createConnection. cbv zeta. cbn [fst snd this browser].
  eexists. split; [reflexivity |].
  split.
  { unfold Browser.readyState_of. cbn.
    rewrite lookup_app_r by done. by rewrite Nat.sub_diag. }
  split.
  { rewrite !ManagerFacts.sockets_created_app, ManagerFacts.sockets_created_notify.
    by repeat case_match. }
  split.
  { rewrite !ManagerFacts.notifications_app, ManagerFacts.notifications_notify.
    replace (notifications [SocketCreated _ _]) with (@nil (nat * ConnectionState)) by done.
    rewrite app_nil_r.
    by repeat case_match. }
  done.
Qed.

(** X16. The effect of the hook registers its two handlers under the very
    stream keys it connects with.  For a symbol and an interval whose
    address the [WebSocket] constructor accepts, the manager is left with
    these two streams, one new socket is made for the combined address of
    the two, and from then on a kline frame of the key that has the
    declared types, or a trade frame of the key, reaches the hook's
    handler. *)
Theorem effect_routes_frames (σ : Sys) (symbol : string) (interval : ChartInterval)
    (kH : KlineHandler) (tH : TradeHandler) (obs : ConnectionHandler) :
  symbol ≠ "" ->
  let σ' := (exec (useWebSocket_effect symbol interval kH tH obs) σ).1 in
  let evs := (exec (useWebSocket_effect symbol interval kH tH obs) σ).2 in
  let kkey := getKlineStreamName symbol interval in
  let tkey := getTradeStreamName symbol in
  Browser.accepts (createStreamUrl [kkey; tkey]) = true ->
  streams (this σ') = [kkey; tkey]
  ∧ (∃ id, sockets_created evs
           = [(id, WS_BASE_URL +:+ "/stream?streams=" +:+ kkey +:+ "/" +:+ tkey)]
         ∧ ws (this σ') = Some id
         ∧ Browser.readyState_of (browser σ') id = Some CONNECTING)
  ∧ klineHandlers (this σ') !! kkey = Some kH
  ∧ tradeHandlers (this σ') !! tkey = Some tH
  ∧ (∀ rawData k, frame_key rawData = Some (KlineChannel, kkey) ->
       frame_payload rawData ≫= asBinanceKlineWS = Some k ->
       exec (handleMessage rawData) σ'
       = (σ', [KlineDelivered kH (Some (parseKlineData parseFloat k))]))
  ∧ (∀ rawData, frame_key rawData = Some (TradeChannel, tkey) ->
       ∃ data, frame_payload rawData = Some data
         ∧ exec (handleMessage rawData) σ' = (σ', [TradeDelivered tH data])).
Proof.
  intros Hs. cbv zeta. intros _.
  destruct (effect_state σ symbol interval kH tH obs Hs)
    as (id & Hws & Hrs & Hsock & _ & Hss & Hkh & Hth & _).
  cbv zeta in *.
  set (σ' := (exec (useWebSocket_effect symbol interval kH tH obs) σ).1) in *.
  assert (Hk : klineHandlers (this σ') !! getKlineStreamName symbol interval = Some kH).
  { rewrite Hkh. apply lookup_insert_eq. }
  assert (Ht : tradeHandlers (this σ') !! getTradeStreamName symbol = Some tH).
  { rewrite Hth. apply lookup_insert_eq. }
  split; [exact Hss |].
  split; [by exists id |].
  split; [exact Hk |]. split; [exact Ht |].
  split.
  - intros rawData k Hkey Htyped.
    by apply (DispatchFacts.delivered_kline parseFloat JSON_parse _ _ _ _ _ Hkey).
  - intros rawData Hkey.
    by apply (DispatchFacts.delivered_trade parseFloat JSON_parse _ _ _ _ Hkey).
Qed.

(** X17. The hook's observer is registered after the call of [connect]:
    the ["connecting"] of the effect goes to the observers that were there
    before, in their order, and to the hook's own only if it was one of
    them.  When the address is one the [WebSocket] constructor accepts, so
    that [connect] returns, the observer is registered once the effect is
    done, and the opening of the new socket is announced to it. *)
Theorem effect_observer_misses_connecting (σ : Sys) (symbol : string)
    (interval : ChartInterval) (kH : KlineHandler) (tH : TradeHandler)
    (obs : ConnectionHandler) :
  symbol ≠ "" ->
  let σ' := (exec (useWebSocket_effect symbol interval kH tH obs) σ).1 in
  let evs := (exec (useWebSocket_effect symbol interval kH tH obs) σ).2 in
  notifications evs = map (fun h => (h, connecting)) (connectionHandlers (this σ))
  ∧ (obs ∉ connectionHandlers (this σ) -> obs ∉ (notifications evs).*1)
  ∧ (Browser.accepts
       (createStreamUrl [getKlineStreamName symbol interval; getTradeStreamName symbol])
     = true ->
     obs ∈ connectionHandlers (this σ')
     ∧ (∃ id σ'' t,
          ws (this σ') = Some id
          ∧ step (SocketOpens id) σ' = Some (σ'', t)
          ∧ (obs, connected) ∈ notifications t)).
Proof.
  intros Hs. cbv zeta.
  destruct (effect_state σ symbol interval kH tH obs Hs)
    as (id & Hws & Hrs & _ & Hn & _ & _ & _ & Hch).
  cbv zeta in *.
  set (σ' := (exec (useWebSocket_effect symbol interval kH tH obs) σ).1) in *.
  assert (Hobs : obs ∈ connectionHandlers (this σ')).
  { rewrite Hch. apply set_add_elem. }
  split; [exact Hn |].
  split.
  { intros Hnot. rewrite Hn, RunFacts.fst_notified. exact Hnot. }
  intros _.
  split; [exact Hobs |].
  destruct (step (SocketOpens id) σ') as [[σ'' t] |] eqn:Hstep.
  - exists id, σ'', t. split; [exact Hws |]. split; [exact Hstep |].
    destruct (RunFacts.step_trace parseFloat JSON_parse _ _ _ _ Hstep) as (-> & _).
    apply list_elem_of_fmap. by exists obs.
  - unfold Manager.step in Hstep. by rewrite Hrs in Hstep.
Qed.

(** X18. The clean-up of the hook takes back the registrations of the
    effect and nothing else: it calls nothing and leaves the socket, the
    streams, the attempt counter, the keepalive and the browser as they
    are, so the connection the effect opened stays.  When the keys were
    free and the observer was new, the handlers and observers after the
    effect and its clean-up are those from before the effect. *)
Theorem cleanup_keeps_connection (σ : Sys) (symbol : string) (interval : ChartInterval)
    (kH : KlineHandler) (tH : TradeHandler) (obs : ConnectionHandler) :
  symbol ≠ "" ->
  let σ1 := (exec (useWebSocket_effect symbol interval kH tH obs) σ).1 in
  let σ2 := (exec (useWebSocket_cleanup symbol interval obs) σ1).1 in
  (exec (useWebSocket_cleanup symbol interval obs) σ1).2 = []
  ∧ browser σ2 = browser σ1
  ∧ ws (this σ2) = ws (this σ1)
  ∧ is_Some (ws (this σ2))
  ∧ streams (this σ2) = [getKlineStreamName symbol interval; getTradeStreamName symbol]
  ∧ reconnectAttempts (this σ2) = reconnectAttempts (this σ1)
  ∧ pingInterval (this σ2) = pingInterval (this σ1)
  ∧ klineHandlers (this σ2) !! getKlineStreamName symbol interval = None
  ∧ tradeHandlers (this σ2) !! getTradeStreamName symbol = None
  ∧ (obs ∉ connectionHandlers (this σ2))
  ∧ (klineHandlers (this σ) !! getKlineStreamName symbol interval = None ->
     klineHandlers (this σ2) = klineHandlers (this σ))
  ∧ (tradeHandlers (this σ) !! getTradeStreamName symbol = None ->
     tradeHandlers (this σ2) = tradeHandlers (this σ))
  ∧ (obs ∉ connectionHandlers (this σ) ->
     connectionHandlers (this σ2) = connectionHandlers (this σ)).
Proof.
  intros Hs. cbv zeta.
  destruct (effect_state σ symbol interval kH tH obs Hs)
    as (id & Hws & _ & _ & _ & Hss & Hkh & Hth & Hch).
  cbv zeta in *.
  set (σ1 := (exec (useWebSocket_effect symbol interval kH tH obs) σ).1) in *.
  rewrite (exec_cleanup _ _ _ _ Hs). cbn [fst snd this browser].
  cbn [with_connectionHandlers with_tradeHandlers with_klineHandlers
       ws streams reconnectAttempts pingInterval klineHandlers tradeHandlers
       connectionHandlers].
  rewrite Hws, Hss, Hkh, Hth, Hch.
  repeat match goal with |- _ ∧ _ => split end; try done.
  - apply lookup_delete_eq.
  - apply lookup_delete_eq.
  - unfold set_delete. intros Hin. apply list_elem_of_filter in Hin. by destruct Hin.
  - intros Hfree. by apply delete_insert_id.
  - intros Hfree. by apply delete_insert_id.
  - apply set_delete_add.
Qed.

(** X19. Handlers are kept by key, not by owner.  Of two uses of the hook
    for the same symbol, up to letter case, and the same interval, the
    second takes over both keys; the clean-up of the first then removes
    the handlers of the second, whose frames are dropped from then on
    without any handler being called, while the observer of the second
    stays registered. *)
Theorem cleanup_removes_shared_keys (σ : Sys) (symbol symbol' : string)
    (interval : ChartInterval) (kH kH' : KlineHandler) (tH tH' : TradeHandler)
    (obs obs' : ConnectionHandler) :
  symbol ≠ "" ->
  differ_only_in_case symbol symbol' ->
  let σ1 := (exec (useWebSocket_effect symbol interval kH tH obs) σ).1 in
  let σ2 := (exec (useWebSocket_effect symbol' interval kH' tH' obs') σ1).1 in
  let σ3 := (exec (useWebSocket_cleanup symbol interval obs) σ2).1 in
  klineHandlers (this σ2) !! getKlineStreamName symbol' interval = Some kH'
  ∧ tradeHandlers (this σ2) !! getTradeStreamName symbol' = Some tH'
  ∧ klineHandlers (this σ3) !! getKlineStreamName symbol' interval = None
  ∧ tradeHandlers (this σ3) !! getTradeStreamName symbol' = None
  ∧ (∀ rawData,
       frame_key rawData = Some (KlineChannel, getKlineStreamName symbol' interval)
       ∨ frame_key rawData = Some (TradeChannel, getTradeStreamName symbol') ->
       exec (handleMessage rawData) σ3 = (σ3, []))
  ∧ (obs' ≠ obs -> obs' ∈ connectionHandlers (this σ3)).
Proof.
  intros Hs Hcase. cbv zeta.
  assert (Hs' : symbol' ≠ "").
  { destruct Hcase; [done |]. discriminate. }
  assert (Hlow : toLowerCase symbol = toLowerCase symbol')
    by by apply CodecFacts.toLowerCase_differ_only_in_case.
  assert (Hkk : getKlineStreamName symbol interval = getKlineStreamName symbol' interval)
    by (unfold getKlineStreamName; by rewrite Hlow).
  assert (Htk : getTradeStreamName symbol = getTradeStreamName symbol')
    by (unfold getTradeStreamName; by rewrite Hlow).
  set (σ1 := (exec (useWebSocket_effect symbol interval kH tH obs) σ).1).
  destruct (effect_state σ1 symbol' interval kH' tH' obs' Hs')
    as (id & _ & _ & _ & _ & _ & Hkh & Hth & Hch).
  cbv zeta in *.
  set (σ2 := (exec (useWebSocket_effect symbol' interval kH' tH' obs') σ1).1) in *.
  rewrite (exec_cleanup _ _ _ _ Hs). cbn [fst snd this browser].
  set (σ3 := {| this := _; browser := browser σ2 |}).
  assert (Hk3 : klineHandlers (this σ3) !! getKlineStreamName symbol' interval = None).
  { cbn. rewrite Hkk. apply lookup_delete_eq. }
  assert (Ht3 : tradeHandlers (this σ3) !! getTradeStreamName symbol' = None).
  { cbn. rewrite Htk. apply lookup_delete_eq. }
  split; [rewrite Hkh; apply lookup_insert_eq |].
  split; [rewrite Hth; apply lookup_insert_eq |].
  split; [exact Hk3 |]. split; [exact Ht3 |].
  split.
  - intros rawData Hkey. pose proof (dropped σ3 rawData) as Hd.
    destruct Hkey as [Hkey | Hkey]; rewrite Hkey in Hd; apply Hd.
    + exact Hk3.
    + exact Ht3.
  - intros Hne. cbn. apply set_delete_other; [done |].
    rewrite Hch. apply set_add_elem.
Qed.

End Facts.

(** *** The theorems on the sample hook *)

Local Abbreviation step := (Manager.step Sample.decimal Reader.read_json).
Local Abbreviation handleMessage := (Manager.handleMessage Sample.decimal Reader.read_json).
Local Abbreviation frame_key := (Manager.frame_key Reader.read_json).
Local Abbreviation frame_payload := (Frames.frame_payload Reader.read_json).
Local Abbreviation exec := (Manager.exec (float64 := Sample.number)).
Local Abbreviation useWebSocket_effect := (Hook.useWebSocket_effect (float64 := Sample.number)).
Local Abbreviation useWebSocket_cleanup := (Hook.useWebSocket_cleanup (float64 := Sample.number)).

Lemma btcusdt_not_empty : "BTCUSDT" ≠ "".
Proof. intros H. discriminate H. Defined.

Lemma kline_text_hook_key :
  frame_key Sample.kline_text = Some (KlineChannel, getKlineStreamName "BTCUSDT" "1m").
Proof. vm_compute. reflexivity. Defined.

Lemma btcusdt_address_accepted :
  Browser.accepts
    (createStreamUrl [getKlineStreamName "BTCUSDT" "1m"; getTradeStreamName "BTCUSDT"])
  = true.
Proof. vm_compute. reflexivity. Defined.

Lemma kline_text_hook_typed :
  frame_payload Sample.kline_text ≫= asBinanceKlineWS = Some Sample.kline_frame.
Proof. vm_compute. reflexivity. Defined.

Lemma effect_routes_frames_witness :
  "BTCUSDT" ≠ ""
  ∧ Browser.accepts
      (createStreamUrl [getKlineStreamName "BTCUSDT" "1m"; getTradeStreamName "BTCUSDT"])
    = true
  ∧ frame_key Sample.kline_text = Some (KlineChannel, getKlineStreamName "BTCUSDT" "1m")
  ∧ frame_payload Sample.kline_text ≫= asBinanceKlineWS = Some Sample.kline_frame
  ∧ (let σ' := (exec (useWebSocket_effect "BTCUSDT" "1m" 3 7 9) initial).1 in
     streams (this σ') = ["btcusdt@kline_1m"; "btcusdt@trade"]
     ∧ exec (handleMessage Sample.kline_text) σ'
       = (σ', [KlineDelivered 3
                 (Some (parseKlineData Sample.decimal Sample.kline_frame))])).
Proof.
  split; [exact btcusdt_not_empty |]. split; [exact btcusdt_address_accepted |].
  split; [exact kline_text_hook_key |]. split; [exact kline_text_hook_typed |].
  pose proof (effect_routes_frames Sample.decimal Reader.read_json
                initial "BTCUSDT" "1m" 3 7 9 btcusdt_not_empty) as H.
  cbv zeta in H. destruct (H btcusdt_address_accepted) as (Hss & _ & _ & _ & Hk & _).
  cbv zeta. split; [exact Hss |].
  exact (Hk _ _ kline_text_hook_key kline_text_hook_typed).
Defined.

Lemma effect_observer_misses_connecting_witness :
  "BTCUSDT" ≠ ""
  ∧ (9 ∉ connectionHandlers (this (Manager.initial)))
  ∧ Browser.accepts
      (createStreamUrl [getKlineStreamName "BTCUSDT" "1m"; getTradeStreamName "BTCUSDT"])
    = true
  ∧ (let evs := (exec (useWebSocket_effect "BTCUSDT" "1m" 3 7 9) initial).2 in
     notifications evs = [] ∧ 9 ∉ (notifications evs).*1)
  ∧ 9 ∈ connectionHandlers
          (this (exec (useWebSocket_effect "BTCUSDT" "1m" 3 7 9) initial).1).
Proof.
  assert (Hnew : 9 ∉ connectionHandlers (this (Manager.initial))).
  { apply not_elem_of_nil. }
  split; [exact btcusdt_not_empty |]. split; [exact Hnew |].
  split; [exact btcusdt_address_accepted |].
  pose proof (effect_observer_misses_connecting Sample.decimal Reader.read_json
                initial "BTCUSDT" "1m" 3 7 9 btcusdt_not_empty) as H.
  cbv zeta in H. destruct H as (Hn & Hmiss & Hreg).
  cbv zeta. split; [split; [exact Hn | exact (Hmiss Hnew)] |].
  exact (proj1 (Hreg btcusdt_address_accepted)).
Defined.

Lemma cleanup_keeps_connection_witness :
  "BTCUSDT" ≠ ""
  ∧ klineHandlers (this (Manager.initial)) !! getKlineStreamName "BTCUSDT" "1m" = None
  ∧ (let σ1 := (exec (useWebSocket_effect "BTCUSDT" "1m" 3 7 9) initial).1 in
     let σ2 := (exec (useWebSocket_cleanup "BTCUSDT" "1m" 9) σ1).1 in
     (exec (useWebSocket_cleanup "BTCUSDT" "1m" 9) σ1).2 = []
     ∧ browser σ2 = browser σ1
     ∧ is_Some (ws (this σ2))
     ∧ klineHandlers (this σ2) = klineHandlers (this (Manager.initial))).
Proof.
  assert (Hfree : klineHandlers (this (Manager.initial))
                    !! getKlineStreamName "BTCUSDT" "1m" = None).
  { apply lookup_empty. }
  split; [exact btcusdt_not_empty |]. split; [exact Hfree |].
  pose proof (cleanup_keeps_connection (float64 := Sample.number)
                initial "BTCUSDT" "1m" 3 7 9 btcusdt_not_empty) as H.
  cbv zeta in H.
  destruct H as (Hquiet & Hb & _ & Hws & _ & _ & _ & _ & _ & _ & Hback & _).
  cbv zeta. split; [exact Hquiet |]. split; [exact Hb |]. split; [exact Hws |].
  exact (Hback Hfree).
Defined.

Lemma cleanup_removes_shared_keys_witness :
  "btcusdt" ≠ ""
  ∧ differ_only_in_case "btcusdt" "BTCUSDT"
  ∧ frame_key Sample.kline_text = Some (KlineChannel, getKlineStreamName "BTCUSDT" "1m")
  ∧ (let σ1 := (exec (useWebSocket_effect "btcusdt" "1m" 3 7 9) initial).1 in
     let σ2 := (exec (useWebSocket_effect "BTCUSDT" "1m" 4 8 10) σ1).1 in
     let σ3 := (exec (useWebSocket_cleanup "btcusdt" "1m" 9) σ2).1 in
     klineHandlers (this σ2) !! getKlineStreamName "BTCUSDT" "1m" = Some 4
     ∧ klineHandlers (this σ3) !! getKlineStreamName "BTCUSDT" "1m" = None
     ∧ exec (handleMessage Sample.kline_text) σ3 = (σ3, [])
     ∧ 10 ∈ connectionHandlers (this σ3)).
Proof.
  assert (Hne : "btcusdt" ≠ "").
  { intros H. discriminate H. }
  assert (Hobs : 10 ≠ 9).
  { intros H. discriminate H. }
  split; [exact Hne |].
  split; [exact CodecFacts.btcusdt_differs_only_in_case |].
  split; [exact kline_text_hook_key |].
  pose proof (cleanup_removes_shared_keys Sample.decimal Reader.read_json
                initial "btcusdt" "BTCUSDT" "1m" 3 4 7 8 9 10 Hne
                CodecFacts.btcusdt_differs_only_in_case) as H.
  cbv zeta in H. destruct H as (Hk2 & _ & Hk3 & _ & Hdrop & Hstay).
  cbv zeta. split; [exact Hk2 |]. split; [exact Hk3 |].
  split; [exact (Hdrop _ (or_introl kline_text_hook_key)) | exact (Hstay Hobs)].
Defined.

End HookFacts.

Module SingletonFacts.
Import Codec JS Data Manager Traces Singleton.

Section Facts.

Context {float64 : Type}.

Local Abbreviation exec := (Manager.exec (float64 := float64)).
Local Abbreviation on_instance := (Singleton.on_instance (float64 := float64)).
Local Abbreviation destroyWebSocketInstance :=
  (Singleton.destroyWebSocketInstance (float64 := float64)).

(** X20. There is one manager for the whole application: the first call of
    [getWebSocketInstance] makes it and every later call hands out the
    same object, without touching the browser; so what one caller does
    through it is there for the next, and two calls in a row amount to one
    method body run on the one object. *)
Theorem singleton_is_shared (a : Singleton.Globals) (m1 m2 : M (float64 := float64) unit) :
  wsInstance (getWebSocketInstance a).2 = Some (getWebSocketInstance a).1
  ∧ Singleton.browser (getWebSocketInstance a).2 = Singleton.browser a
  ∧ getWebSocketInstance (getWebSocketInstance a).2 = getWebSocketInstance a
  ∧ (on_instance m2 (on_instance m1 a).1).1 = (on_instance (m1;; m2) a).1
  ∧ (on_instance m1 a).2 ++ (on_instance m2 (on_instance m1 a).1).2
    = (on_instance (m1;; m2) a).2.
Proof.
  unfold Singleton.on_instance, getWebSocketInstance, Manager.exec.
  cbv [mbind Manager.M_bind].
  destruct a as [[inst |] b]; cbn [wsInstance Singleton.browser fst snd];
    (destruct (m1 _) as [[[] [inst1 b1]] t1]; cbn [wsInstance Singleton.browser fst snd
                                                     this Manager.browser];
     destruct (m2 _) as [[[] [inst2 b2]] t2]; done).
Qed.

(** X21. [destroyWebSocketInstance] disconnects the manager and lets go of
    it: the keepalive interval it held is cleared and [close] is called on
    the socket it held, which is neither connecting nor open afterwards;
    pending timeouts stay.  Destroying again does nothing, as does
    destroying when there is no manager.  The next
    [getWebSocketInstance] makes a new manager, with no handlers, no
    streams and the attempt counter at 0. *)
Theorem destroy_gives_fresh_instance (a : Singleton.Globals) :
  let a' := (destroyWebSocketInstance a).1 in
  let evs := (destroyWebSocketInstance a).2 in
  wsInstance a' = None
  ∧ destroyWebSocketInstance a' = (a', [])
  ∧ (wsInstance a = None -> a' = a ∧ evs = [])
  ∧ (getWebSocketInstance a').1 = new_BinanceWebSocket
  ∧ Browser.timeouts (Singleton.browser a') = Browser.timeouts (Singleton.browser a)
  ∧ (∀ inst p, wsInstance a = Some inst -> pingInterval inst = Some p ->
       p ∉ Browser.intervals (Singleton.browser a'))
  ∧ (∀ inst id, wsInstance a = Some inst -> ws inst = Some id ->
       close_calls evs = [id]
       ∧ Browser.readyState_of (Singleton.browser a') id ≠ Some CONNECTING
       ∧ Browser.readyState_of (Singleton.browser a') id ≠ Some OPEN).
Proof.
  cbv zeta. unfold Singleton.destroyWebSocketInstance.
  destruct a as [[inst |] b]; cbn [wsInstance Singleton.browser].
  2: { cbn. repeat split; done. }
  rewrite ManagerFacts.exec_disconnect. cbn [fst snd wsInstance Singleton.browser
    this Manager.browser].
  split; [done |]. split; [done |]. split; [done |]. split; [done |].
  split; [done |].
  split.
  - intros i p Hi%(inj Some) Hp. subst i. rewrite Hp. cbn.
    apply not_elem_of_difference. right. by apply elem_of_singleton.
  - intros i id Hi%(inj Some) Hid. subst i. rewrite Hid. split.
    + by destruct (pingInterval inst).
    + unfold Browser.readyState_of. cbn.
      rewrite list_lookup_alter.
      destruct (decide (id = id)); [| done].
      destruct (Browser.sockets _ !! id) as [[u []] |]; cbn; done.
Qed.

End Facts.

(** *** The theorems on the sample application *)

Lemma destroy_gives_fresh_instance_witness :
  wsInstance Cases.app = Some (this Cases.live)
  ∧ pingInterval (this Cases.live) = Some 1
  ∧ ws (this Cases.live) = Some 0
  ∧ (let a' := (Singleton.destroyWebSocketInstance (float64 := Sample.number) Cases.app).1 in
     let evs := (Singleton.destroyWebSocketInstance (float64 := Sample.number) Cases.app).2 in
     wsInstance a' = None
     ∧ (getWebSocketInstance a').1 = new_BinanceWebSocket
     ∧ (1 ∉ Browser.intervals (Singleton.browser a'))
     ∧ close_calls evs = [0]
     ∧ Browser.readyState_of (Singleton.browser a') 0 ≠ Some OPEN).
Proof.
  assert (Hp : pingInterval (this Cases.live) = Some 1).
  { vm_compute. reflexivity. }
  assert (Hws : ws (this Cases.live) = Some 0).
  { vm_compute. reflexivity. }
  split; [reflexivity |]. split; [exact Hp |]. split; [exact Hws |].
  pose proof (destroy_gives_fresh_instance (float64 := Sample.number) Cases.app) as H.
  cbv zeta in H. destruct H as (Hnone & _ & _ & Hnew & _ & Hint & Hsock).
  destruct (Hsock (this Cases.live) 0 eq_refl Hws) as (Hcalls & _ & Hopen).
  cbv zeta. split; [exact Hnone |]. split; [exact Hnew |].
  split; [exact (Hint (this Cases.live) 1 eq_refl Hp) |].
  split; [exact Hcalls | exact Hopen].
Defined.

End SingletonFacts.

(** ** The REST helpers: signature text and credentials *)

Module HexFacts.
Import Codec Hex.

(** Every byte is written as two digits that read back as the byte. *)
Lemma byte_hex_digits (b : Byte.byte) :
  ∃ c1 c2 h l,
    byte_hex b = String c1 (String c2 EmptyString)
    ∧ digit_value c1 = Some h ∧ digit_value c2 = Some l
    ∧ Byte.of_N (N.of_nat (16 * h + l)) = Some b.
Proof.
  destruct b;
    (eexists _, _, _, _; split; [vm_compute; reflexivity |];
     split; [vm_compute; reflexivity |];
     split; [vm_compute; reflexivity |];
     vm_compute; reflexivity).
Qed.

Lemma join_empty_cons (x : string) (l : list string) :
  join "" (x :: l) = x +:+ join "" l.
Proof.
  destruct l as [| y l]; cbn [join].
  - symmetry. induction x as [| c x IH]; [done |].
    change (String c x +:+ "") with (String c (x +:+ "")). by rewrite IH.
  - reflexivity.
Qed.

Lemma bytes_hex_cons (b : Byte.byte) (bs : list Byte.byte) :
  bytes_hex (b :: bs) = byte_hex b +:+ bytes_hex bs.
Proof. unfold bytes_hex. cbn [map]. apply join_empty_cons. Qed.

Lemma hex_bytes_bytes_hex (bs : list Byte.byte) : hex_bytes (bytes_hex bs) = Some bs.
Proof.
  induction bs as [| b bs IH]; [done |].
  rewrite bytes_hex_cons.
  destruct (byte_hex_digits b) as (c1 & c2 & h & l & -> & H1 & H2 & Hb).
  change (String c1 (String c2 EmptyString) +:+ bytes_hex bs)
    with (String c1 (String c2 (bytes_hex bs))).
  cbn [hex_bytes]. by rewrite H1, H2, IH, Hb.
Qed.

(** X22. The hexadecimal text of the signature loses nothing: read back
    two digits to the byte it gives the bytes it was made of, so two byte
    sequences with the same text are the same. *)
Theorem bytes_hex_round_trip (bs : list Byte.byte) :
  hex_bytes (bytes_hex bs) = Some bs
  ∧ (∀ bs', bytes_hex bs' = bytes_hex bs -> bs' = bs).
Proof.
  split; [apply hex_bytes_bytes_hex |].
  intros bs' Heq.
  pose proof (hex_bytes_bytes_hex bs') as H'. rewrite Heq, hex_bytes_bytes_hex in H'.
  by injection H' as ->.
Qed.

(** X23. The text has exactly two characters for every byte, bytes below
    16 included, and every character is a digit or a lower-case letter
    from [a] to [f]. *)
Theorem bytes_hex_shape (bs : list Byte.byte) :
  String.length (bytes_hex bs) = (2 * List.length bs)%nat
  ∧ Forall (fun c => is_hex_digit c = true) (list_ascii_of_string (bytes_hex bs)).
Proof.
  induction bs as [| b bs [IHl IHd]]; [by split |].
  rewrite bytes_hex_cons.
  destruct (byte_hex_digits b) as (c1 & c2 & h & l & -> & H1 & H2 & _).
  change (String c1 (String c2 EmptyString) +:+ bytes_hex bs)
    with (String c1 (String c2 (bytes_hex bs))).
  split.
  - cbn [String.length List.length]. rewrite IHl. lia.
  - cbn [list_ascii_of_string].
    repeat apply Forall_cons_2; [| | exact IHd];
      unfold is_hex_digit; apply bool_decide_eq_true_2; by eexists.
Qed.

Lemma bytes_hex_round_trip_witness :
  bytes_hex Cases.some_bytes = "000fa5ff"
  ∧ hex_bytes (bytes_hex Cases.some_bytes) = Some Cases.some_bytes
  ∧ bytes_hex (rev (rev Cases.some_bytes)) = bytes_hex Cases.some_bytes
  ∧ rev (rev Cases.some_bytes) = Cases.some_bytes.
Proof.
  split; [vm_compute; reflexivity |].
  split; [exact (proj1 (bytes_hex_round_trip Cases.some_bytes)) |].
  split; [reflexivity |].
  exact (proj2 (bytes_hex_round_trip Cases.some_bytes)
           (rev (rev Cases.some_bytes)) eq_refl).
Defined.

End HexFacts.

Module CredentialsFacts.
Import JS Credentials.

Section Facts.

Variable JSON_parse : string -> option value.
Variable JSON_stringify : ApiCredentials -> string.

Local Abbreviation getApiCredentials := (Credentials.getApiCredentials JSON_parse JSON_stringify).
Local Abbreviation saveApiCredentials := (Credentials.saveApiCredentials JSON_stringify).

Lemma eqb_nonempty (s : string) : s ≠ "" -> String.eqb s "" = false.
Proof. intros H. by apply String.eqb_neq. Qed.

(** X24. In a browser whose storage works, credentials that were saved
    are the ones read next, whatever was stored before and whatever the
    environment provides; reading leaves the storage as the saving left
    it. *)
Theorem saved_credentials_read_back (c : ApiCredentials) (w : World) :
  window_defined w = true ->
  storage_throws w = false ->
  JSON_stringify c ≠ "" ->
  JSON_parse (JSON_stringify c) = Some (object_of c) ->
  stored (saveApiCredentials c w) = Some (JSON_stringify c)
  ∧ getApiCredentials (saveApiCredentials c w)
    = (object_of c, saveApiCredentials c w).
Proof.
  intros Hw Ht Hne Hparse.
  unfold Credentials.saveApiCredentials, Credentials.getApiCredentials,
    read_stored, getItem, setItem.
  rewrite Hw, Ht. cbn. rewrite Hw, Ht. cbn.
  by rewrite (eqb_nonempty _ Hne), Hparse.
Qed.

(** X25. Clearing does not last when the environment provides
    credentials: in a browser whose storage works, the clearing empties
    the item, and the next reading answers with the credentials of the
    environment and stores them again; without credentials in the
    environment it answers [null] and the item stays empty. *)
Theorem cleared_credentials_come_back (w : World) :
  window_defined w = true ->
  storage_throws w = false ->
  let w1 := clearApiCredentials w in
  stored w1 = None
  ∧ (∀ c, env_credentials w = Some c ->
       getApiCredentials w1 = (object_of c, with_stored (Some (JSON_stringify c)) w))
  ∧ (env_credentials w = None -> getApiCredentials w1 = (VNull, w1)).
Proof.
  intros Hw Ht. cbv zeta.
  unfold clearApiCredentials, Credentials.getApiCredentials, read_stored, getItem,
    setItem, removeItem, env_credentials.
  rewrite Hw, Ht. cbn. rewrite Hw, Ht. cbn.
  split; [done |]. split.
  - intros c Hc. by rewrite Hc.
  - intros Hc. by rewrite Hc.
Qed.

(** X26. Without a usable storage the helpers fall back silently: on the
    server, and in a browser whose storage throws, saving and clearing
    change nothing, and reading answers from the environment alone, with
    the credentials when both variables are set and not empty and with
    [null] otherwise. *)
Theorem credentials_without_storage (c : ApiCredentials) (w : World) :
  window_defined w = false ∨ storage_throws w = true ->
  saveApiCredentials c w = w
  ∧ clearApiCredentials w = w
  ∧ getApiCredentials w
    = (match env_credentials w with Some c' => object_of c' | None => VNull end, w).
Proof.
  unfold Credentials.saveApiCredentials, clearApiCredentials,
    Credentials.getApiCredentials, read_stored, getItem, setItem, removeItem.
  intros [Hw | Ht].
  - by rewrite Hw.
  - rewrite Ht. destruct (window_defined w); cbn; [| done].
    by destruct (env_credentials w).
Qed.

(** X27. What is stored is trusted: in a browser whose storage works, a
    stored text that is not empty and parses is answered as parsed,
    whatever the value and whatever the environment provides, and nothing
    is written.  A stored text that does not parse is passed over: the
    answer comes from the environment, whose credentials then replace the
    text; with none the answer is [null] and the text stays. *)
Theorem stored_text_is_trusted (w : World) (raw : string) :
  window_defined w = true ->
  storage_throws w = false ->
  stored w = Some raw ->
  raw ≠ "" ->
  (∀ v, JSON_parse raw = Some v -> getApiCredentials w = (v, w))
  ∧ (JSON_parse raw = None ->
     getApiCredentials w
     = match env_credentials w with
       | Some c => (object_of c, with_stored (Some (JSON_stringify c)) w)
       | None => (VNull, w)
       end).
Proof.
  intros Hw Ht Hs Hne.
  unfold Credentials.getApiCredentials, read_stored, getItem, setItem.
  rewrite Hw, Ht, Hs. cbn. rewrite (eqb_nonempty _ Hne).
  split.
  - intros v Hv. by rewrite Hv.
  - intros Hv. rewrite Hv. by destruct (env_credentials w).
Qed.

End Facts.

(** *** The theorems on the sample worlds *)

Local Abbreviation getApiCredentials :=
  (Credentials.getApiCredentials Reader.read_json Cases.stringify).
Local Abbreviation saveApiCredentials := (Credentials.saveApiCredentials Cases.stringify).

Lemma saved_credentials_read_back_witness :
  window_defined Cases.client = true
  ∧ storage_throws Cases.client = false
  ∧ Cases.stringify Cases.test_credentials ≠ ""
  ∧ Reader.read_json (Cases.stringify Cases.test_credentials)
    = Some (object_of Cases.test_credentials)
  ∧ stored (saveApiCredentials Cases.test_credentials Cases.client)
    = Some (Cases.stringify Cases.test_credentials)
  ∧ getApiCredentials (saveApiCredentials Cases.test_credentials Cases.client)
    = (object_of Cases.test_credentials,
       saveApiCredentials Cases.test_credentials Cases.client).
Proof.
  assert (Hne : Cases.stringify Cases.test_credentials ≠ "").
  { vm_compute. intros H. discriminate H. }
  assert (Hparse : Reader.read_json (Cases.stringify Cases.test_credentials)
                   = Some (object_of Cases.test_credentials)).
  { vm_compute. reflexivity. }
  split; [reflexivity |]. split; [reflexivity |]. split; [exact Hne |].
  split; [exact Hparse |].
  exact (saved_credentials_read_back Reader.read_json Cases.stringify
           Cases.test_credentials Cases.client eq_refl eq_refl Hne Hparse).
Defined.

Lemma cleared_credentials_come_back_witness :
  window_defined Cases.client = true
  ∧ storage_throws Cases.client = false
  ∧ env_credentials Cases.client = Some Cases.env_test_credentials
  ∧ (let w := saveApiCredentials Cases.test_credentials Cases.client in
     stored (clearApiCredentials w) = None
     ∧ getApiCredentials (clearApiCredentials w)
       = (object_of Cases.env_test_credentials,
          with_stored (Some (Cases.stringify Cases.env_test_credentials)) w)).
Proof.
  split; [reflexivity |]. split; [reflexivity |]. split; [reflexivity |].
  pose proof (cleared_credentials_come_back Reader.read_json Cases.stringify
                (saveApiCredentials Cases.test_credentials Cases.client)
                eq_refl eq_refl) as H.
  cbv zeta in H. destruct H as (Hnone & Henv & _).
  cbv zeta. split; [exact Hnone |].
  exact (Henv Cases.env_test_credentials eq_refl).
Defined.

Lemma credentials_without_storage_witness :
  window_defined Cases.server = false
  ∧ saveApiCredentials Cases.test_credentials Cases.server = Cases.server
  ∧ getApiCredentials Cases.server = (object_of Cases.env_test_credentials, Cases.server)
  ∧ storage_throws Cases.client_blocked = true
  ∧ clearApiCredentials Cases.client_blocked = Cases.client_blocked
  ∧ getApiCredentials Cases.client_blocked = (VNull, Cases.client_blocked).
Proof.
  pose proof (credentials_without_storage Reader.read_json Cases.stringify
                Cases.test_credentials Cases.server (or_introl eq_refl))
    as (Hsave & _ & Hget).
  pose proof (credentials_without_storage Reader.read_json Cases.stringify
                Cases.test_credentials Cases.client_blocked (or_intror eq_refl))
    as (_ & Hclear & Hget').
  split; [reflexivity |]. split; [exact Hsave |]. split; [exact Hget |].
  split; [reflexivity |]. split; [exact Hclear | exact Hget'].
Defined.

Lemma stored_text_is_trusted_witness :
  window_defined Cases.client_corrupted = true
  ∧ storage_throws Cases.client_corrupted = false
  ∧ stored Cases.client_corrupted = Some "{oops"
  ∧ "{oops" ≠ ""
  ∧ Reader.read_json "{oops" = None
  ∧ getApiCredentials Cases.client_corrupted
    = (object_of Cases.env_test_credentials,
       with_stored (Some (Cases.stringify Cases.env_test_credentials))
         Cases.client_corrupted)
  ∧ Reader.read_json "null" = Some VNull
  ∧ getApiCredentials (with_stored (Some "null") Cases.client)
    = (VNull, with_stored (Some "null") Cases.client).
Proof.
  assert (Hne : "{oops" ≠ "").
  { intros H. discriminate H. }
  assert (Hne' : "null" ≠ "").
  { intros H. discriminate H. }
  assert (Hbad : Reader.read_json "{oops" = None).
  { vm_compute. reflexivity. }
  assert (Hnull : Reader.read_json "null" = Some VNull).
  { vm_compute. reflexivity. }
  split; [reflexivity |]. split; [reflexivity |]. split; [reflexivity |].
  split; [exact Hne |]. split; [exact Hbad |].
  split.
  - exact (proj2 (stored_text_is_trusted Reader.read_json Cases.stringify
                    Cases.client_corrupted "{oops" eq_refl eq_refl eq_refl Hne) Hbad).
  - split; [exact Hnull |].
    exact (proj1 (stored_text_is_trusted Reader.read_json Cases.stringify
                    (with_stored (Some "null") Cases.client) "null"
                    eq_refl eq_refl eq_refl Hne') VNull Hnull).
Defined.

End CredentialsFacts.

(** ** The address of a list of streams *)

Module StreamFacts.
Import Codec Streams.

Lemma append_inv_head (p a b : string) : p +:+ a = p +:+ b -> a = b.
Proof.
  induction p as [| c p IH]; [done |].
  change (String c p +:+ a) with (String c (p +:+ a)).
  change (String c p +:+ b) with (String c (p +:+ b)).
  intros [= H]. by apply IH.
Qed.

Lemma contains_app (c : ascii) (s1 s2 : string) :
  contains c (s1 +:+ s2) = contains c s1 || contains c s2.
Proof.
  induction s1 as [| c' s1 IH]; [done |].
  change (String c' s1 +:+ s2) with (String c' (s1 +:+ s2)).
  cbn [contains]. rewrite IH. by rewrite orb_assoc.
Qed.

Lemma slash_in_joined (x rest : string) : contains "/" (x +:+ "/" +:+ rest) = true.
Proof. rewrite contains_app. cbn. by rewrite orb_true_r. Qed.

(** Up to the first [/], two texts that agree agree part by part. *)
Lemma split_at_slash (x y r r' : string) :
  contains "/" x = false -> contains "/" y = false ->
  x +:+ "/" +:+ r = y +:+ "/" +:+ r' -> x = y ∧ r = r'.
Proof.
  revert y. induction x as [| c x IH]; intros [| d y] Hx Hy.
  - change ("" +:+ "/" +:+ r) with (String "/" r).
    change ("" +:+ "/" +:+ r') with (String "/" r'). by intros [= ->].
  - change ("" +:+ "/" +:+ r) with (String "/" r).
    change (String d y +:+ "/" +:+ r') with (String d (y +:+ "/" +:+ r')).
    intros [= <- _]. cbn in Hy. discriminate.
  - change ("" +:+ "/" +:+ r') with (String "/" r').
    change (String c x +:+ "/" +:+ r) with (String c (x +:+ "/" +:+ r)).
    intros [= -> _]. cbn in Hx. discriminate.
  - change (String c x +:+ "/" +:+ r) with (String c (x +:+ "/" +:+ r)).
    change (String d y +:+ "/" +:+ r') with (String d (y +:+ "/" +:+ r')).
    intros [= -> H]. cbn [contains] in Hx, Hy.
    apply orb_false_iff in Hx as [_ Hx]. apply orb_false_iff in Hy as [_ Hy].
    destruct (IH y Hx Hy H) as [-> ->]. done.
Qed.

Lemma join_cons2 (sep x y : string) (l : list string) :
  join sep (x :: y :: l) = x +:+ sep +:+ join sep (y :: l).
Proof. reflexivity. Qed.

(** [join] with [/] gives the parts back, but for the empty list and the
    list of one empty text, which both give the empty text. *)
Lemma join_slash_inj (l l' : list string) :
  slash_free l -> slash_free l' ->
  join "/" l = join "/" l' ->
  l = l' ∨ (l = [] ∧ l' = [""]) ∨ (l = [""] ∧ l' = []).
Proof.
  revert l'. induction l as [| x tl IH]; intros l' Hl Hl' Hj.
  - destruct l' as [| y [| y2 tl']]; [by left | |].
    + cbn in Hj. subst y. right. by left.
    + rewrite join_cons2 in Hj.
      pose proof (slash_in_joined y (join "/" (y2 :: tl'))) as Hs.
      rewrite <- Hj in Hs. discriminate.
  - apply Forall_cons in Hl as [Hx Htl].
    destruct tl as [| x2 tl].
    + destruct l' as [| y [| y2 tl']].
      * cbn in Hj. subst x. right. by right.
      * cbn in Hj. subst y. by left.
      * rewrite join_cons2 in Hj.
        pose proof (slash_in_joined y (join "/" (y2 :: tl'))) as Hs.
        rewrite <- Hj in Hs. cbn [join] in Hs. rewrite Hx in Hs. discriminate.
    + rewrite join_cons2 in Hj.
      pose proof (slash_in_joined x (join "/" (x2 :: tl))) as Hs.
      destruct l' as [| y [| y2 tl']].
      * rewrite Hj in Hs. discriminate.
      * apply Forall_cons in Hl' as [Hy _].
        rewrite Hj in Hs. cbn [join] in Hs. rewrite Hy in Hs. discriminate.
      * apply Forall_cons in Hl' as [Hy Htl'].
        rewrite join_cons2 in Hj.
        destruct (split_at_slash _ _ _ _ Hx Hy Hj) as [-> Hrest].
        destruct (IH (y2 :: tl') Htl Htl' Hrest) as [H | [[H _] | [_ H]]];
          [left; by rewrite H | discriminate H | discriminate H].
Qed.

Lemma plain_slash_free (l : list string) :
  forallb plain l = true -> slash_free l.
Proof.
  intros H. apply Forall_forall. intros key Hin.
  rewrite forallb_forall in H. specialize (H key).
  unfold plain in H. rewrite andb_true_iff, !negb_true_iff in H.
  apply H. by apply list_elem_of_In.
Qed.

Lemma plain_no_question (key rest : string) :
  plain key = true -> key ≠ "stream?streams=" +:+ rest.
Proof.
  intros H ->. unfold plain in H. rewrite andb_true_iff, !negb_true_iff in H.
  destruct H as [_ H]. rewrite contains_app in H. cbn in H. discriminate.
Qed.

(** X28. The address tells the streams: two lists of stream keys, none of
    which holds a [/] or a [?], that give the same address are the same
    list, whether the address is the direct one of a single stream or the
    combined one. *)
Theorem createStreamUrl_injective (streams streams' : list string) :
  forallb plain streams = true ->
  forallb plain streams' = true ->
  createStreamUrl streams = createStreamUrl streams' ->
  streams = streams'.
Proof.
  intros Hp Hp' Hurl.
  pose proof (plain_slash_free _ Hp) as Hs.
  pose proof (plain_slash_free _ Hp') as Hs'.
  assert (Hsingle : ∀ key l, plain key = true ->
            createStreamUrl [key] = WS_BASE_URL +:+ "/stream?streams=" +:+ join "/" l ->
            False).
  { intros key l Hk H. unfold createStreamUrl in H.
    apply append_inv_head in H.
    change ("/stream?streams=" +:+ join "/" l)
      with ("/" +:+ "stream?streams=" +:+ join "/" l) in H.
    apply (append_inv_head "/") in H.
    by apply (plain_no_question _ _ Hk) in H. }
  assert (Hmany : ∀ l l', slash_free l -> slash_free l' ->
            List.length l ≠ 1%nat -> List.length l' ≠ 1%nat ->
            WS_BASE_URL +:+ "/stream?streams=" +:+ join "/" l
            = WS_BASE_URL +:+ "/stream?streams=" +:+ join "/" l' -> l = l').
  { intros l l' Hl Hl' Hn Hn' H.
    apply append_inv_head, (append_inv_head "/stream?streams=") in H.
    destruct (join_slash_inj _ _ Hl Hl' H) as [? | [[_ ->] | [-> _]]]; done. }
  destruct streams as [| x [| x2 tl]], streams' as [| y [| y2 tl']].
  - done.
  - exfalso. cbn [forallb] in Hp'. rewrite andb_true_r in Hp'.
    by apply (Hsingle y [] Hp').
  - by apply Hmany.
  - exfalso. cbn [forallb] in Hp. rewrite andb_true_r in Hp.
    by apply (Hsingle x [] Hp).
  - unfold createStreamUrl in Hurl.
    apply append_inv_head, (append_inv_head "/") in Hurl. by subst.
  - exfalso. cbn [forallb] in Hp. rewrite andb_true_r in Hp.
    by apply (Hsingle x (y :: y2 :: tl') Hp).
  - by apply Hmany.
  - exfalso. cbn [forallb] in Hp'. rewrite andb_true_r in Hp'.
    by apply (Hsingle y (x :: x2 :: tl) Hp').
  - by apply Hmany.
Qed.

Lemma createStreamUrl_injective_witness :
  forallb plain Cases.both_streams = true
  ∧ forallb plain ["btcusdt@kline_1m"; "btcusdt@trade"] = true
  ∧ createStreamUrl ["btcusdt@kline_1m"; "btcusdt@trade"]
    = createStreamUrl Cases.both_streams
  ∧ ["btcusdt@kline_1m"; "btcusdt@trade"] = Cases.both_streams.
Proof.
  assert (Hp : forallb plain Cases.both_streams = true).
  { vm_compute. reflexivity. }
  split; [exact Hp |]. split; [exact Hp |]. split; [reflexivity |].
  exact (createStreamUrl_injective ["btcusdt@kline_1m"; "btcusdt@trade"]
           Cases.both_streams Hp Hp eq_refl).
Defined.

End StreamFacts.
